(** * ScreenSift: the classification-to-storage mapping and the retention model

    A shallow embedding of the request handlers of [src/index.ts] (the
    multi-label pipeline), of its single-label variant, and of the tables of
    [src/db/schema.ts], together with the properties the specification
    states about them.

    Conventions of the embedding.
    - The relational store is a record of row lists in rowid order; the
      constraints the schema declares (primary keys, unique indexes,
      foreign keys with ON DELETE CASCADE) are checked by the write
      operations, and a violated constraint throws, as the driver does.
    - The blob store is a finite map from keys to stored objects.
    - A handler is a computation over the world (store, bucket, effect log)
      that either completes normally or throws; the handlers' own
      [try]/[catch] turns a throw into a 500 response or an [isError] tool
      result.  Writes done before a throw stay done: the source opens no
      transaction.
    - What a request reads from outside (the clock, [crypto.randomUUID], the
      vision model's answer) is an explicit [Ambient] argument.  The store and
      the bucket themselves do not fail spontaneously.
    - [real] columns and JSON numbers are rationals; only their order is
      ever used.  Timestamps are the integer seconds the
      [{ mode: "timestamp" }] columns hold. *)

From stdpp Require Import gmap strings list.
From Stdlib Require Import ZArith QArith String Ascii DecimalString Sorted Lia.

Open Scope string_scope.
Open Scope Z_scope.

Definition bytes := list Byte.byte.

(** ** JavaScript strings and dates, as far as the handlers use them *)

Module Js.

(** [s.split(sep)] for a one-character separator: never empty. *)
Fixpoint split (sep : ascii) (s : string) : list string :=
  match s with
  | EmptyString => [EmptyString]
  | String c s' =>
      if Ascii.eqb c sep then EmptyString :: split sep s'
      else match split sep s' with
           | [] => [String c EmptyString]
           | seg :: rest => String c seg :: rest
           end
  end.

(** [a.pop()]: the last element, [undefined] on an empty array. *)
Fixpoint pop (a : list string) : option string :=
  match a with
  | [] => None
  | [x] => Some x
  | _ :: rest => pop rest
  end.

(** [x || dflt] on a possibly undefined string: the empty string is falsy. *)
Definition or_else (x : option string) (dflt : string) : string :=
  match x with
  | Some s => if String.eqb s "" then dflt else s
  | None => dflt
  end.

(** [s.includes(c)] for one character. *)
Fixpoint contains (c : ascii) (s : string) : bool :=
  match s with
  | EmptyString => false
  | String x s' => Ascii.eqb x c || contains c s'
  end.

(** [String(n)] and [`${n}`] for an integer. *)
Definition String_of (n : Z) : string := NilZero.string_of_int (Z.to_int n).

Fixpoint repeat_char (c : ascii) (n : nat) : string :=
  match n with
  | O => EmptyString
  | S n' => String c (repeat_char c n')
  end.

(** [s.padStart(width, c)] for a one-character filler. *)
Definition padStart (width : nat) (c : ascii) (s : string) : string :=
  repeat_char c (width - String.length s) ++ s.

(** [s.startsWith(p)]. *)
Definition startsWith (s p : string) : bool := String.prefix p s.

(** [if (s)] on an optional query-string value. *)
Definition truthy (s : option string) : bool :=
  match s with
  | Some v => negb (String.eqb v "")
  | None => false
  end.

(** The readings of one [new Date()] a handler uses. *)
Record Date := {
  getFullYear : Z;
  getMonth : Z;          (* 0 .. 11 *)
  getSeconds : Z;        (* what a timestamp-mode column stores *)
  toISOString : string
}.

(** [a.slice(start, end)] on a typed array, for indices inside
    [0 .. 2^53]: the elements from [start] up to, not including, [end],
    clipped to the array. *)
Definition slice {A} (a : list A) (start end_ : nat) : list A :=
  firstn (end_ - start) (skipn start a).

(** [String.fromCharCode(...chunk)] on bytes: one character per byte. *)
Fixpoint fromCharCode (chunk : list Byte.byte) : string :=
  match chunk with
  | [] => EmptyString
  | b :: rest => String (ascii_of_byte b) (fromCharCode rest)
  end.

(** The conversion loop of [analyzeScreenshot] and of the extraction tools,
    [for (let i = 0; i < a.length; i += chunkSize)
       binaryString += String.fromCharCode(...a.slice(i, i + chunkSize))],
    entered at index [i] with [binaryString] built so far.  [fuel] bounds
    the number of turns; [None] when it runs out. *)
Fixpoint binaryString_from (fuel : nat) (chunkSize : nat)
         (a : list Byte.byte) (i : nat) (binaryString : string)
  : option string :=
  if (i <? List.length a)%nat then
    match fuel with
    | O => None
    | S fuel' =>
        binaryString_from fuel' chunkSize a (i + chunkSize)
          (binaryString ++ fromCharCode (slice a i (i + chunkSize)))
    end
  else Some binaryString.

(** The sizes of the chunks the loop spreads into [fromCharCode]. *)
Fixpoint chunk_sizes (fuel : nat) (chunkSize : nat) (a : list Byte.byte)
         (i : nat) : list nat :=
  if (i <? List.length a)%nat then
    match fuel with
    | O => []
    | S fuel' =>
        List.length (slice a i (i + chunkSize))
        :: chunk_sizes fuel' chunkSize a (i + chunkSize)
    end
  else [].

(** [Math.round(x / 1024 / 1024)] for an integer [x] below [2^53] in
    magnitude, where [x] is a double without loss and both divisions are
    exact in floating point: the nearest integer, halves upwards.  From
    [2^53] on the double that holds [x] is itself rounded and the figure can
    differ by one; statements about this function carry the bound. *)
Definition round_MiB (x : Z) : Z := (x + 524288) / 1048576.

End Js.

(** ** The tables of [src/db/schema.ts] *)

Module Store.

Record Screenshot := {
  s_id : string;
  s_filename : string;
  s_r2Key : string;
  s_fileSize : Z;
  s_mimeType : string;
  s_uploadedAt : Z;
  s_analyzedAt : option Z;
  s_isImportant : option bool;
  s_confidenceScore : option Q
}.

Record Category := {
  c_id : Z;
  c_name : string;
  c_description : option string;
  c_createdAt : Z
}.

Record ScreenshotCategory := {
  sc_screenshotId : string;
  sc_categoryId : Z;
  sc_confidence : option Q
}.

Record AnalysisResult (J : Type) := {
  ar_id : Z;
  ar_screenshotId : string;
  ar_analysisType : string;
  ar_resultData : J;
  ar_createdAt : Z
}.
Arguments ar_id {J} _.
Arguments ar_screenshotId {J} _.
Arguments ar_analysisType {J} _.
Arguments ar_resultData {J} _.
Arguments ar_createdAt {J} _.
Arguments Build_AnalysisResult {J} _ _ _ _ _.

(** The database: the four tables and the two AUTOINCREMENT counters
    ([sqlite_sequence]). *)
Record DB (J : Type) := {
  screenshots : list Screenshot;
  categories : list Category;
  screenshotCategories : list ScreenshotCategory;
  analysisResults : list (AnalysisResult J);
  categories_seq : Z;
  analysisResults_seq : Z
}.
Arguments screenshots {J} _.
Arguments categories {J} _.
Arguments screenshotCategories {J} _.
Arguments analysisResults {J} _.
Arguments categories_seq {J} _.
Arguments analysisResults_seq {J} _.
Arguments Build_DB {J} _ _ _ _ _ _.

Definition empty_db {J} : DB J := Build_DB [] [] [] [] 0 0.

(** What [R2.put] stores under a key. *)
Record R2Object := {
  o_body : bytes;
  o_contentType : string;
  o_cacheControl : string;
  o_customMetadata : list (string * string)
}.

Section Queries.
Context {J : Type}.
Implicit Types (d : DB J).

Definition with_screenshots (l : list Screenshot) d : DB J :=
  Build_DB l (categories d) (screenshotCategories d) (analysisResults d)
           (categories_seq d) (analysisResults_seq d).

(** [select().from(screenshots).where(eq(id, i))], first row. *)
Definition select_screenshot (i : string) d : option Screenshot :=
  List.find (fun s => String.eqb (s_id s) i) (screenshots d).

(** [select().from(categories).where(eq(name, n))], first row. *)
Definition select_category (n : string) d : option Category :=
  List.find (fun c => String.eqb (c_name c) n) (categories d).

Definition has_screenshot (i : string) d : bool :=
  existsb (fun s => String.eqb (s_id s) i) (screenshots d).

Definition has_category (i : Z) d : bool :=
  existsb (fun c => Z.eqb (c_id c) i) (categories d).

(** The rowid an AUTOINCREMENT table gives its next row: one more than
    the largest rowid ever used. *)
Definition next_rowid (seq : Z) (used : list Z) : Z :=
  1 + fold_right Z.max seq used.

(** [insert(screenshots).values({filename, r2Key, fileSize, mimeType})
    .returning()]: [id] and [uploadedAt] come from the column defaults,
    [isImportant] defaults to false, the other columns are NULL.  The
    primary key and the unique index on [r2_key] are enforced. *)
Definition new_screenshot (i : string) (fname key : string) (size : Z)
           (mime : string) (uploaded : Z) : Screenshot :=
  {| s_id := i; s_filename := fname; s_r2Key := key;
     s_fileSize := size; s_mimeType := mime;
     s_uploadedAt := uploaded; s_analyzedAt := None;
     s_isImportant := Some false;
     s_confidenceScore := None |}.

(** Whether a row with this id or this key is already there. *)
Definition taken (i key : string) d : bool :=
  existsb (fun s => String.eqb (s_id s) i || String.eqb (s_r2Key s) key)
          (screenshots d).

Definition insert_screenshot (i : string) (fname key : string) (size : Z)
           (mime : string) (uploaded : Z) d : option (Screenshot * DB J) :=
  if taken i key d then None
  else
    let row := new_screenshot i fname key size mime uploaded in
    Some (row, with_screenshots (screenshots d ++ [row]) d).

Definition set_analysis (at_ : Z) (imp : bool) (conf : Q) (s : Screenshot)
  : Screenshot :=
  {| s_id := s_id s; s_filename := s_filename s; s_r2Key := s_r2Key s;
     s_fileSize := s_fileSize s; s_mimeType := s_mimeType s;
     s_uploadedAt := s_uploadedAt s; s_analyzedAt := Some at_;
     s_isImportant := Some imp; s_confidenceScore := Some conf |}.

(** [update(screenshots).set({analyzedAt, isImportant, confidenceScore})
    .where(eq(id, i))]. *)
Definition update_screenshot (i : string) (at_ : Z) (imp : bool) (conf : Q)
           d : DB J :=
  with_screenshots
    (map (fun s => if String.eqb (s_id s) i
                   then set_analysis at_ imp conf s else s)
         (screenshots d)) d.

(** [insert(analysisResults).values({screenshotId, analysisType,
    resultData})]; the foreign key to [screenshots] is enforced. *)
Definition new_analysisResult (sid ty : string) (data : J) (created : Z) d
  : AnalysisResult J :=
  {| ar_id := next_rowid (analysisResults_seq d)
                         (map ar_id (analysisResults d));
     ar_screenshotId := sid; ar_analysisType := ty; ar_resultData := data;
     ar_createdAt := created |}.

Definition append_analysisResult (row : AnalysisResult J) d : DB J :=
  Build_DB (screenshots d) (categories d) (screenshotCategories d)
    (analysisResults d ++ [row]) (categories_seq d) (ar_id row).

Definition insert_analysisResult (sid ty : string) (data : J) (created : Z)
           d : option (DB J) :=
  if has_screenshot sid d
  then Some (append_analysisResult (new_analysisResult sid ty data created d) d)
  else None.

(** [insert(categories).values({ name }).returning()]; the unique index
    on [name] is enforced. *)
Definition new_category (n : string) (created : Z) d : Category :=
  {| c_id := next_rowid (categories_seq d) (map c_id (categories d));
     c_name := n; c_description := None; c_createdAt := created |}.

Definition append_category (row : Category) d : DB J :=
  Build_DB (screenshots d) (categories d ++ [row]) (screenshotCategories d)
    (analysisResults d) (c_id row) (analysisResults_seq d).

Definition insert_category (n : string) (created : Z) d
  : option (Category * DB J) :=
  if existsb (fun c => String.eqb (c_name c) n) (categories d) then None
  else
    let row := new_category n created d in
    Some (row, append_category row d).

(** [insert(screenshotCategories).values({screenshotId, categoryId,
    confidence})]; both foreign keys are enforced; the table has no key of
    its own. *)
Definition append_screenshotCategory (row : ScreenshotCategory) d : DB J :=
  Build_DB (screenshots d) (categories d) (screenshotCategories d ++ [row])
    (analysisResults d) (categories_seq d) (analysisResults_seq d).

Definition insert_screenshotCategory (sid : string) (cid : Z) (conf : Q)
           d : option (DB J) :=
  if has_screenshot sid d && has_category cid d then
    Some (append_screenshotCategory
            {| sc_screenshotId := sid; sc_categoryId := cid;
               sc_confidence := Some conf |} d)
  else None.

(** [delete(screenshotCategories).where(eq(screenshotId, sid))]. *)
Definition delete_screenshotCategories (sid : string) d : DB J :=
  Build_DB (screenshots d) (categories d)
    (List.filter (fun l => negb (String.eqb (sc_screenshotId l) sid))
                 (screenshotCategories d))
    (analysisResults d) (categories_seq d) (analysisResults_seq d).

(** [delete(screenshots).where(eq(id, i))]: the rows of
    [screenshot_categories] and [analysis_results] that reference the
    screenshot go with it (ON DELETE CASCADE). *)
Definition delete_screenshot (i : string) d : DB J :=
  Build_DB
    (List.filter (fun s => negb (String.eqb (s_id s) i)) (screenshots d))
    (categories d)
    (List.filter (fun l => negb (String.eqb (sc_screenshotId l) i))
                 (screenshotCategories d))
    (List.filter (fun a => negb (String.eqb (ar_screenshotId a) i))
                 (analysisResults d))
    (categories_seq d) (analysisResults_seq d).

(** The link rows of one screenshot, and the category names they join
    to ([innerJoin(categories, eq(categoryId, categories.id))]). *)
Definition links_of (sid : string) d : list ScreenshotCategory :=
  List.filter (fun l => String.eqb (sc_screenshotId l) sid)
              (screenshotCategories d).

Definition category_names_of (sid : string) d : list string :=
  flat_map (fun l =>
              map c_name
                  (List.filter (fun c => Z.eqb (c_id c) (sc_categoryId l))
                               (categories d)))
           (links_of sid d).

(** How many rows of [categories] carry a name. *)
Definition count_named (n : string) d : nat :=
  List.length (List.filter (fun c => String.eqb (c_name c) n) (categories d)).

(** The part of the schema's integrity the join of one screenshot relies
    on: category ids are a key, and the screenshot's links reference
    existing categories. *)
Definition linked (sid : string) d : Prop :=
  NoDup (map c_id (categories d))
  /\ Forall (fun l => has_category (sc_categoryId l) d = true)
            (links_of sid d).

Definition results_of (sid : string) d : list (AnalysisResult J) :=
  List.filter (fun a => String.eqb (ar_screenshotId a) sid)
              (analysisResults d).

(** The link row that ties a screenshot to a category row. *)
Definition link_to (sid : string) (conf : Q) (c : Category)
  : ScreenshotCategory :=
  {| sc_screenshotId := sid; sc_categoryId := c_id c;
     sc_confidence := Some conf |}.

(** *** The constraints of the schema, as a predicate on stores

    Primary keys and unique indexes hold, and every foreign key points at
    an existing row. *)
Definition integrity d : Prop :=
  NoDup (map s_id (screenshots d))
  /\ NoDup (map s_r2Key (screenshots d))
  /\ NoDup (map c_id (categories d))
  /\ NoDup (map c_name (categories d))
  /\ NoDup (map ar_id (analysisResults d))
  /\ Forall (fun l => has_screenshot (sc_screenshotId l) d = true
                      /\ has_category (sc_categoryId l) d = true)
            (screenshotCategories d)
  /\ Forall (fun a => has_screenshot (ar_screenshotId a) d = true)
            (analysisResults d).

(** [select({name, confidence}).from(screenshotCategories)
    .innerJoin(categories, eq(categoryId, categories.id))
    .where(eq(screenshotId, sid))]. *)
Definition categories_of (sid : string) d : list (string * option Q) :=
  flat_map (fun l =>
              map (fun c => (c_name c, sc_confidence l))
                  (List.filter (fun c => Z.eqb (c_id c) (sc_categoryId l))
                               (categories d)))
           (links_of sid d).

(** The rows of [categories LEFT JOIN screenshot_categories ON categories.id
    = category_id] that belong to the group of one [categories.id], counted
    by [count(screenshot_id)]: the pairs of a category row with that id and
    a link row that references it. *)
Definition group_count (i : Z) d : nat :=
  List.length
    (flat_map (fun c =>
                 List.filter (fun l => Z.eqb (c_id c) (sc_categoryId l))
                             (screenshotCategories d))
              (List.filter (fun c => Z.eqb (c_id c) i) (categories d))).

(** One row per distinct value of a key, in order of first appearance: the
    groups of a GROUP BY (SQL leaves their order open). *)
Fixpoint groups_by {A} (key : A -> Z) (seen : list Z) (rows : list A)
  : list A :=
  match rows with
  | [] => []
  | r :: rest =>
      if existsb (Z.eqb (key r)) seen then groups_by key seen rest
      else r :: groups_by key (key r :: seen) rest
  end.

(** [select({..., count(screenshot_categories.screenshot_id)})
    .from(categories).leftJoin(...).groupBy(categories.id)]. *)
Definition categories_with_counts d : list (Category * nat) :=
  map (fun c => (c, group_count (c_id c) d))
      (groups_by c_id [] (categories d)).

(** The number of link rows that reference a category row. *)
Definition links_to (c : Category) d : nat :=
  List.length
    (List.filter (fun l => Z.eqb (c_id c) (sc_categoryId l))
                 (screenshotCategories d)).

End Queries.

End Store.


(** ** Handlers as computations over the store, the bucket and an effect log *)

Module Effects.
Import Store.

(** The storage statements and model calls a handler issues, in order. *)
Inductive Event :=
| R2Put (key : string)
| R2Delete (key : string)
| InsertScreenshot (id key : string)
| Classify
| UpdateScreenshot (id : string)
| InsertAnalysisResult (screenshotId analysisType : string)
| SelectCategory (name : string)
| InsertCategory (name : string)
| InsertScreenshotCategory (screenshotId : string) (categoryId : Z)
                           (confidence : Q)
| DeleteScreenshotCategories (screenshotId : string)
| DeleteScreenshot (id : string).

Record World (J : Type) := {
  w_db : DB J;
  w_r2 : gmap string R2Object;
  w_trace : list Event
}.
Arguments w_db {J} _.
Arguments w_r2 {J} _.
Arguments w_trace {J} _.
Arguments Build_World {J} _ _ _.

(** How a JavaScript computation ends. *)
Inductive completion (A : Type) :=
| Normal (a : A)
| Thrown (e : string).
Arguments Normal {A} _.
Arguments Thrown {A} _.

Definition M (J A : Type) : Type := World J -> completion A * World J.

Definition ret {J A} (a : A) : M J A := fun w => (Normal a, w).

Definition bind {J A B} (m : M J A) (k : A -> M J B) : M J B :=
  fun w => match m w with
           | (Normal a, w') => k a w'
           | (Thrown e, w') => (Thrown e, w')
           end.

Definition throw {J A} (e : string) : M J A := fun w => (Thrown e, w).

(** [try { m } catch (e) { h e }]. *)
Definition try_catch {J A} (m : M J A) (h : string -> M J A) : M J A :=
  fun w => match m w with
           | (Normal a, w') => (Normal a, w')
           | (Thrown e, w') => h e w'
           end.

Definition lift {J A} (c : completion A) : M J A := fun w => (c, w).

Notation "'let*' x := m 'in' k" := (bind m (fun x => k))
  (at level 10, x name, m at level 100, k at level 200).
Notation "m ;;; k" := (bind m (fun _ => k))
  (at level 100, k at level 200, right associativity).

(** [for (const x of l) { body x }]. *)
Fixpoint for_of {J A} (l : list A) (body : A -> M J unit) : M J unit :=
  match l with
  | [] => ret tt
  | x :: rest => body x ;;; for_of rest body
  end.

Section Primitives.
Context {J : Type}.

Definition log (e : Event) : M J unit :=
  fun w => (Normal tt, Build_World (w_db w) (w_r2 w) (w_trace w ++ [e])).

Definition read_db {A} (q : DB J -> A) : M J A :=
  fun w => (Normal (q (w_db w)), w).

Definition write_db (f : DB J -> DB J) : M J unit :=
  fun w => (Normal tt, Build_World (f (w_db w)) (w_r2 w) (w_trace w)).

(** A statement that a constraint can reject. *)
Definition try_db {A} (msg : string) (f : DB J -> option (A * DB J)) : M J A :=
  fun w => match f (w_db w) with
           | Some (a, d) => (Normal a, Build_World d (w_r2 w) (w_trace w))
           | None => (Thrown msg, w)
           end.

Definition r2_put (key : string) (o : R2Object) : M J unit :=
  log (R2Put key) ;;;
  fun w => (Normal tt, Build_World (w_db w) (<[key := o]> (w_r2 w)) (w_trace w)).

Definition r2_get (key : string) : M J (option R2Object) :=
  fun w => (Normal (w_r2 w !! key), w).

(** Deleting a key that holds nothing is not an error. *)
Definition r2_delete (key : string) : M J unit :=
  log (R2Delete key) ;;;
  fun w => (Normal tt, Build_World (w_db w) (delete key (w_r2 w)) (w_trace w)).

Definition db_select_screenshot (i : string) : M J (option Screenshot) :=
  read_db (select_screenshot i).

Definition db_insert_screenshot (i fname key : string) (size : Z)
           (mime : string) (uploaded : Z) : M J Screenshot :=
  log (InsertScreenshot i key) ;;;
  try_db "UNIQUE constraint failed: screenshots"
         (insert_screenshot i fname key size mime uploaded).

Definition db_update_screenshot (i : string) (at_ : Z) (imp : bool) (conf : Q)
  : M J unit :=
  log (UpdateScreenshot i) ;;;
  write_db (update_screenshot i at_ imp conf).

Definition db_insert_analysisResult (sid ty : string) (data : J) (created : Z)
  : M J unit :=
  log (InsertAnalysisResult sid ty) ;;;
  try_db "FOREIGN KEY constraint failed"
         (fun d => option_map (fun d' => (tt, d'))
                              (insert_analysisResult sid ty data created d)).

Definition db_select_category (n : string) : M J (option Category) :=
  log (SelectCategory n) ;;;
  read_db (select_category n).

Definition db_insert_category (n : string) (created : Z) : M J Category :=
  log (InsertCategory n) ;;;
  try_db "UNIQUE constraint failed: categories.name"
         (insert_category n created).

Definition db_insert_screenshotCategory (sid : string) (cid : Z) (conf : Q)
  : M J unit :=
  log (InsertScreenshotCategory sid cid conf) ;;;
  try_db "FOREIGN KEY constraint failed"
         (fun d => option_map (fun d' => (tt, d'))
                              (insert_screenshotCategory sid cid conf d)).

Definition db_delete_screenshotCategories (sid : string) : M J unit :=
  log (DeleteScreenshotCategories sid) ;;;
  write_db (delete_screenshotCategories sid).

Definition db_delete_screenshot (i : string) : M J unit :=
  log (DeleteScreenshot i) ;;;
  write_db (delete_screenshot i).

End Primitives.

(** What a request reads from the platform: the clock, the two
    [crypto.randomUUID()] draws (one for the blob key, one for the row id),
    [atob], and the answer of [generateObject] to an image (a parsed object,
    or a throw: timeout, malformed response, upstream error). *)
Record Ambient (J : Type) := {
  now : Js.Date;
  key_uuid : string;
  id_uuid : string;
  atob : string -> completion bytes;
  generateObject : bytes -> completion J
}.
Arguments now {J} _.
Arguments key_uuid {J} _.
Arguments id_uuid {J} _.
Arguments atob {J} _.
Arguments generateObject {J} _.
Arguments Build_Ambient {J} _ _ _ _ _.

(** An uploaded [File] and the multipart body that may carry it. *)
Record File := {
  f_name : string;
  f_type : string;
  f_content : bytes
}.

Definition f_size (f : File) : Z := Z.of_nat (List.length (f_content f)).

Inductive FormValue :=
| FormAbsent
| FormString (s : string)
| FormFile (f : File).

Inductive RequestBody :=
| NotFormData
| FormData (file : FormValue).

(** [await c.req.formData()] followed by [formData.get('file')]. *)
Definition formData_get_file {J} (b : RequestBody) : M J FormValue :=
  match b with
  | NotFormData => throw "Failed to parse body as FormData"
  | FormData v => ret v
  end.

(** [c.json(body, status)] and [c.json({ error }, status)]. *)
Inductive Response (B : Type) :=
| Json (status : Z) (body : B)
| JsonError (status : Z) (error : string).
Arguments Json {B} _ _.
Arguments JsonError {B} _ _.

Definition status_of {B} (r : Response B) : Z :=
  match r with
  | Json s _ => s
  | JsonError s _ => s
  end.

(** The result of a tool call: a content payload, or [isError: true]. *)
Inductive ToolResult (B : Type) :=
| ToolContent (content : B)
| ToolError (text : string).
Arguments ToolContent {B} _.
Arguments ToolError {B} _.

(** Helper function to generate R2 key. *)
Definition generateR2Key {J} (a : Ambient J) (filename : string) : string :=
  let year := Js.getFullYear (now a) in
  let month := Js.padStart 2 "0" (Js.String_of (Js.getMonth (now a) + 1)) in
  let uuid := key_uuid a in
  let ext := Js.or_else (Js.pop (Js.split "." filename)) "jpg" in
  "screenshots/" ++ Js.String_of year ++ "/" ++ month ++ "/" ++ uuid
    ++ "." ++ ext.

(** The "Get or create category" block of the handlers:
    select by name, insert when no row comes back. *)
Definition resolveCategory {J} (a : Ambient J) (categoryName : string)
  : M J Category :=
  let* found := db_select_category categoryName in
  match found with
  | Some category => ret category
  | None => db_insert_category categoryName (Js.getSeconds (now a))
  end.

(** "Link screenshot to category": resolve the name, then insert the link
    row with the judgement's confidence. *)
Definition link_category {J} (a : Ambient J) (sid : string) (conf : Q)
           (categoryName : string) : M J unit :=
  let* category := resolveCategory a categoryName in
  db_insert_screenshotCategory sid (c_id category) conf.

(** *** The get-or-create block and the link loop, read as store functions

    What the two blocks above leave in the store and in the log when no
    statement throws; [link_category_run] and [for_of_link_run] below show
    that they are exactly that whenever the screenshot row exists. *)

Definition resolved_category {J} (created : Z) (n : string) (d : DB J)
  : Category :=
  match select_category n d with
  | Some c => c
  | None => new_category n created d
  end.

Definition after_resolve {J} (created : Z) (n : string) (d : DB J) : DB J :=
  match select_category n d with
  | Some _ => d
  | None => append_category (new_category n created d) d
  end.

Definition resolve_events {J} (n : string) (d : DB J) : list Event :=
  SelectCategory n ::
  match select_category n d with
  | Some _ => []
  | None => [InsertCategory n]
  end.

Definition new_link {J} (created : Z) (sid : string) (conf : Q) (n : string)
           (d : DB J) : ScreenshotCategory :=
  {| sc_screenshotId := sid;
     sc_categoryId := c_id (resolved_category created n d);
     sc_confidence := Some conf |}.

Definition after_link {J} (created : Z) (sid : string) (conf : Q) (n : string)
           (d : DB J) : DB J :=
  append_screenshotCategory (new_link created sid conf n d)
                           (after_resolve created n d).

Definition link_events {J} (created : Z) (sid : string) (conf : Q)
           (n : string) (d : DB J) : list Event :=
  resolve_events n d ++
  [InsertScreenshotCategory sid (c_id (resolved_category created n d)) conf].

Fixpoint after_links {J} (created : Z) (sid : string) (conf : Q)
         (names : list string) (d : DB J) : DB J :=
  match names with
  | [] => d
  | n :: rest =>
      after_links created sid conf rest (after_link created sid conf n d)
  end.

(** The store once a new row is inserted and its analysis fields are set. *)
Definition analyzed_db {J} (a : Ambient J) (row : Screenshot)
           (imp : bool) (conf : Q) (d : DB J) : DB J :=
  update_screenshot (s_id row) (Js.getSeconds (now a)) imp conf
    (with_screenshots (screenshots d ++ [row]) d).

(** The store once a judgement is appended to the history. *)
Definition recorded_db {J} (a : Ambient J) (sid ty : string) (j : J)
           (d : DB J) : DB J :=
  append_analysisResult
    (new_analysisResult sid ty j (Js.getSeconds (now a)) d) d.

Fixpoint links_events {J} (created : Z) (sid : string) (conf : Q)
         (names : list string) (d : DB J) : list Event :=
  match names with
  | [] => []
  | n :: rest =>
      link_events created sid conf n d ++
      links_events created sid conf rest (after_link created sid conf n d)
  end.

(** *** Relating the world before and after a computation *)

(** [m] takes every world to one that [R] relates it to, however [m]
    ends. *)
Definition always {J A} (R : World J -> World J -> Prop) (m : M J A) : Prop :=
  forall w, R w (snd (m w)).

(** The relations followed through the handlers: the store's constraints
    survive; categories are only ever appended; so is the history. *)
Definition keeps_integrity {J} (w w' : World J) : Prop :=
  integrity (w_db w) -> integrity (w_db w').

Definition categories_grow {J} (w w' : World J) : Prop :=
  exists extra, categories (w_db w') = (categories (w_db w) ++ extra)%list.

Definition history_grows {J} (w w' : World J) : Prop :=
  exists extra,
    analysisResults (w_db w') = (analysisResults (w_db w) ++ extra)%list.

(** The three together. *)
Definition keeps_schema {J} (w w' : World J) : Prop :=
  keeps_integrity w w' /\ categories_grow w w' /\ history_grows w w'.

(** A relation between stores that every insert and update of the
    schema, and the deletion of a screenshot's links, respects. *)
Record respected {J} (Rd : DB J -> DB J -> Prop) : Prop := {
  rd_refl : forall d, Rd d d;
  rd_trans : forall d1 d2 d3, Rd d1 d2 -> Rd d2 d3 -> Rd d1 d3;
  rd_insert_screenshot :
    forall i f k sz m u d row d',
      insert_screenshot i f k sz m u d = Some (row, d') -> Rd d d';
  rd_update_screenshot :
    forall i t imp c d, Rd d (update_screenshot i t imp c d);
  rd_insert_analysisResult :
    forall sid ty (data : J) cr d d',
      insert_analysisResult sid ty data cr d = Some d' -> Rd d d';
  rd_insert_category :
    forall n cr d row d', insert_category n cr d = Some (row, d') -> Rd d d';
  rd_insert_screenshotCategory :
    forall sid cid c d d',
      insert_screenshotCategory sid cid c d = Some d' -> Rd d d';
  rd_delete_screenshotCategories :
    forall sid d, Rd d (delete_screenshotCategories sid d)
}.

(** The relation on worlds a relation on stores gives. *)
Definition on_store {J} (Rd : DB J -> DB J -> Prop) (w w' : World J) : Prop :=
  Rd (w_db w) (w_db w').

End Effects.


(** ** [src/index.ts]: the multi-label pipeline *)

Module Multi.
Import Store Effects.

Inductive ContentType := ct_dev | ct_social | ct_documents | ct_bugs | ct_temp | ct_other.
Inductive FolderCategory := Dev | Social | Documents | Bugs | Temp.
Inductive RetentionPolicy := keep | delete_7_days | delete_immediately.
Inductive ImportanceLevel := critical | high | medium | low.

(** The object [analysisSchema] describes. *)
Record Analysis := {
  isImportant : bool;
  confidence : Q;
  categories : list string;
  description : string;
  extractedText : string;
  contentType : ContentType;
  folderCategory : FolderCategory;
  retentionPolicy : RetentionPolicy;
  importanceLevel : ImportanceLevel
}.

(** The object the [catch] branch of [analyzeScreenshot] returns. *)
Definition fallback : Analysis := {|
  isImportant := false;
  confidence := 1 # 2;
  categories := ["uncategorized"];
  description := "Analysis failed";
  extractedText := "Analysis failed - could not extract text";
  contentType := ct_other;
  folderCategory := Temp;
  retentionPolicy := delete_immediately;
  importanceLevel := low
|}.

Definition Handler (A : Type) := M Analysis A.

(** Helper function to analyze screenshot with Gemini.  The base64
    conversion in front of the [try] cannot throw and is left out. *)
Definition analyzeScreenshot (a : Ambient Analysis) (imageBuffer : bytes)
  : Handler Analysis :=
  try_catch
    (log Classify ;;; lift (generateObject a imageBuffer))
    (fun _ => ret fallback).

Record UploadBody := {
  ub_id : string;
  ub_filename : string;
  ub_isImportant : bool;
  ub_confidence : Q;
  ub_categories : list string;
  ub_description : string
}.

(** [app.post("/upload", ...)]. *)
Definition upload (a : Ambient Analysis) (req : RequestBody)
  : Handler (Response UploadBody) :=
  try_catch
    (let* file := formData_get_file req in
     match file with
     | FormFile file =>
         if negb (Js.startsWith (f_type file) "image/")
         then ret (JsonError 400 "File must be an image")
         else
           let r2Key := generateR2Key a (f_name file) in
           r2_put r2Key
             {| o_body := f_content file;
                o_contentType := f_type file;
                o_cacheControl := "max-age=86400";
                o_customMetadata :=
                  [("originalFilename", f_name file);
                   ("uploadedAt", Js.toISOString (now a))] |} ;;;
           let* screenshot :=
             db_insert_screenshot (id_uuid a) (f_name file) r2Key
               (f_size file) (f_type file) (Js.getSeconds (now a)) in
           let* analysis := analyzeScreenshot a (f_content file) in
           db_update_screenshot (s_id screenshot) (Js.getSeconds (now a))
             (isImportant analysis) (confidence analysis) ;;;
           db_insert_analysisResult (s_id screenshot) "gemini_vision" analysis
             (Js.getSeconds (now a)) ;;;
           for_of (categories analysis)
             (link_category a (s_id screenshot) (confidence analysis)) ;;;
           ret (Json 201
                  {| ub_id := s_id screenshot;
                     ub_filename := s_filename screenshot;
                     ub_isImportant := isImportant analysis;
                     ub_confidence := confidence analysis;
                     ub_categories := categories analysis;
                     ub_description := description analysis |})
     | _ => ret (JsonError 400 "No file provided")
     end)
    (fun _ => ret (JsonError 500 "Upload failed")).

Record ReanalyzeBody := {
  rb_message : string;
  rb_isImportant : bool;
  rb_confidence : Q;
  rb_categories : list string
}.

(** [app.post("/screenshots/:id/reanalyze", ...)]. *)
Definition reanalyze (a : Ambient Analysis) (id : string)
  : Handler (Response ReanalyzeBody) :=
  try_catch
    (let* screenshot := db_select_screenshot id in
     match screenshot with
     | None => ret (JsonError 404 "Screenshot not found")
     | Some screenshot =>
         let* object := r2_get (s_r2Key screenshot) in
         match object with
         | None => ret (JsonError 404 "File not found in storage")
         | Some object =>
             let* analysis := analyzeScreenshot a (o_body object) in
             db_update_screenshot id (Js.getSeconds (now a))
               (isImportant analysis) (confidence analysis) ;;;
             db_insert_analysisResult id "gemini_vision_reanalysis" analysis
               (Js.getSeconds (now a)) ;;;
             db_delete_screenshotCategories id ;;;
             for_of (categories analysis)
               (link_category a id (confidence analysis)) ;;;
             ret (Json 200
                    {| rb_message := "Reanalysis completed";
                       rb_isImportant := isImportant analysis;
                       rb_confidence := confidence analysis;
                       rb_categories := categories analysis |})
         end
     end)
    (fun _ => ret (JsonError 500 "Reanalysis failed")).

(** [app.delete("/screenshots/:id", ...)]. *)
Definition delete_handler (id : string) : Handler (Response string) :=
  try_catch
    (let* screenshot := db_select_screenshot id in
     match screenshot with
     | None => ret (JsonError 404 "Screenshot not found")
     | Some screenshot =>
         r2_delete (s_r2Key screenshot) ;;;
         db_delete_screenshot id ;;;
         ret (Json 200 "Screenshot deleted successfully")
     end)
    (fun _ => ret (JsonError 500 "Failed to delete screenshot")).

(** *** The upload, read as a store function

    What [upload] leaves behind for an image file when no statement throws;
    [upload_run] shows it is exactly that when the drawn id and key are not
    taken. *)

(** The judgement [analyzeScreenshot] hands to its caller. *)
Definition judgement (a : Ambient Analysis) (imageBuffer : bytes) : Analysis :=
  match generateObject a imageBuffer with
  | Normal object => object
  | Thrown _ => fallback
  end.

Definition upload_row (a : Ambient Analysis) (file : File) : Screenshot :=
  new_screenshot (id_uuid a) (f_name file) (generateR2Key a (f_name file))
                 (f_size file) (f_type file) (Js.getSeconds (now a)).

Definition upload_object (a : Ambient Analysis) (file : File) : R2Object :=
  {| o_body := f_content file;
     o_contentType := f_type file;
     o_cacheControl := "max-age=86400";
     o_customMetadata :=
       [("originalFilename", f_name file);
        ("uploadedAt", Js.toISOString (now a))] |}.

Definition upload_db (a : Ambient Analysis) (file : File) (d : DB Analysis)
  : DB Analysis :=
  let j := judgement a (f_content file) in
  after_links (Js.getSeconds (now a)) (id_uuid a) (confidence j)
    (categories j)
    (recorded_db a (id_uuid a) "gemini_vision" j
       (analyzed_db a (upload_row a file) (isImportant j) (confidence j) d)).

Definition upload_events (a : Ambient Analysis) (file : File)
           (d : DB Analysis) : list Event :=
  let j := judgement a (f_content file) in
  [ R2Put (generateR2Key a (f_name file));
    InsertScreenshot (id_uuid a) (generateR2Key a (f_name file));
    Classify;
    UpdateScreenshot (id_uuid a);
    InsertAnalysisResult (id_uuid a) "gemini_vision" ]
  ++ links_events (Js.getSeconds (now a)) (id_uuid a) (confidence j)
       (categories j)
       (recorded_db a (id_uuid a) "gemini_vision" j
          (analyzed_db a (upload_row a file) (isImportant j) (confidence j)
                       d)).

Definition upload_body (a : Ambient Analysis) (file : File) : UploadBody :=
  let j := judgement a (f_content file) in
  {| ub_id := id_uuid a;
     ub_filename := f_name file;
     ub_isImportant := isImportant j;
     ub_confidence := confidence j;
     ub_categories := categories j;
     ub_description := description j |}.

(** *** Listing *)

(** The entries of the handler's [conditions] array. *)
Inductive Condition :=
| IsImportantTrue
| UploadedGte (d : Z)
| UploadedLte (d : Z).

(** Whether a row passes a condition in a WHERE clause (a NULL comparison
    does not). *)
Definition holds (s : Screenshot) (c : Condition) : bool :=
  match c with
  | IsImportantTrue =>
      match s_isImportant s with Some true => true | _ => false end
  | UploadedGte d => d <=? s_uploadedAt s
  | UploadedLte d => s_uploadedAt s <=? d
  end.

(** [and(...conditions)]. *)
Definition and_all (conditions : list Condition) (s : Screenshot) : bool :=
  forallb (holds s) conditions.

(** The query string of [GET /screenshots].  [limit] and [offset] are the
    integers [Number.parseInt] reads, [date_from] and [date_to] the seconds
    of [new Date(...)], each for a parameter that is present and not empty. *)
Record ListQuery := {
  q_category : option string;
  q_important_only : option string;
  q_limit : option Z;
  q_offset : option Z;
  q_date_from : option Z;
  q_date_to : option Z
}.

Definition conditions_of (q : ListQuery) : list Condition :=
  (if match q_important_only q with
      | Some v => String.eqb v "true"
      | None => false
      end
   then [IsImportantTrue] else [])
  ++ match q_date_from q with Some d => [UploadedGte d] | None => [] end
  ++ match q_date_to q with Some d => [UploadedLte d] | None => [] end.

Fixpoint insert_desc {A} (key : A -> Z) (x : A) (l : list A) : list A :=
  match l with
  | [] => [x]
  | y :: rest =>
      if key y <=? key x then x :: y :: rest
      else y :: insert_desc key x rest
  end.

(** [orderBy(desc(key))].  Rows with equal keys are kept in table order here;
    SQL leaves their order to the engine, and nothing below states it. *)
Definition orderBy_desc {A} (key : A -> Z) (rows : list A) : list A :=
  fold_right (insert_desc key) [] rows.

(** Whether SQLite accepts the statement the query builder writes for
    [.limit(limit).offset(offset)].  The builder writes a LIMIT clause for a
    limit of 0 or more and none for a negative limit, and an OFFSET clause for
    every offset but 0; SQLite has no OFFSET clause without a LIMIT clause,
    so a negative limit with an offset other than 0 is a syntax error. *)
Definition accepted_page (limit offset : Z) : bool :=
  (0 <=? limit) || (offset =? 0).

(** The rows an accepted [.limit(limit).offset(offset)] cuts out: without a
    LIMIT clause all of them, and SQLite reads a negative offset as none. *)
Definition limit_offset {A} (limit offset : Z) (rows : list A) : list A :=
  let rest := skipn (Z.to_nat offset) rows in
  if limit <? 0 then rest else firstn (Z.to_nat limit) rest.

(** The columns the listing selects. *)
Record Summary := {
  sm_id : string;
  sm_filename : string;
  sm_fileSize : Z;
  sm_mimeType : string;
  sm_uploadedAt : Z;
  sm_analyzedAt : option Z;
  sm_isImportant : option bool;
  sm_confidenceScore : option Q
}.

Definition summary (s : Screenshot) : Summary :=
  {| sm_id := s_id s; sm_filename := s_filename s;
     sm_fileSize := s_fileSize s; sm_mimeType := s_mimeType s;
     sm_uploadedAt := s_uploadedAt s; sm_analyzedAt := s_analyzedAt s;
     sm_isImportant := s_isImportant s;
     sm_confidenceScore := s_confidenceScore s |}.

(** [screenshots INNER JOIN screenshot_categories ON ... INNER JOIN
    categories ON ...]. *)
Definition join_categories (d : DB Analysis)
  : list (Screenshot * ScreenshotCategory * Category) :=
  flat_map
    (fun s =>
       flat_map
         (fun l =>
            map (fun c => (s, l, c))
                (List.filter (fun c => c_id c =? sc_categoryId l)
                             (Store.categories d)))
         (List.filter (fun l => String.eqb (s_id s) (sc_screenshotId l))
                      (screenshotCategories d)))
    (screenshots d).

Record ListBody := {
  lb_screenshots : list Summary;
  lb_limit : Z;
  lb_offset : Z
}.

(** The rows [GET /screenshots] answers with, before the projection, when
    its statement is one SQLite accepts. *)
Definition list_rows (q : ListQuery) (d : DB Analysis) : list Screenshot :=
  let limit := default 50 (q_limit q) in
  let offset := default 0 (q_offset q) in
  let conditions := conditions_of q in
  if Js.truthy (q_category q) then
    let category := default "" (q_category q) in
    limit_offset limit offset
      (orderBy_desc s_uploadedAt
         (map (fun r => fst (fst r))
              (List.filter
                 (fun r => String.eqb (c_name (snd r)) category
                           && and_all conditions (fst (fst r)))
                 (join_categories d))))
  else if (0 <? Z.of_nat (List.length conditions)) then
    limit_offset limit offset
      (orderBy_desc s_uploadedAt
         (List.filter (and_all conditions) (screenshots d)))
  else
    limit_offset limit offset (orderBy_desc s_uploadedAt (screenshots d)).

(** The query string [?category=c]. *)
Definition by_category (c : string) : ListQuery :=
  {| q_category := Some c; q_important_only := None;
     q_limit := None; q_offset := None;
     q_date_from := None; q_date_to := None |}.

(** How often a listing shows the row of an id. *)
Definition occurrences (id : string) (rows : list Screenshot) : nat :=
  List.length (List.filter (fun r => String.eqb (s_id r) id) rows).

(** A query string with [limit] and [offset] set, its filters unchanged. *)
Definition page (q : ListQuery) (limit offset : Z) : ListQuery :=
  {| q_category := q_category q;
     q_important_only := q_important_only q;
     q_limit := Some limit;
     q_offset := Some offset;
     q_date_from := q_date_from q;
     q_date_to := q_date_to q |}.

(** [app.get("/screenshots", ...)]: each of the three branches awaits a
    statement that ends in [.limit(limit).offset(offset)]; a refused
    statement throws into the [catch]. *)
Definition list_screenshots (q : ListQuery) : Handler (Response ListBody) :=
  try_catch
    (let* rows :=
       if accepted_page (default 50 (q_limit q)) (default 0 (q_offset q))
       then read_db (list_rows q)
       else throw "SQLITE_ERROR: near OFFSET: syntax error" in
     ret (Json 200
            {| lb_screenshots := map summary rows;
               lb_limit := default 50 (q_limit q);
               lb_offset := default 0 (q_offset q) |}))
    (fun _ => ret (JsonError 500 "Failed to list screenshots")).

(** A screenshot has a link to a category of a given name. *)
Definition has_category_link (c : string) (s : Screenshot) (d : DB Analysis)
  : Prop :=
  exists l cat,
    In l (screenshotCategories d) /\ In cat (Store.categories d)
    /\ sc_screenshotId l = s_id s /\ sc_categoryId l = c_id cat
    /\ c_name cat = c.

(** A stored row satisfies every active filter of a query. *)
Definition matches (q : ListQuery) (d : DB Analysis) (s : Screenshot) : Prop :=
  In s (screenshots d)
  /\ (q_important_only q = Some "true" -> s_isImportant s = Some true)
  /\ (forall c, q_category q = Some c -> c <> "" -> has_category_link c s d)
  /\ (forall t, q_date_from q = Some t -> t <= s_uploadedAt s)
  /\ (forall t, q_date_to q = Some t -> s_uploadedAt s <= t).

(** Most recently uploaded first. *)
Definition newest_first (rows : list Screenshot) : Prop :=
  StronglySorted (fun x y => s_uploadedAt y <= s_uploadedAt x) rows.

(** *** The tool-calling surface *)

Record AnalyzeToolContent := {
  tc_id : string;
  tc_isImportant : bool;
  tc_confidence : Q;
  tc_categories : list string;
  tc_description : string
}.

(** [server.tool("analyze_screenshot", ...)]. *)
Definition analyze_screenshot_tool (a : Ambient Analysis)
           (imageData filename : string)
  : Handler (ToolResult AnalyzeToolContent) :=
  try_catch
    (let* buffer := lift (atob a imageData) in
     let r2Key := generateR2Key a filename in
     r2_put r2Key
       {| o_body := buffer;
          o_contentType := "image/jpeg";
          o_cacheControl := "max-age=86400";
          o_customMetadata := [] |} ;;;
     let* screenshot :=
       db_insert_screenshot (id_uuid a) filename r2Key
         (Z.of_nat (List.length buffer)) "image/jpeg"
         (Js.getSeconds (now a)) in
     let* analysis := analyzeScreenshot a buffer in
     db_update_screenshot (s_id screenshot) (Js.getSeconds (now a))
       (isImportant analysis) (confidence analysis) ;;;
     ret (ToolContent
            {| tc_id := s_id screenshot;
               tc_isImportant := isImportant analysis;
               tc_confidence := confidence analysis;
               tc_categories := categories analysis;
               tc_description := description analysis |}))
    (fun e => ret (ToolError ("Analysis failed: " ++ e))).

(** The WHERE clause of [cleanup_clutter]:
    [and(eq(isImportant, false), gte(confidenceScore, threshold))]. *)
Definition is_clutter (confidenceThreshold : Q) (s : Screenshot) : bool :=
  match s_isImportant s with Some false => true | _ => false end
  && match s_confidenceScore s with
     | Some c => Qle_bool confidenceThreshold c
     | None => false
     end.

Definition select_clutter (confidenceThreshold : Q) (d : DB Analysis)
  : list Screenshot :=
  List.filter (is_clutter confidenceThreshold) (screenshots d).

Inductive CleanupContent :=
| Preview (found : nat) (lines : list (string * option Q))
| Deleted (deletedCount : nat).

(** [server.tool("cleanup_clutter", ...)]; the arguments default to
    [dryRun = true] and [confidenceThreshold = 0.8]. *)
Definition cleanup_clutter (dryRun : option bool)
           (confidenceThreshold : option Q)
  : Handler (ToolResult CleanupContent) :=
  let dryRun := default true dryRun in
  let confidenceThreshold := default (8 # 10) confidenceThreshold in
  try_catch
    (let* clutterScreenshots := read_db (select_clutter confidenceThreshold) in
     if dryRun then
       ret (ToolContent
              (Preview (List.length clutterScreenshots)
                       (map (fun s => (s_filename s, s_confidenceScore s))
                            clutterScreenshots)))
     else
       for_of clutterScreenshots
         (fun screenshot =>
            r2_delete (s_r2Key screenshot) ;;;
            db_delete_screenshot (s_id screenshot)) ;;;
       ret (ToolContent (Deleted (List.length clutterScreenshots))))
    (fun e => ret (ToolError ("Cleanup failed: " ++ e))).

(** The step of the write sequence a logged statement belongs to: (1) the
    blob and the Screenshot row, (2) the classifier, (3) the analysis-field
    update, (4) the Analysis Result row, (5) category get-or-create, (6) the
    link row. *)
Definition step_of (e : Event) : nat :=
  match e with
  | R2Put _ | InsertScreenshot _ _ => 1
  | Classify => 2
  | UpdateScreenshot _ => 3
  | InsertAnalysisResult _ _ => 4
  | SelectCategory _ | InsertCategory _ => 5
  | InsertScreenshotCategory _ _ _ => 6
  | R2Delete _ | DeleteScreenshotCategories _ | DeleteScreenshot _ => 0
  end%nat.

Fixpoint nondecreasing (l : list nat) : bool :=
  match l with
  | [] => true
  | x :: rest =>
      match rest with
      | [] => true
      | y :: _ => (x <=? y)%nat && nondecreasing rest
      end
  end.

(** "No later step precedes an earlier one." *)
Definition in_step_order (t : list Event) : bool :=
  nondecreasing (map step_of t).

(** The statements one category contributes: the lookup, the insert when
    the lookup found nothing, the link row. *)
Definition category_block (sid : string) (conf : Q) (n : string)
           (block : list Event) : Prop :=
  exists cid : Z,
    block = [SelectCategory n; InsertScreenshotCategory sid cid conf]
    \/ block = [SelectCategory n; InsertCategory n;
                InsertScreenshotCategory sid cid conf].

(** The store after a reanalysis of screenshot [id] whose blob holds
    [imageBuffer], when no statement throws. *)
Definition reanalyzed_db (a : Ambient Analysis) (id : string)
           (imageBuffer : bytes) (d : DB Analysis) : DB Analysis :=
  let j := judgement a imageBuffer in
  after_links (Js.getSeconds (now a)) id (confidence j) (categories j)
    (delete_screenshotCategories id
       (recorded_db a id "gemini_vision_reanalysis" j
          (update_screenshot id (Js.getSeconds (now a))
             (isImportant j) (confidence j) d))).

Definition reanalyze_events (a : Ambient Analysis) (id : string)
           (imageBuffer : bytes) (d : DB Analysis) : list Event :=
  let j := judgement a imageBuffer in
  [ Classify; UpdateScreenshot id;
    InsertAnalysisResult id "gemini_vision_reanalysis";
    DeleteScreenshotCategories id ]
  ++ links_events (Js.getSeconds (now a)) id (confidence j) (categories j)
       (delete_screenshotCategories id
          (recorded_db a id "gemini_vision_reanalysis" j
             (update_screenshot id (Js.getSeconds (now a))
                (isImportant j) (confidence j) d))).

Definition reanalyze_body (a : Ambient Analysis) (imageBuffer : bytes)
  : ReanalyzeBody :=
  let j := judgement a imageBuffer in
  {| rb_message := "Reanalysis completed";
     rb_isImportant := isImportant j;
     rb_confidence := confidence j;
     rb_categories := categories j |}.

(** Reanalysis requests for one screenshot, served one after the other;
    each request meets its own clock and its own answer of the model. *)
Fixpoint reanalyze_all (requests : list (Ambient Analysis)) (id : string)
         (w : World Analysis)
  : list (completion (Response ReanalyzeBody)) * World Analysis :=
  match requests with
  | [] => ([], w)
  | a :: rest =>
      let (r, w1) := reanalyze a id w in
      let (rs, w2) := reanalyze_all rest id w1 in
      (r :: rs, w2)
  end.

(** What the handler needs to get past its two 404 exits, and the join
    needs to be read: the row is there, its blob holds [imageBuffer], category
    ids are a key. *)
Definition reanalyzable (id : string) (imageBuffer : bytes)
           (w : World Analysis) : Prop :=
  (exists s o, select_screenshot id (w_db w) = Some s
               /\ w_r2 w !! s_r2Key s = Some o
               /\ o_body o = imageBuffer)
  /\ NoDup (map c_id (Store.categories (w_db w))).

(** What a history row says, apart from its rowid and its timestamp. *)
Definition history_entry (r : AnalysisResult Analysis)
  : string * string * Analysis :=
  (ar_screenshotId r, ar_analysisType r, ar_resultData r).

(** The store after the statements of [analyze_screenshot_tool]. *)
Definition tool_db (a : Ambient Analysis) (filename : string) (buffer : bytes)
           (d : DB Analysis) : DB Analysis :=
  let j := judgement a buffer in
  analyzed_db a
    (new_screenshot (id_uuid a) filename (generateR2Key a filename)
                    (Z.of_nat (List.length buffer)) "image/jpeg"
                    (Js.getSeconds (now a)))
    (isImportant j) (confidence j) d.

Definition tool_object (buffer : bytes) : R2Object :=
  {| o_body := buffer;
     o_contentType := "image/jpeg";
     o_cacheControl := "max-age=86400";
     o_customMetadata := [] |}.

Definition tool_content (a : Ambient Analysis) (buffer : bytes)
  : AnalyzeToolContent :=
  let j := judgement a buffer in
  {| tc_id := id_uuid a;
     tc_isImportant := isImportant j;
     tc_confidence := confidence j;
     tc_categories := categories j;
     tc_description := description j |}.

(** One turn of the deletion loop of [cleanup_clutter], as a function on
    worlds. *)
Definition cleanup_step (w : World Analysis) (screenshot : Screenshot)
  : World Analysis :=
  Build_World (delete_screenshot (s_id screenshot) (w_db w))
              (delete (s_r2Key screenshot) (w_r2 w))
              (w_trace w ++ [R2Delete (s_r2Key screenshot);
                             DeleteScreenshot (s_id screenshot)]).

(** A screenshot of which nothing is left: no blob under its key, no row
    with its id, no link and no history that reference it. *)
Definition gone (s : Screenshot) (w : World Analysis) : Prop :=
  w_r2 w !! s_r2Key s = None
  /\ select_screenshot (s_id s) (w_db w) = None
  /\ links_of (s_id s) (w_db w) = []
  /\ results_of (s_id s) (w_db w) = [].

(** *** The read-only endpoints *)

(** What [new Response(object.body, { headers })] carries: the body and the
    headers [writeHttpMetadata] copies from the stored object (the [etag]
    header is R2's own and is left out). *)
Inductive FileResponse :=
| File200 (body : bytes) (contentType cacheControl : string)
| FileError (status : Z) (error : string).

(** [app.get("/screenshots/:id", ...)]. *)
Definition get_screenshot (id : string) : Handler FileResponse :=
  try_catch
    (let* screenshot := db_select_screenshot id in
     match screenshot with
     | None => ret (FileError 404 "Screenshot not found")
     | Some screenshot =>
         let* object := r2_get (s_r2Key screenshot) in
         match object with
         | None => ret (FileError 404 "File not found in storage")
         | Some object =>
             ret (File200 (o_body object) (o_contentType object)
                          (o_cacheControl object))
         end
     end)
    (fun _ => ret (FileError 500 "Failed to retrieve screenshot")).

Record AnalysisScreenshot := {
  as_id : string;
  as_filename : string;
  as_isImportant : option bool;
  as_confidenceScore : option Q;
  as_analyzedAt : option Z
}.

Record AnalysisBody := {
  an_screenshot : AnalysisScreenshot;
  an_categories : list (string * option Q);
  an_analysisResults : list (AnalysisResult Analysis)
}.

(** [app.get("/screenshots/:id/analysis", ...)]. *)
Definition get_analysis (id : string) : Handler (Response AnalysisBody) :=
  try_catch
    (let* screenshot := db_select_screenshot id in
     match screenshot with
     | None => ret (JsonError 404 "Screenshot not found")
     | Some screenshot =>
         let* analysisResults :=
           read_db (fun d => orderBy_desc ar_createdAt (results_of id d)) in
         let* categories := read_db (categories_of id) in
         ret (Json 200
                {| an_screenshot :=
                     {| as_id := s_id screenshot;
                        as_filename := s_filename screenshot;
                        as_isImportant := s_isImportant screenshot;
                        as_confidenceScore := s_confidenceScore screenshot;
                        as_analyzedAt := s_analyzedAt screenshot |};
                   an_categories := categories;
                   an_analysisResults := analysisResults |})
     end)
    (fun _ => ret (JsonError 500 "Failed to get analysis")).

Record CategoryCount := {
  cc_id : Z;
  cc_name : string;
  cc_description : option string;
  cc_createdAt : Z;
  cc_screenshotCount : nat
}.

Definition category_count (r : Category * nat) : CategoryCount :=
  {| cc_id := c_id (fst r); cc_name := c_name (fst r);
     cc_description := c_description (fst r);
     cc_createdAt := c_createdAt (fst r);
     cc_screenshotCount := snd r |}.

(** [app.get("/categories", ...)]. *)
Definition list_categories : Handler (Response (list CategoryCount)) :=
  try_catch
    (let* categories := read_db categories_with_counts in
     ret (Json 200 (map category_count categories)))
    (fun _ => ret (JsonError 500 "Failed to list categories")).

(** The rows [search_screenshots] finds; [limit] is taken as an integer. *)
Definition search_rows (category : option string) (importantOnly : bool)
           (limit : Z) (d : DB Analysis) : list Screenshot :=
  let conditions := if importantOnly then [IsImportantTrue] else [] in
  if Js.truthy category then
    let category := default "" category in
    limit_offset limit 0
      (orderBy_desc s_uploadedAt
         (map (fun r => fst (fst r))
              (List.filter
                 (fun r => String.eqb (c_name (snd r)) category
                           && and_all conditions (fst (fst r)))
                 (join_categories d))))
  else if (0 <? Z.of_nat (List.length conditions)) then
    limit_offset limit 0
      (orderBy_desc s_uploadedAt
         (List.filter (and_all conditions) (screenshots d)))
  else
    limit_offset limit 0 (orderBy_desc s_uploadedAt (screenshots d)).

(** [server.tool("search_screenshots", ...)]: the count and the rows the
    text reports (id, file name, importance flag and upload time of each);
    [importantOnly] defaults to false and [limit] to 10. *)
Definition search_screenshots (category : option string)
           (importantOnly : option bool) (limit : option Z)
  : Handler (ToolResult (nat * list Screenshot)) :=
  let importantOnly := default false importantOnly in
  let limit := default 10 limit in
  try_catch
    (let* screenshots := read_db (search_rows category importantOnly limit) in
     ret (ToolContent (List.length screenshots, screenshots)))
    (fun e => ret (ToolError ("Search failed: " ++ e))).

(** The figures [get_screenshot_stats] prints. *)
Record Stats := {
  st_total : nat;
  st_important : nat;
  st_megabytes : Z;
  st_categories : list (string * nat)
}.

(** [sum(file_size)]: NULL over no rows, else the integer sum, for sizes
    whose running total stays within SQLite's 64-bit integers; beyond them
    [sum()] raises an integer overflow and the statement fails.  Statements
    about the byte total carry a bound that keeps it inside. *)
Definition sum_fileSize (d : DB Analysis) : option Z :=
  match screenshots d with
  | [] => None
  | rows => Some (fold_right Z.add 0 (map s_fileSize rows))
  end.

Definition stats_of (d : DB Analysis) : Stats :=
  {| st_total := List.length (screenshots d);
     st_important :=
       List.length
         (List.filter
            (fun s => match s_isImportant s with
                      | Some true => true
                      | _ => false
                      end) (screenshots d));
     st_megabytes := Js.round_MiB (default 0 (sum_fileSize d));
     st_categories :=
       map (fun r => (c_name (fst r), snd r))
           (orderBy_desc (fun r => Z.of_nat (snd r))
                         (categories_with_counts d)) |}.

(** [server.tool("get_screenshot_stats", ...)]. *)
Definition get_screenshot_stats : Handler (ToolResult Stats) :=
  try_catch
    (let* stats := read_db stats_of in ret (ToolContent stats))
    (fun e => ret (ToolError ("Failed to get stats: " ++ e))).

(** Every catalog row has its blob in the bucket. *)
Definition stored (w : World Analysis) : Prop :=
  forall s, In s (screenshots (w_db w)) -> is_Some (w_r2 w !! s_r2Key s).

End Multi.


(** ** The single-label variant of the pipeline

    The second copy of the handlers, whose [analysisSchema] has one
    [category] string in place of the [categories] array and a sixth folder,
    and which adds [POST /analyze]. *)

Module Single.
Import Store Effects.

Inductive ContentType :=
| ct_dev | ct_social | ct_documents | ct_bugs | ct_temp | ct_secrets | ct_other.
Inductive FolderCategory := Dev | Social | Documents | Bugs | Temp | Secrets.
Inductive RetentionPolicy := keep | delete_7_days | delete_immediately.
Inductive ImportanceLevel := critical | high | medium | low.

Record Analysis := {
  isImportant : bool;
  confidence : Q;
  category : string;
  description : string;
  extractedText : string;
  contentType : ContentType;
  folderCategory : FolderCategory;
  retentionPolicy : RetentionPolicy;
  importanceLevel : ImportanceLevel
}.

(** The string a [folderCategory] value is. *)
Definition folder_name (f : FolderCategory) : string :=
  match f with
  | Dev => "Dev" | Social => "Social" | Documents => "Documents"
  | Bugs => "Bugs" | Temp => "Temp" | Secrets => "Secrets"
  end.

(** [analysis.categories]: this variant's schema declares no such property
    (the parser drops undeclared ones) and its fallback object has none, so
    the read yields [undefined]. *)
Definition categories (analysis : Analysis) : option (list string) := None.

(** [for (const x of v)] on a value that may be [undefined]. *)
Definition for_of_value {J A} (v : option (list A)) (body : A -> M J unit)
  : M J unit :=
  match v with
  | Some l => for_of l body
  | None => throw "TypeError: analysis.categories is not iterable"
  end.

Definition fallback : Analysis := {|
  isImportant := false;
  confidence := 1 # 2;
  category := "uncategorized";
  description := "Analysis failed";
  extractedText := "Analysis failed - could not extract text";
  contentType := ct_other;
  folderCategory := Temp;
  retentionPolicy := delete_immediately;
  importanceLevel := low
|}.

Definition Handler (A : Type) := M Analysis A.

Definition analyzeScreenshot (a : Ambient Analysis) (imageBuffer : bytes)
  : Handler Analysis :=
  try_catch
    (log Classify ;;; lift (generateObject a imageBuffer))
    (fun _ => ret fallback).

Record AnalyzeBody := {
  ab_filename : string;
  ab_isImportant : bool;
  ab_confidence : Q;
  ab_category : FolderCategory;
  ab_description : string;
  ab_extractedText : string;
  ab_contentType : ContentType;
  ab_retentionPolicy : RetentionPolicy;
  ab_importanceLevel : ImportanceLevel
}.

(** [app.post("/analyze", ...)]: analyze screenshot without saving. *)
Definition analyze (a : Ambient Analysis) (req : RequestBody)
  : Handler (Response AnalyzeBody) :=
  try_catch
    (let* file := formData_get_file req in
     match file with
     | FormFile file =>
         if negb (Js.startsWith (f_type file) "image/")
         then ret (JsonError 400 "File must be an image")
         else
           let* analysis := analyzeScreenshot a (f_content file) in
           ret (Json 200
                  {| ab_filename := f_name file;
                     ab_isImportant := isImportant analysis;
                     ab_confidence := confidence analysis;
                     ab_category := folderCategory analysis;
                     ab_description := description analysis;
                     ab_extractedText := extractedText analysis;
                     ab_contentType := contentType analysis;
                     ab_retentionPolicy := retentionPolicy analysis;
                     ab_importanceLevel := importanceLevel analysis |})
     | _ => ret (JsonError 400 "No file provided")
     end)
    (fun _ => ret (JsonError 500 "Analysis failed")).

Record UploadBody := {
  ub_id : string;
  ub_filename : string;
  ub_isImportant : bool;
  ub_confidence : Q;
  ub_category : FolderCategory;
  ub_description : string
}.

(** [app.post("/upload", ...)], "Handle single category". *)
Definition upload (a : Ambient Analysis) (req : RequestBody)
  : Handler (Response UploadBody) :=
  try_catch
    (let* file := formData_get_file req in
     match file with
     | FormFile file =>
         if negb (Js.startsWith (f_type file) "image/")
         then ret (JsonError 400 "File must be an image")
         else
           let r2Key := generateR2Key a (f_name file) in
           r2_put r2Key
             {| o_body := f_content file;
                o_contentType := f_type file;
                o_cacheControl := "max-age=86400";
                o_customMetadata :=
                  [("originalFilename", f_name file);
                   ("uploadedAt", Js.toISOString (now a))] |} ;;;
           let* screenshot :=
             db_insert_screenshot (id_uuid a) (f_name file) r2Key
               (f_size file) (f_type file) (Js.getSeconds (now a)) in
           let* analysis := analyzeScreenshot a (f_content file) in
           db_update_screenshot (s_id screenshot) (Js.getSeconds (now a))
             (isImportant analysis) (confidence analysis) ;;;
           db_insert_analysisResult (s_id screenshot) "gemini_vision" analysis
             (Js.getSeconds (now a)) ;;;
           let categoryName := folder_name (folderCategory analysis) in
           link_category a (s_id screenshot) (confidence analysis)
             categoryName ;;;
           ret (Json 201
                  {| ub_id := s_id screenshot;
                     ub_filename := s_filename screenshot;
                     ub_isImportant := isImportant analysis;
                     ub_confidence := confidence analysis;
                     ub_category := folderCategory analysis;
                     ub_description := description analysis |})
     | _ => ret (JsonError 400 "No file provided")
     end)
    (fun _ => ret (JsonError 500 "Upload failed")).

(** The judgement [analyzeScreenshot] hands to its caller. *)
Definition judgement (a : Ambient Analysis) (imageBuffer : bytes) : Analysis :=
  match generateObject a imageBuffer with
  | Normal object => object
  | Thrown _ => fallback
  end.

Definition upload_row (a : Ambient Analysis) (file : File) : Screenshot :=
  new_screenshot (id_uuid a) (f_name file) (generateR2Key a (f_name file))
                 (f_size file) (f_type file) (Js.getSeconds (now a)).

Definition upload_object (a : Ambient Analysis) (file : File) : R2Object :=
  {| o_body := f_content file;
     o_contentType := f_type file;
     o_cacheControl := "max-age=86400";
     o_customMetadata :=
       [("originalFilename", f_name file);
        ("uploadedAt", Js.toISOString (now a))] |}.

(** What [upload] leaves in the store for an image file when no statement
    throws. *)
Definition upload_db (a : Ambient Analysis) (file : File) (d : DB Analysis)
  : DB Analysis :=
  let j := judgement a (f_content file) in
  after_link (Js.getSeconds (now a)) (id_uuid a) (confidence j)
    (folder_name (folderCategory j))
    (recorded_db a (id_uuid a) "gemini_vision" j
       (analyzed_db a (upload_row a file) (isImportant j) (confidence j) d)).

Definition upload_events (a : Ambient Analysis) (file : File)
           (d : DB Analysis) : list Event :=
  let j := judgement a (f_content file) in
  [ R2Put (generateR2Key a (f_name file));
    InsertScreenshot (id_uuid a) (generateR2Key a (f_name file));
    Classify;
    UpdateScreenshot (id_uuid a);
    InsertAnalysisResult (id_uuid a) "gemini_vision" ]
  ++ link_events (Js.getSeconds (now a)) (id_uuid a) (confidence j)
       (folder_name (folderCategory j))
       (recorded_db a (id_uuid a) "gemini_vision" j
          (analyzed_db a (upload_row a file) (isImportant j) (confidence j)
                       d)).

Definition upload_body (a : Ambient Analysis) (file : File) : UploadBody :=
  let j := judgement a (f_content file) in
  {| ub_id := id_uuid a;
     ub_filename := f_name file;
     ub_isImportant := isImportant j;
     ub_confidence := confidence j;
     ub_category := folderCategory j;
     ub_description := description j |}.

Definition analyze_body (a : Ambient Analysis) (file : File) : AnalyzeBody :=
  let j := judgement a (f_content file) in
  {| ab_filename := f_name file;
     ab_isImportant := isImportant j;
     ab_confidence := confidence j;
     ab_category := folderCategory j;
     ab_description := description j;
     ab_extractedText := extractedText j;
     ab_contentType := contentType j;
     ab_retentionPolicy := retentionPolicy j;
     ab_importanceLevel := importanceLevel j |}.

Record ReanalyzeBody := {
  rb_message : string;
  rb_isImportant : bool;
  rb_confidence : Q;
  rb_categories : option (list string)
}.

(** [app.post("/screenshots/:id/reanalyze", ...)], still written against
    [analysis.categories]. *)
Definition reanalyze (a : Ambient Analysis) (id : string)
  : Handler (Response ReanalyzeBody) :=
  try_catch
    (let* screenshot := db_select_screenshot id in
     match screenshot with
     | None => ret (JsonError 404 "Screenshot not found")
     | Some screenshot =>
         let* object := r2_get (s_r2Key screenshot) in
         match object with
         | None => ret (JsonError 404 "File not found in storage")
         | Some object =>
             let* analysis := analyzeScreenshot a (o_body object) in
             db_update_screenshot id (Js.getSeconds (now a))
               (isImportant analysis) (confidence analysis) ;;;
             db_insert_analysisResult id "gemini_vision_reanalysis" analysis
               (Js.getSeconds (now a)) ;;;
             db_delete_screenshotCategories id ;;;
             for_of_value (categories analysis)
               (link_category a id (confidence analysis)) ;;;
             ret (Json 200
                    {| rb_message := "Reanalysis completed";
                       rb_isImportant := isImportant analysis;
                       rb_confidence := confidence analysis;
                       rb_categories := categories analysis |})
         end
     end)
    (fun _ => ret (JsonError 500 "Reanalysis failed")).

Record AnalyzeToolContent := {
  tc_id : string;
  tc_isImportant : bool;
  tc_confidence : Q;
  tc_categories : string;
  tc_description : string
}.

(** [analysis.categories.join(', ')] where [analysis.categories] may be
    [undefined]: reading [join] off [undefined] throws. *)
Definition join_value {J} (v : option (list string)) (sep : string)
  : M J string :=
  match v with
  | Some l => ret (String.concat sep l)
  | None =>
      throw "Cannot read properties of undefined (reading 'join')"
  end.

(** [server.tool("analyze_screenshot", ...)] of this variant, still
    written against [analysis.categories]. *)
Definition analyze_screenshot_tool (a : Ambient Analysis)
           (imageData filename : string)
  : Handler (ToolResult AnalyzeToolContent) :=
  try_catch
    (let* buffer := lift (atob a imageData) in
     let r2Key := generateR2Key a filename in
     r2_put r2Key
       {| o_body := buffer;
          o_contentType := "image/jpeg";
          o_cacheControl := "max-age=86400";
          o_customMetadata := [] |} ;;;
     let* screenshot :=
       db_insert_screenshot (id_uuid a) filename r2Key
         (Z.of_nat (List.length buffer)) "image/jpeg"
         (Js.getSeconds (now a)) in
     let* analysis := analyzeScreenshot a buffer in
     db_update_screenshot (s_id screenshot) (Js.getSeconds (now a))
       (isImportant analysis) (confidence analysis) ;;;
     let* joined := join_value (categories analysis) ", " in
     ret (ToolContent
            {| tc_id := s_id screenshot;
               tc_isImportant := isImportant analysis;
               tc_confidence := confidence analysis;
               tc_categories := joined;
               tc_description := description analysis |}))
    (fun e => ret (ToolError ("Analysis failed: " ++ e))).

End Single.


(** ** Sample data for the worked instances *)

Module Sample.
Import Store Effects.

Definition july : Js.Date :=
  {| Js.getFullYear := 2025; Js.getMonth := 6; Js.getSeconds := 1751328000;
     Js.toISOString := "2025-07-01T00:00:00.000Z" |}.

Definition png : File :=
  {| f_name := "a.png"; f_type := "image/png";
     f_content := [Byte.x89; Byte.x50; Byte.x4e; Byte.x47] |}.

(** A platform whose vision model is down. *)
Definition down {J} : Ambient J :=
  {| now := july; key_uuid := "k-0001"; id_uuid := "s-0001";
     atob := fun _ => Normal (f_content png);
     generateObject := fun _ => Thrown "upstream error" |}.

Definition empty_world {J} : World J := Build_World empty_db ∅ [].

Definition jpg : File :=
  {| f_name := "a.jpg"; f_type := "image/jpeg";
     f_content := [Byte.xff; Byte.xd8; Byte.xff] |}.

(** A judgement with two categories, and a platform that answers it. *)
Definition two_labels : Multi.Analysis :=
  {| Multi.isImportant := true; Multi.confidence := 9 # 10;
     Multi.categories := ["Dev"; "terminal"];
     Multi.description := "A terminal session";
     Multi.extractedText := "$ make";
     Multi.contentType := Multi.ct_dev;
     Multi.folderCategory := Multi.Dev;
     Multi.retentionPolicy := Multi.keep;
     Multi.importanceLevel := Multi.high |}.

Definition up : Ambient Multi.Analysis :=
  {| now := july; key_uuid := "k-0001"; id_uuid := "s-0001";
     atob := fun _ => Normal (f_content jpg);
     generateObject := fun _ => Normal two_labels |}.

(** A model that names one category twice. *)
Definition same_label_twice : Ambient Multi.Analysis :=
  {| now := july; key_uuid := "k-0001"; id_uuid := "s-0001";
     atob := fun _ => Normal (f_content jpg);
     generateObject := fun _ =>
       Normal {| Multi.isImportant := true; Multi.confidence := 9 # 10;
                 Multi.categories := ["Dev"; "Dev"];
                 Multi.description := "A terminal session";
                 Multi.extractedText := "$ make";
                 Multi.contentType := Multi.ct_dev;
                 Multi.folderCategory := Multi.Dev;
                 Multi.retentionPolicy := Multi.keep;
                 Multi.importanceLevel := Multi.high |} |}.

(** The single-label pipeline with a model that files every image under
    Dev, and the world after it served one upload. *)
Definition dev_label : Single.Analysis :=
  {| Single.isImportant := true; Single.confidence := 9 # 10;
     Single.category := "code";
     Single.description := "A terminal session";
     Single.extractedText := "$ make";
     Single.contentType := Single.ct_dev;
     Single.folderCategory := Single.Dev;
     Single.retentionPolicy := Single.keep;
     Single.importanceLevel := Single.high |}.

Definition single_up : Ambient Single.Analysis :=
  {| now := july; key_uuid := "k-0001"; id_uuid := "s-0001";
     atob := fun _ => Normal (f_content png);
     generateObject := fun _ => Normal dev_label |}.

Definition after_one_upload : World Single.Analysis :=
  snd (Single.upload single_up (FormData (FormFile png)) empty_world).

(** A listing query for the important screenshots only. *)
Definition important : Multi.ListQuery :=
  {| Multi.q_category := None; Multi.q_important_only := Some "true";
     Multi.q_limit := None; Multi.q_offset := None;
     Multi.q_date_from := None; Multi.q_date_to := None |}.

(** A listing query without a filter. *)
Definition unfiltered : Multi.ListQuery :=
  {| Multi.q_category := None; Multi.q_important_only := None;
     Multi.q_limit := None; Multi.q_offset := None;
     Multi.q_date_from := None; Multi.q_date_to := None |}.

Definition shot (i : string) (imp : bool) (conf : Q) : Screenshot :=
  set_analysis 1751328060 imp conf
    (new_screenshot i (i ++ ".png") ("screenshots/2025/07/" ++ i ++ ".png")
                    500 "image/png" 1751328000).

Definition blob : R2Object :=
  {| o_body := f_content png; o_contentType := "image/png";
     o_cacheControl := "max-age=86400"; o_customMetadata := [] |}.

(** Four analyzed screenshots; the blob of the last one is missing. *)
Definition shelf : World Multi.Analysis :=
  Build_World
    (Build_DB [ shot "s-79" false (79 # 100); shot "s-80" false (8 # 10);
                shot "s-imp" true (95 # 100); shot "s-95" false (95 # 100) ]
              [] [] [] 0 0)
    (<["screenshots/2025/07/s-79.png" := blob]>
       (<["screenshots/2025/07/s-80.png" := blob]>
          (<["screenshots/2025/07/s-imp.png" := blob]> ∅)))
    [].

End Sample.


(** * Properties *)

Import Store Effects.

(** ** The store: constraints and lookups *)

Lemma find_none_existsb {A} (p : A -> bool) (l : list A) :
  List.find p l = None -> existsb p l = false.
Proof.
  induction l as [|x l IH]; simpl; [reflexivity|].
  destruct (p x); [discriminate | exact IH].
Qed.

Lemma find_some_existsb {A} (p : A -> bool) (l : list A) (x : A) :
  List.find p l = Some x -> existsb p l = true.
Proof.
  induction l as [|y l IH]; simpl; [discriminate|].
  destruct (p y); [reflexivity | exact IH].
Qed.

Lemma find_app_none {A} (p : A -> bool) (l : list A) (x : A) :
  List.find p l = None -> List.find p (l ++ [x]) = List.find p [x].
Proof.
  induction l as [|y l IH]; simpl; [reflexivity|].
  destruct (p y); [discriminate | exact IH].
Qed.

Lemma find_app_some {A} (p : A -> bool) (l l' : list A) (x : A) :
  List.find p l = Some x -> List.find p (l ++ l') = Some x.
Proof.
  induction l as [|y l IH]; simpl; [discriminate|].
  destruct (p y); [trivial | exact IH].
Qed.

Section StoreFacts.
Context {J : Type}.
Implicit Types (d : DB J).

Lemma select_category_name n d c :
  select_category n d = Some c -> c_name c = n.
Proof.
  unfold select_category. intros H.
  apply List.find_some in H as [_ H]. now apply String.eqb_eq.
Qed.

Lemma select_category_has n d c :
  select_category n d = Some c -> has_category (c_id c) d = true.
Proof.
  unfold select_category, has_category. intros H.
  apply List.find_some in H as [Hin _].
  apply existsb_exists. exists c. split; [exact Hin | apply Z.eqb_refl].
Qed.

Lemma select_screenshot_has i d s :
  select_screenshot i d = Some s -> has_screenshot i d = true.
Proof. apply find_some_existsb. Qed.

Lemma select_screenshot_id i d s :
  select_screenshot i d = Some s -> s_id s = i.
Proof.
  unfold select_screenshot. intros H.
  apply List.find_some in H as [_ H]. now apply String.eqb_eq.
Qed.

(** A name that the lookup did not find can be inserted: the unique index
    has nothing to object to. *)
Lemma insert_category_absent n created d :
  select_category n d = None ->
  insert_category n created d =
    Some (new_category n created d,
          append_category (new_category n created d) d).
Proof.
  intros H. unfold insert_category.
  now rewrite (find_none_existsb _ _ H).
Qed.

Lemma has_screenshot_update i j at_ imp conf d :
  has_screenshot i (update_screenshot j at_ imp conf d) = has_screenshot i d.
Proof.
  unfold has_screenshot, update_screenshot. simpl.
  induction (screenshots d) as [|s l IH]; simpl; [reflexivity|].
  rewrite IH. f_equal. now destruct (String.eqb (s_id s) j).
Qed.

Lemma fold_max_ge (seq : Z) (l : list Z) :
  seq <= fold_right Z.max seq l /\ Forall (fun x => x <= fold_right Z.max seq l) l.
Proof.
  induction l as [|x l [IH1 IH2]]; simpl.
  - split; [lia | constructor].
  - split; [lia|]. constructor; [lia|].
    eapply List.Forall_impl; [|exact IH2]. simpl. intros; lia.
Qed.

(** The rowid AUTOINCREMENT hands out is above every rowid in use. *)
Lemma next_rowid_fresh (seq : Z) (l : list Z) :
  Forall (fun x => x < next_rowid seq l) l /\ seq < next_rowid seq l.
Proof.
  unfold next_rowid. destruct (fold_max_ge seq l) as [H1 H2]. split; [|lia].
  eapply List.Forall_impl; [|exact H2]. simpl. intros; lia.
Qed.

End StoreFacts.


(** ** Running the primitives *)

Ltac run :=
  unfold bind, ret, throw, lift, log, read_db, write_db, try_db,
         try_catch;
  cbn beta iota delta [w_db w_r2 w_trace option_map].

Section LinkLoop.
Context {J : Type}.
Implicit Types (d : DB J) (w : World J) (a : Ambient J).

Lemma has_screenshot_after_resolve created n sid d :
  has_screenshot sid (after_resolve created n d) = has_screenshot sid d.
Proof. unfold after_resolve. now destruct (select_category n d). Qed.

Lemma has_screenshot_after_link created sid' conf n sid d :
  has_screenshot sid (after_link created sid' conf n d) = has_screenshot sid d.
Proof.
  unfold after_link, has_screenshot. simpl.
  apply (has_screenshot_after_resolve created n sid d).
Qed.

Lemma has_resolved_category created n d :
  has_category (c_id (resolved_category created n d))
               (after_resolve created n d) = true.
Proof.
  unfold resolved_category, after_resolve.
  destruct (select_category n d) as [c|] eqn:E.
  - eapply select_category_has; eauto.
  - unfold has_category. simpl. rewrite existsb_app. simpl.
    rewrite Z.eqb_refl. now rewrite orb_true_r.
Qed.

Lemma resolveCategory_run a n w :
  resolveCategory a n w =
    (Normal (resolved_category (Js.getSeconds (now a)) n (w_db w)),
     Build_World (after_resolve (Js.getSeconds (now a)) n (w_db w)) (w_r2 w)
                 (w_trace w ++ resolve_events n (w_db w))).
Proof.
  unfold resolveCategory, db_select_category, db_insert_category,
         resolved_category, after_resolve, resolve_events.
  run. destruct (select_category n (w_db w)) as [c|] eqn:E; run.
  - destruct w; reflexivity.
  - rewrite (insert_category_absent _ _ _ E). simpl.
    now rewrite <- app_assoc.
Qed.

(** With the screenshot row in place, the loop body runs to its end. *)
Lemma link_category_run a sid conf n w :
  has_screenshot sid (w_db w) = true ->
  link_category a sid conf n w =
    (Normal tt,
     Build_World (after_link (Js.getSeconds (now a)) sid conf n (w_db w))
                 (w_r2 w)
                 (w_trace w ++
                    link_events (Js.getSeconds (now a)) sid conf n (w_db w))).
Proof.
  intros Hs. unfold link_category, bind. rewrite resolveCategory_run.
  unfold db_insert_screenshotCategory, insert_screenshotCategory. run.
  rewrite has_screenshot_after_resolve, Hs, has_resolved_category. simpl.
  unfold after_link, link_events, new_link. now rewrite <- app_assoc.
Qed.

Lemma for_of_link_run a sid conf names : forall w,
  has_screenshot sid (w_db w) = true ->
  for_of names (link_category a sid conf) w =
    (Normal tt,
     Build_World (after_links (Js.getSeconds (now a)) sid conf names (w_db w))
                 (w_r2 w)
                 (w_trace w ++
                    links_events (Js.getSeconds (now a)) sid conf names
                                 (w_db w))).
Proof.
  induction names as [|n names IH]; intros w Hs; simpl.
  - unfold ret. rewrite app_nil_r. now destruct w.
  - unfold bind. rewrite (link_category_run _ _ _ _ _ Hs).
    rewrite IH; simpl.
    + now rewrite <- app_assoc.
    + now rewrite has_screenshot_after_link.
Qed.

End LinkLoop.


(** ** The multi-label handlers, step by step *)

Lemma has_screenshot_appended {J} i (row : Screenshot) (d : DB J) :
  s_id row = i ->
  has_screenshot i (with_screenshots (screenshots d ++ [row]) d) = true.
Proof.
  intros <-. unfold has_screenshot, with_screenshots. simpl.
  rewrite existsb_app. simpl. rewrite String.eqb_refl.
  now rewrite orb_true_r.
Qed.

Lemma has_screenshot_append_analysisResult {J} i (row : AnalysisResult J) d :
  has_screenshot i (append_analysisResult row d) = has_screenshot i d.
Proof. reflexivity. Qed.

Lemma has_screenshot_delete_links {J} i j (d : DB J) :
  has_screenshot i (delete_screenshotCategories j d) = has_screenshot i d.
Proof. reflexivity. Qed.

(** [analyzeScreenshot] never throws and touches neither store. *)
Lemma multi_analyzeScreenshot_run a imageBuffer (w : World Multi.Analysis) :
  Multi.analyzeScreenshot a imageBuffer w =
    (Normal (Multi.judgement a imageBuffer),
     Build_World (w_db w) (w_r2 w) (w_trace w ++ [Classify])).
Proof.
  unfold Multi.analyzeScreenshot, Multi.judgement. run.
  now destruct (generateObject a imageBuffer).
Qed.

Lemma multi_upload_run a file (w : World Multi.Analysis) :
  Js.startsWith (f_type file) "image/" = true ->
  taken (id_uuid a) (generateR2Key a (f_name file)) (w_db w) = false ->
  Multi.upload a (FormData (FormFile file)) w =
    (Normal (Json 201 (Multi.upload_body a file)),
     Build_World (Multi.upload_db a file (w_db w))
                 (<[generateR2Key a (f_name file) := Multi.upload_object a file]>
                    (w_r2 w))
                 (w_trace w ++ Multi.upload_events a file (w_db w))).
Proof.
  intros Himg Hfresh.
  unfold Multi.upload, try_catch, bind at 1. simpl. unfold ret at 1.
  rewrite Himg. simpl.
  unfold r2_put, db_insert_screenshot, insert_screenshot. run.
  rewrite Hfresh. simpl.
  unfold bind. rewrite multi_analyzeScreenshot_run. simpl.
  unfold db_update_screenshot, db_insert_analysisResult,
         insert_analysisResult. run.
  rewrite has_screenshot_update, has_screenshot_appended by reflexivity.
  cbn beta iota delta [option_map].
  rewrite for_of_link_run; cbn [w_db w_r2 w_trace].
  - unfold Multi.upload_db, Multi.upload_events, Multi.upload_body,
           recorded_db, analyzed_db, Multi.upload_row.
    cbn [s_id new_screenshot s_filename].
    repeat rewrite <- app_assoc. reflexivity.
  - rewrite has_screenshot_append_analysisResult, has_screenshot_update.
    now apply has_screenshot_appended.
Qed.


(** ** The single-label handlers, step by step *)

Lemma single_analyzeScreenshot_run a imageBuffer (w : World Single.Analysis) :
  Single.analyzeScreenshot a imageBuffer w =
    (Normal (Single.judgement a imageBuffer),
     Build_World (w_db w) (w_r2 w) (w_trace w ++ [Classify])).
Proof.
  unfold Single.analyzeScreenshot, Single.judgement. run.
  now destruct (generateObject a imageBuffer).
Qed.

Lemma single_upload_run a file (w : World Single.Analysis) :
  Js.startsWith (f_type file) "image/" = true ->
  taken (id_uuid a) (generateR2Key a (f_name file)) (w_db w) = false ->
  Single.upload a (FormData (FormFile file)) w =
    (Normal (Json 201 (Single.upload_body a file)),
     Build_World (Single.upload_db a file (w_db w))
                 (<[generateR2Key a (f_name file) := Single.upload_object a file]>
                    (w_r2 w))
                 (w_trace w ++ Single.upload_events a file (w_db w))).
Proof.
  intros Himg Hfresh.
  unfold Single.upload, try_catch, bind at 1. simpl. unfold ret at 1.
  rewrite Himg. simpl.
  unfold r2_put, db_insert_screenshot, insert_screenshot. run.
  rewrite Hfresh. simpl.
  unfold bind. rewrite single_analyzeScreenshot_run. simpl.
  unfold db_update_screenshot, db_insert_analysisResult,
         insert_analysisResult. run.
  rewrite has_screenshot_update, has_screenshot_appended by reflexivity.
  cbn beta iota delta [option_map].
  rewrite link_category_run; cbn [w_db w_r2 w_trace].
  - unfold Single.upload_db, Single.upload_events, Single.upload_body,
           recorded_db, analyzed_db, Single.upload_row.
    cbn [s_id new_screenshot s_filename].
    repeat rewrite <- app_assoc. reflexivity.
  - rewrite has_screenshot_append_analysisResult, has_screenshot_update.
    now apply has_screenshot_appended.
Qed.

(** [POST /analyze] on an image file: the judgement, and nothing written. *)
Lemma single_analyze_run a file (w : World Single.Analysis) :
  Js.startsWith (f_type file) "image/" = true ->
  Single.analyze a (FormData (FormFile file)) w =
    (Normal (Json 200 (Single.analyze_body a file)),
     Build_World (w_db w) (w_r2 w) (w_trace w ++ [Classify])).
Proof.
  intros Himg.
  unfold Single.analyze, try_catch, bind at 1. simpl. unfold ret at 1.
  rewrite Himg. simpl.
  unfold bind. rewrite single_analyzeScreenshot_run. reflexivity.
Qed.


(** ** The failure policy of the classifier *)

(** C1.  Whatever the image, when the call to the vision model throws,
    [analyzeScreenshot] returns the fixed fallback judgement (not important,
    confidence 0.5, categories ["uncategorized"] in the multi-label pipeline
    and category "uncategorized" in the single-label one, folder [Temp],
    retention [delete_immediately], importance [low], extracted text
    "Analysis failed - could not extract text"), in both pipelines; and the
    callers do not see an error: an upload of an image file whose drawn id and
    key are free answers 201 with the fallback fields, and [POST /analyze]
    answers 200 with them. *)
Theorem classifier_failure_gives_fallback
        (am : Ambient Multi.Analysis) (asg : Ambient Single.Analysis)
        (file : File) (e e' : string) :
  generateObject am (f_content file) = Thrown e ->
  generateObject asg (f_content file) = Thrown e' ->
  Js.startsWith (f_type file) "image/" = true ->
  (forall w, fst (Multi.analyzeScreenshot am (f_content file) w)
             = Normal Multi.fallback)
  /\ (forall w, fst (Single.analyzeScreenshot asg (f_content file) w)
                = Normal Single.fallback)
  /\ (Multi.isImportant Multi.fallback = false
      /\ Multi.confidence Multi.fallback = 1 # 2
      /\ Multi.categories Multi.fallback = ["uncategorized"]
      /\ Multi.folderCategory Multi.fallback = Multi.Temp
      /\ Multi.retentionPolicy Multi.fallback = Multi.delete_immediately
      /\ Multi.importanceLevel Multi.fallback = Multi.low
      /\ Multi.extractedText Multi.fallback
         = "Analysis failed - could not extract text")
  /\ (Single.isImportant Single.fallback = false
      /\ Single.confidence Single.fallback = 1 # 2
      /\ Single.category Single.fallback = "uncategorized"
      /\ Single.folderCategory Single.fallback = Single.Temp
      /\ Single.retentionPolicy Single.fallback = Single.delete_immediately
      /\ Single.importanceLevel Single.fallback = Single.low
      /\ Single.extractedText Single.fallback
         = "Analysis failed - could not extract text")
  /\ (forall w,
        taken (id_uuid am) (generateR2Key am (f_name file)) (w_db w) = false ->
        fst (Multi.upload am (FormData (FormFile file)) w)
        = Normal (Json 201
                    {| Multi.ub_id := id_uuid am;
                       Multi.ub_filename := f_name file;
                       Multi.ub_isImportant := false;
                       Multi.ub_confidence := 1 # 2;
                       Multi.ub_categories := ["uncategorized"];
                       Multi.ub_description := "Analysis failed" |}))
  /\ (forall w,
        taken (id_uuid asg) (generateR2Key asg (f_name file)) (w_db w) = false ->
        fst (Single.upload asg (FormData (FormFile file)) w)
        = Normal (Json 201
                    {| Single.ub_id := id_uuid asg;
                       Single.ub_filename := f_name file;
                       Single.ub_isImportant := false;
                       Single.ub_confidence := 1 # 2;
                       Single.ub_category := Single.Temp;
                       Single.ub_description := "Analysis failed" |}))
  /\ (forall w,
        fst (Single.analyze asg (FormData (FormFile file)) w)
        = Normal (Json 200
                    {| Single.ab_filename := f_name file;
                       Single.ab_isImportant := false;
                       Single.ab_confidence := 1 # 2;
                       Single.ab_category := Single.Temp;
                       Single.ab_description := "Analysis failed";
                       Single.ab_extractedText :=
                         "Analysis failed - could not extract text";
                       Single.ab_contentType := Single.ct_other;
                       Single.ab_retentionPolicy := Single.delete_immediately;
                       Single.ab_importanceLevel := Single.low |})).
Proof.
  intros Hm Hs Himg.
  assert (Jm : Multi.judgement am (f_content file) = Multi.fallback)
    by (unfold Multi.judgement; now rewrite Hm).
  assert (Js : Single.judgement asg (f_content file) = Single.fallback)
    by (unfold Single.judgement; now rewrite Hs).
  repeat split.
  - intros w. now rewrite multi_analyzeScreenshot_run, Jm.
  - intros w. now rewrite single_analyzeScreenshot_run, Js.
  - intros w Hfresh. rewrite (multi_upload_run _ _ _ Himg Hfresh).
    unfold Multi.upload_body. now rewrite Jm.
  - intros w Hfresh. rewrite (single_upload_run _ _ _ Himg Hfresh).
    unfold Single.upload_body. now rewrite Js.
  - intros w. rewrite (single_analyze_run _ _ _ Himg).
    unfold Single.analyze_body. now rewrite Js.
Qed.

Lemma classifier_failure_gives_fallback_witness :
  Js.startsWith (f_type Sample.png) "image/" = true
  /\ fst (Multi.analyzeScreenshot Sample.down (f_content Sample.png)
                                  Sample.empty_world)
     = Normal Multi.fallback
  /\ status_of
       (match fst (Multi.upload Sample.down (FormData (FormFile Sample.png))
                                Sample.empty_world) with
        | Normal r => r
        | Thrown _ => JsonError 500 ""
        end) = 201.
Proof.
  destruct (classifier_failure_gives_fallback
              Sample.down Sample.down Sample.png
              "upstream error" "upstream error"
              eq_refl eq_refl eq_refl)
    as (Ha & _ & _ & _ & Hu & _ & _).
  split; [reflexivity|]. split; [apply Ha|].
  now rewrite (Hu Sample.empty_world eq_refl).
Defined.


(** ** Category resolution *)

Section Resolution.
Context {J : Type}.
Implicit Types (d : DB J) (w : World J).

Lemma select_after_resolve created n d :
  select_category n (after_resolve created n d)
  = Some (resolved_category created n d).
Proof.
  unfold after_resolve, resolved_category.
  destruct (select_category n d) as [c|] eqn:E; [exact E|].
  unfold select_category, append_category. cbn [categories].
  unfold select_category in E. rewrite (find_app_none _ _ _ E).
  cbn. now rewrite String.eqb_refl.
Qed.

Lemma find_none_filter {A} (p : A -> bool) (l : list A) :
  List.find p l = None -> List.filter p l = [].
Proof.
  induction l as [|x l IH]; simpl; [reflexivity|].
  destruct (p x); [discriminate | exact IH].
Qed.

Lemma find_some_filter {A} (p : A -> bool) (l : list A) (x : A) :
  List.find p l = Some x -> (1 <= List.length (List.filter p l))%nat.
Proof.
  induction l as [|y l IH]; simpl; [discriminate|].
  destruct (p y); simpl; [lia | exact IH].
Qed.

Lemma count_after_resolve created n d :
  count_named n (after_resolve created n d) = Nat.max 1 (count_named n d).
Proof.
  unfold count_named, after_resolve.
  destruct (select_category n d) as [c|] eqn:E.
  - apply find_some_filter in E. lia.
  - unfold append_category. cbn [categories].
    rewrite List.filter_app, (find_none_filter _ _ E). cbn.
    now rewrite String.eqb_refl.
Qed.

End Resolution.

(** C5.  Resolving a category name twice in a row: both calls complete and
    return the same row, named as asked; the second call leaves the store as
    the first left it; the number of rows with that name afterwards is the
    number before, or one if there was none (so a table without duplicates
    stays without); and when the name was absent the row both calls return is
    the one the first call inserted, appended with the next rowid. *)
Theorem resolveCategory_twice {J : Type} (a1 a2 : Ambient J) (n : string)
        (w : World J) :
  let first := resolveCategory a1 n w in
  let second := resolveCategory a2 n (snd first) in
  exists c : Category,
    fst first = Normal c
    /\ fst second = Normal c
    /\ c_name c = n
    /\ w_db (snd second) = w_db (snd first)
    /\ w_r2 (snd second) = w_r2 w
    /\ count_named n (w_db (snd second))
       = Nat.max 1 (count_named n (w_db w))
    /\ ((count_named n (w_db w) <= 1)%nat ->
        count_named n (w_db (snd second)) = 1%nat)
    /\ (select_category n (w_db w) = None ->
        c = new_category n (Js.getSeconds (now a1)) (w_db w)
        /\ Store.categories (w_db (snd first))
           = (Store.categories (w_db w) ++ [c])%list
        /\ select_category n (w_db (snd first)) = Some c).
Proof.
  cbv zeta. rewrite resolveCategory_run. cbn [fst snd].
  rewrite resolveCategory_run. cbn [fst snd w_db w_r2].
  pose proof (select_after_resolve (Js.getSeconds (now a1)) n (w_db w)) as Hsel.
  exists (resolved_category (Js.getSeconds (now a1)) n (w_db w)).
  assert (Hsame : resolved_category (Js.getSeconds (now a2)) n
                    (after_resolve (Js.getSeconds (now a1)) n (w_db w))
                  = resolved_category (Js.getSeconds (now a1)) n (w_db w)).
  { unfold resolved_category at 1. now rewrite Hsel. }
  assert (Hkeep : after_resolve (Js.getSeconds (now a2)) n
                    (after_resolve (Js.getSeconds (now a1)) n (w_db w))
                  = after_resolve (Js.getSeconds (now a1)) n (w_db w)).
  { unfold after_resolve at 1. now rewrite Hsel. }
  rewrite Hsame, Hkeep.
  repeat split.
  - eapply select_category_name. exact Hsel.
  - apply count_after_resolve.
  - intros Hle. rewrite count_after_resolve. lia.
  - unfold resolved_category. now rewrite H.
  - unfold after_resolve, resolved_category. now rewrite H.
  - exact Hsel.
Qed.

Lemma resolveCategory_twice_witness :
  select_category "Dev" (w_db (@Sample.empty_world Multi.Analysis)) = None
  /\ count_named "Dev"
       (w_db (snd (resolveCategory Sample.down "Dev"
                     (snd (resolveCategory Sample.down "Dev"
                             (@Sample.empty_world Multi.Analysis))))))
     = 1%nat.
Proof.
  split; [reflexivity|].
  destruct (resolveCategory_twice (J := Multi.Analysis)
              Sample.down Sample.down "Dev" Sample.empty_world)
    as (c & _ & _ & _ & _ & _ & Hcount & _).
  exact Hcount.
Defined.


(** ** Cleanup *)

Lemma find_filter_negb {A} (p : A -> bool) (l : list A) :
  List.find p (List.filter (fun x => negb (p x)) l) = None.
Proof.
  induction l as [|x l IH]; simpl; [reflexivity|].
  destruct (p x) eqn:E; simpl; [exact IH | now rewrite E].
Qed.

Lemma find_filter_none {A} (p q : A -> bool) (l : list A) :
  List.find p l = None -> List.find p (List.filter q l) = None.
Proof.
  induction l as [|x l IH]; simpl; [reflexivity|].
  destruct (p x) eqn:E; [discriminate|]. intros H.
  destruct (q x); simpl; [rewrite E|]; auto.
Qed.

Lemma filter_filter_nil {A} (p q : A -> bool) (l : list A) :
  List.filter p l = [] -> List.filter p (List.filter q l) = [].
Proof.
  induction l as [|x l IH]; simpl; [reflexivity|].
  destruct (p x) eqn:E; [discriminate|]. intros H.
  destruct (q x); simpl; [rewrite E|]; auto.
Qed.

Lemma filter_negb_nil {A} (p : A -> bool) (l : list A) :
  List.filter p (List.filter (fun x => negb (p x)) l) = [].
Proof.
  induction l as [|x l IH]; simpl; [reflexivity|].
  destruct (p x) eqn:E; simpl; [exact IH | now rewrite E].
Qed.

(** A deleted screenshot is gone with its links and its history. *)
Lemma delete_screenshot_gone {J} i (d : DB J) :
  select_screenshot i (delete_screenshot i d) = None
  /\ links_of i (delete_screenshot i d) = []
  /\ results_of i (delete_screenshot i d) = [].
Proof.
  unfold select_screenshot, links_of, results_of, delete_screenshot.
  cbn [screenshots screenshotCategories analysisResults].
  split; [apply find_filter_negb|].
  split; apply filter_negb_nil.
Qed.

Lemma delete_screenshot_keeps_gone {J} i j (d : DB J) :
  select_screenshot i d = None /\ links_of i d = [] /\ results_of i d = [] ->
  select_screenshot i (delete_screenshot j d) = None
  /\ links_of i (delete_screenshot j d) = []
  /\ results_of i (delete_screenshot j d) = [].
Proof.
  unfold select_screenshot, links_of, results_of, delete_screenshot.
  cbn [screenshots screenshotCategories analysisResults].
  intros (H1 & H2 & H3). split; [now apply find_filter_none|].
  split; now apply filter_filter_nil.
Qed.

Lemma cleanup_loop_run (l : list Screenshot) : forall w : World Multi.Analysis,
  for_of l (fun screenshot =>
              r2_delete (s_r2Key screenshot) ;;;
              db_delete_screenshot (s_id screenshot)) w
  = (Normal tt, fold_left Multi.cleanup_step l w).
Proof.
  induction l as [|s l IH]; intros w; cbn [for_of fold_left].
  - reflexivity.
  - unfold bind at 1. unfold r2_delete, db_delete_screenshot. run.
    rewrite IH. unfold Multi.cleanup_step. cbn [w_db w_r2 w_trace].
    now rewrite <- app_assoc.
Qed.

Lemma cleanup_step_gone s w : Multi.gone s (Multi.cleanup_step w s).
Proof.
  unfold Multi.gone, Multi.cleanup_step. cbn [w_db w_r2].
  split; [apply lookup_delete_eq | apply delete_screenshot_gone].
Qed.

Lemma cleanup_step_keeps_gone s s' w :
  Multi.gone s w -> Multi.gone s (Multi.cleanup_step w s').
Proof.
  unfold Multi.gone, Multi.cleanup_step. cbn [w_db w_r2]. intros (H1 & H2).
  split; [|now apply delete_screenshot_keeps_gone].
  rewrite lookup_delete. destruct (decide _); [reflexivity | exact H1].
Qed.

Lemma cleanup_fold_keeps_gone s l : forall w,
  Multi.gone s w -> Multi.gone s (fold_left Multi.cleanup_step l w).
Proof.
  induction l as [|x l IH]; intros w H; cbn [fold_left]; [exact H|].
  apply IH. now apply cleanup_step_keeps_gone.
Qed.

Lemma cleanup_fold_gone s l : forall w,
  In s l -> Multi.gone s (fold_left Multi.cleanup_step l w).
Proof.
  induction l as [|x l IH]; intros w Hin; [destruct Hin|].
  cbn [fold_left]. destruct Hin as [->|Hin].
  - apply cleanup_fold_keeps_gone, cleanup_step_gone.
  - now apply IH.
Qed.

(** What the loop leaves alone: rows whose id, and blobs whose key, is not
    a candidate's. *)
Lemma cleanup_fold_rest l : forall w : World Multi.Analysis,
  screenshots (w_db (fold_left Multi.cleanup_step l w))
  = List.filter
      (fun s => negb (existsb (fun c => String.eqb (s_id s) (s_id c)) l))
      (screenshots (w_db w))
  /\ (forall k, ~ In k (map s_r2Key l) ->
        w_r2 (fold_left Multi.cleanup_step l w) !! k = w_r2 w !! k).
Proof.
  induction l as [|x l IH]; intros w; cbn [fold_left].
  - split; [|reflexivity]. cbn.
    induction (screenshots (w_db w)) as [|s r IHr]; cbn; congruence.
  - destruct (IH (Multi.cleanup_step w x)) as [H1 H2]. split.
    + rewrite H1. unfold Multi.cleanup_step, delete_screenshot.
      cbn [w_db screenshots existsb].
      induction (screenshots (w_db w)) as [|s r IHr]; cbn; [reflexivity|].
      destruct (String.eqb (s_id s) (s_id x)); cbn; [exact IHr|].
      destruct (existsb _ l); cbn; [exact IHr | now rewrite IHr].
    + intros k Hk. rewrite H2.
      * unfold Multi.cleanup_step. cbn [w_r2].
        apply lookup_delete_ne. intros E. apply Hk. now left.
      * intros Hin. apply Hk. now right.
Qed.

(** C2.  With threshold [t], a row is a cleanup candidate exactly when its
    importance flag is false and its confidence is at least [t]; at 0.8 a row
    with confidence 0.79 is out and a row flagged unimportant with confidence
    0.8 or 0.95 is in.  A dry run (the default) reports the candidates and
    changes nothing; an executed run deletes the blob and the row of every
    candidate, with the row's links and history, and leaves the other rows and
    blobs in place. *)
Theorem cleanup_candidates_and_modes (t : Q) (w : World Multi.Analysis) :
  (forall s, In s (Multi.select_clutter t (w_db w)) <->
             In s (screenshots (w_db w))
             /\ s_isImportant s = Some false
             /\ exists c, s_confidenceScore s = Some c /\ (t <= c)%Q)
  /\ (forall s c, s_confidenceScore s = Some c -> (c == 79 # 100)%Q ->
                  Multi.is_clutter (8 # 10) s = false)
  /\ (forall s c, s_isImportant s = Some false ->
                  s_confidenceScore s = Some c ->
                  (c == 8 # 10)%Q \/ (c == 95 # 100)%Q ->
                  Multi.is_clutter (8 # 10) s = true)
  /\ (forall dryRun, dryRun = None \/ dryRun = Some true ->
        Multi.cleanup_clutter dryRun (Some t) w
        = (Normal (ToolContent
                     (Multi.Preview
                        (List.length (Multi.select_clutter t (w_db w)))
                        (map (fun s => (s_filename s, s_confidenceScore s))
                             (Multi.select_clutter t (w_db w))))),
           w))
  /\ (exists w',
        Multi.cleanup_clutter (Some false) (Some t) w
        = (Normal (ToolContent
                     (Multi.Deleted
                        (List.length (Multi.select_clutter t (w_db w))))),
           w')
        /\ (forall s, In s (Multi.select_clutter t (w_db w)) ->
              w_r2 w' !! s_r2Key s = None
              /\ select_screenshot (s_id s) (w_db w') = None
              /\ links_of (s_id s) (w_db w') = []
              /\ results_of (s_id s) (w_db w') = [])
        /\ screenshots (w_db w')
           = List.filter
               (fun s => negb (existsb (fun c => String.eqb (s_id s) (s_id c))
                                       (Multi.select_clutter t (w_db w))))
               (screenshots (w_db w))
        /\ (forall k, ~ In k (map s_r2Key (Multi.select_clutter t (w_db w))) ->
              w_r2 w' !! k = w_r2 w !! k)).
Proof.
  split; [|split; [|split; [|split]]].
  - intros s. unfold Multi.select_clutter. rewrite List.filter_In.
    unfold Multi.is_clutter. split.
    + intros [Hin H]. split; [exact Hin|].
      destruct (s_isImportant s) as [[|]|]; try discriminate.
      split; [reflexivity|].
      destruct (s_confidenceScore s) as [c|]; try discriminate.
      exists c. split; [reflexivity|]. now apply Qle_bool_iff.
    + intros (Hin & Himp & c & Hc & Hle). split; [exact Hin|].
      rewrite Himp, Hc. cbn. now apply Qle_bool_iff.
  - intros s c Hc Heq. unfold Multi.is_clutter. rewrite Hc.
    destruct (Qle_bool (8 # 10) c) eqn:E; [|now rewrite andb_false_r].
    apply Qle_bool_iff in E. rewrite Heq in E. now apply Qle_bool_iff in E.
  - intros s c Himp Hc Heq. unfold Multi.is_clutter. rewrite Himp, Hc. cbn.
    apply Qle_bool_iff. destruct Heq as [-> | ->]; now apply Qle_bool_iff.
  - intros dryRun [-> | ->]; unfold Multi.cleanup_clutter; run;
      now destruct w.
  - exists (fold_left Multi.cleanup_step (Multi.select_clutter t (w_db w)) w).
    split; [|split; [|apply cleanup_fold_rest]].
    + unfold Multi.cleanup_clutter. cbn [default id].
      unfold try_catch, bind at 1, read_db. unfold bind at 1.
      cbn [id]. now rewrite cleanup_loop_run.
    + intros s Hin. now apply cleanup_fold_gone.
Qed.

Lemma cleanup_candidates_and_modes_witness :
  map s_id (Multi.select_clutter (8 # 10) (w_db Sample.shelf))
  = ["s-80"; "s-95"]
  /\ exists w',
       fst (Multi.cleanup_clutter (Some false) (Some (8 # 10)) Sample.shelf)
       = Normal (ToolContent (Multi.Deleted 2))
       /\ snd (Multi.cleanup_clutter (Some false) (Some (8 # 10)) Sample.shelf)
          = w'
       /\ w_r2 w' !! "screenshots/2025/07/s-80.png" = None
       /\ map s_id (screenshots (w_db w')) = ["s-79"; "s-imp"].
Proof.
  split; [reflexivity|].
  destruct (cleanup_candidates_and_modes (8 # 10) Sample.shelf)
    as (_ & _ & _ & _ & w' & Hrun & Hgone & Hrest & _).
  exists w'. rewrite Hrun. cbn [fst snd].
  split; [reflexivity|]. split; [reflexivity|]. split.
  - refine (proj1 (Hgone (Sample.shot "s-80" false (8 # 10)) _)).
    vm_compute. left. reflexivity.
  - rewrite Hrest. reflexivity.
Defined.


(** ** Deletion *)

(** C10.  [DELETE /screenshots/:id] answers 404 exactly when no row has the
    id, and then changes nothing.  When the row exists it answers 200 whether
    or not a blob sits under the row's key: the blob-store delete is issued
    first, unconditionally, then the row goes with its links and its history.
    With no blob under the key the bucket is left as it was. *)
Theorem delete_needs_only_the_row (id : string) (w : World Multi.Analysis) :
  (select_screenshot id (w_db w) = None ->
     Multi.delete_handler id w
     = (Normal (JsonError 404 "Screenshot not found"), w))
  /\ (forall s, select_screenshot id (w_db w) = Some s ->
        exists w',
          Multi.delete_handler id w
          = (Normal (Json 200 "Screenshot deleted successfully"), w')
          /\ select_screenshot id (w_db w') = None
          /\ links_of id (w_db w') = []
          /\ results_of id (w_db w') = []
          /\ w_r2 w' = delete (s_r2Key s) (w_r2 w)
          /\ (w_r2 w !! s_r2Key s = None -> w_r2 w' = w_r2 w)
          /\ w_trace w'
             = (w_trace w ++ [R2Delete (s_r2Key s); DeleteScreenshot id])%list).
Proof.
  split.
  - intros H. unfold Multi.delete_handler, db_select_screenshot. run.
    rewrite H. now destruct w.
  - intros s H.
    exists (Build_World (delete_screenshot id (w_db w))
                        (delete (s_r2Key s) (w_r2 w))
                        (w_trace w ++ [R2Delete (s_r2Key s);
                                       DeleteScreenshot id])).
    split.
    + unfold Multi.delete_handler, db_select_screenshot, r2_delete,
             db_delete_screenshot. run. rewrite H. run.
      now rewrite <- app_assoc.
    + cbn [w_db w_r2 w_trace].
      destruct (delete_screenshot_gone id (w_db w)) as (H1 & H2 & H3).
      repeat split; try assumption. intros Hno. now apply delete_id.
Qed.

Lemma delete_needs_only_the_row_witness :
  w_r2 Sample.shelf !! "screenshots/2025/07/s-95.png" = None
  /\ fst (Multi.delete_handler "s-95" Sample.shelf)
     = Normal (Json 200 "Screenshot deleted successfully")
  /\ select_screenshot "s-95"
       (w_db (snd (Multi.delete_handler "s-95" Sample.shelf))) = None.
Proof.
  split; [reflexivity|].
  destruct (delete_needs_only_the_row "s-95" Sample.shelf) as [_ H].
  destruct (H (Sample.shot "s-95" false (95 # 100)) eq_refl)
    as (w' & Hrun & Hsel & _).
  rewrite Hrun. cbn [fst snd]. split; [reflexivity | exact Hsel].
Defined.


(** ** Analyze-only *)

(** C8.  [POST /analyze] never throws and leaves the store and the bucket
    as they were, whatever the request: it issues no storage statement at all
    (the only thing it may log is the call to the vision model).  It answers
    400 when the form has no file or the file is not an image and 200 with the
    judgement fields for an image file (and 500 when the body is no form at
    all). *)
Theorem analyze_changes_nothing (a : Ambient Single.Analysis)
        (req : RequestBody) (w : World Single.Analysis) :
  exists r w',
    Single.analyze a req w = (Normal r, w')
    /\ w_db w' = w_db w
    /\ w_r2 w' = w_r2 w
    /\ (w_trace w' = w_trace w \/ w_trace w' = (w_trace w ++ [Classify])%list)
    /\ r = match req with
           | NotFormData => JsonError 500 "Analysis failed"
           | FormData (FormFile file) =>
               if Js.startsWith (f_type file) "image/"
               then Json 200 (Single.analyze_body a file)
               else JsonError 400 "File must be an image"
           | FormData _ => JsonError 400 "No file provided"
           end.
Proof.
  destruct req as [|[| s | file]].
  - exists (JsonError 500 "Analysis failed"), w.
    repeat split; auto.
  - exists (JsonError 400 "No file provided"), w.
    repeat split; auto.
  - exists (JsonError 400 "No file provided"), w.
    repeat split; auto.
  - destruct (Js.startsWith (f_type file) "image/") eqn:Himg.
    + eexists _, _. rewrite (single_analyze_run _ _ _ Himg).
      split; [reflexivity|]. cbn [w_db w_r2 w_trace]. auto.
    + exists (JsonError 400 "File must be an image"), w.
      unfold Single.analyze, try_catch, bind at 1. cbn.
      rewrite Himg. repeat split; auto.
Qed.


(** ** The write sequence of an upload *)

Section AfterLinks.
Context {J : Type}.
Implicit Types (d : DB J).

Lemma after_link_frame created sid conf n d :
  screenshots (after_link created sid conf n d) = screenshots d
  /\ analysisResults (after_link created sid conf n d) = analysisResults d.
Proof.
  unfold after_link, after_resolve.
  now destruct (select_category n d).
Qed.

Lemma after_links_frame created sid conf names : forall d,
  screenshots (after_links created sid conf names d) = screenshots d
  /\ analysisResults (after_links created sid conf names d)
     = analysisResults d.
Proof.
  induction names as [|n names IH]; intros d; cbn [after_links]; [auto|].
  destruct (IH (after_link created sid conf n d)) as [H1 H2].
  destruct (after_link_frame created sid conf n d) as [H3 H4].
  split; congruence.
Qed.

Lemma link_events_block created sid conf n d :
  Multi.category_block sid conf n (link_events created sid conf n d).
Proof.
  exists (c_id (resolved_category created n d)).
  unfold link_events, resolve_events.
  destruct (select_category n d); [left | right]; reflexivity.
Qed.

Lemma links_events_blocks created sid conf names : forall d,
  exists blocks,
    links_events created sid conf names d = List.concat blocks
    /\ Forall2 (Multi.category_block sid conf) names blocks.
Proof.
  induction names as [|n names IH]; intros d; cbn [links_events].
  - exists []. split; [reflexivity | constructor].
  - destruct (IH (after_link created sid conf n d)) as (blocks & E & F).
    exists (link_events created sid conf n d :: blocks). split.
    + cbn [List.concat]. now rewrite E.
    + constructor; [apply link_events_block | exact F].
Qed.

End AfterLinks.

(** C4, as the code has it.  An upload of an image file whose drawn id and
    key are free answers 201 and issues, in this order and nothing else: the
    blob put and the insert of the Screenshot row with its key; the classifier
    call; the update of the row's analysis fields; the append of the Analysis
    Result row tagged "gemini_vision"; then one block per category name of the
    judgement, in the judgement's order, each block being the lookup of the
    name, the insert of the category when the lookup found none, and the link
    row with the judgement's confidence.  The whole log is in step order when
    the judgement has at most one category. *)
Theorem upload_write_sequence (a : Ambient Multi.Analysis) (file : File)
        (w : World Multi.Analysis) :
  Js.startsWith (f_type file) "image/" = true ->
  taken (id_uuid a) (generateR2Key a (f_name file)) (w_db w) = false ->
  let j := Multi.judgement a (f_content file) in
  let key := generateR2Key a (f_name file) in
  exists w' blocks,
    Multi.upload a (FormData (FormFile file)) w
    = (Normal (Json 201 (Multi.upload_body a file)), w')
    /\ w_trace w'
       = (w_trace w
          ++ [ R2Put key; InsertScreenshot (id_uuid a) key; Classify;
               UpdateScreenshot (id_uuid a);
               InsertAnalysisResult (id_uuid a) "gemini_vision" ]
          ++ List.concat blocks)%list
    /\ Forall2 (Multi.category_block (id_uuid a) (Multi.confidence j))
               (Multi.categories j) blocks
    /\ Forall (fun block => Multi.in_step_order block = true) blocks
    /\ ((List.length (Multi.categories j) <= 1)%nat ->
        Multi.in_step_order
          ([ R2Put key; InsertScreenshot (id_uuid a) key; Classify;
             UpdateScreenshot (id_uuid a);
             InsertAnalysisResult (id_uuid a) "gemini_vision" ]
           ++ List.concat blocks) = true).
Proof.
  intros Himg Hfresh j key.
  rewrite (multi_upload_run _ _ _ Himg Hfresh).
  destruct (links_events_blocks (Js.getSeconds (now a)) (id_uuid a)
              (Multi.confidence j) (Multi.categories j)
              (recorded_db a (id_uuid a) "gemini_vision" j
                 (analyzed_db a (Multi.upload_row a file)
                    (Multi.isImportant j) (Multi.confidence j) (w_db w))))
    as (blocks & E & F).
  eexists _, blocks. split; [reflexivity|]. cbn [w_trace].
  assert (Hb : Forall (fun block => Multi.in_step_order block = true) blocks).
  { clear E. induction F as [|n b ns bs [cid [-> | ->]] F IH];
      constructor; auto. }
  split; [|split; [exact F | split; [exact Hb|]]].
  - unfold Multi.upload_events. fold j. fold key. now rewrite E.
  - intros Hlen. clear E.
    destruct F as [|n b ns bs [cid [-> | ->]] F]; [reflexivity| |];
      (destruct F; [reflexivity | cbn in Hlen; lia]).
Qed.

Lemma upload_write_sequence_witness :
  Js.startsWith (f_type Sample.png) "image/" = true
  /\ taken (id_uuid Sample.up)
           (generateR2Key Sample.up (f_name Sample.png))
           (w_db (@Sample.empty_world Multi.Analysis)) = false
  /\ exists w',
       Multi.upload Sample.up (FormData (FormFile Sample.png))
                    Sample.empty_world
       = (Normal (Json 201 (Multi.upload_body Sample.up Sample.png)), w').
Proof.
  split; [reflexivity|]. split; [reflexivity|].
  destruct (upload_write_sequence Sample.up Sample.png Sample.empty_world
              eq_refl eq_refl) as (w' & blocks & Hrun & _).
  exists w'. exact Hrun.
Defined.

(** C4, as stated, fails once a judgement has two categories: the link row
    of the first category (step 6) is written before the second category is
    looked up (step 5). *)
Lemma upload_steps_interleave :
  w_trace (snd (Multi.upload Sample.up (FormData (FormFile Sample.png))
                             Sample.empty_world))
  = [ R2Put "screenshots/2025/07/k-0001.png";
      InsertScreenshot "s-0001" "screenshots/2025/07/k-0001.png";
      Classify;
      UpdateScreenshot "s-0001";
      InsertAnalysisResult "s-0001" "gemini_vision";
      SelectCategory "Dev"; InsertCategory "Dev";
      InsertScreenshotCategory "s-0001" 1 (9 # 10);
      SelectCategory "terminal"; InsertCategory "terminal";
      InsertScreenshotCategory "s-0001" 2 (9 # 10) ]
  /\ Multi.in_step_order
       (w_trace (snd (Multi.upload Sample.up (FormData (FormFile Sample.png))
                                   Sample.empty_world))) = false.
Proof. split; vm_compute; reflexivity. Qed.


(** ** The tool-calling surface against the HTTP surface *)

Lemma tool_run a imageData filename buffer (w : World Multi.Analysis) :
  atob a imageData = Normal buffer ->
  taken (id_uuid a) (generateR2Key a filename) (w_db w) = false ->
  Multi.analyze_screenshot_tool a imageData filename w =
    (Normal (ToolContent (Multi.tool_content a buffer)),
     Build_World (Multi.tool_db a filename buffer (w_db w))
                 (<[generateR2Key a filename := Multi.tool_object buffer]>
                    (w_r2 w))
                 (w_trace w ++
                    [ R2Put (generateR2Key a filename);
                      InsertScreenshot (id_uuid a) (generateR2Key a filename);
                      Classify;
                      UpdateScreenshot (id_uuid a) ])).
Proof.
  intros Hbuf Hfresh.
  unfold Multi.analyze_screenshot_tool, try_catch, bind at 1, lift.
  rewrite Hbuf.
  unfold r2_put, db_insert_screenshot, insert_screenshot. run.
  rewrite Hfresh.
  unfold bind. rewrite multi_analyzeScreenshot_run.
  unfold db_update_screenshot. run.
  unfold Multi.tool_db, Multi.tool_content, analyzed_db, Multi.tool_object.
  cbn [s_id new_screenshot].
  repeat rewrite <- app_assoc. reflexivity.
Qed.

(** C7, as stated, fails: for the same image, name and type, the upload
    appends an Analysis Result row, creates the category and writes the link
    row, and the tool does none of the three. *)
Lemma tool_differs_from_upload :
  let tool := Multi.analyze_screenshot_tool Sample.up "/9j/" "a.jpg"
                                            Sample.empty_world in
  let http := Multi.upload Sample.up (FormData (FormFile Sample.jpg))
                           Sample.empty_world in
  w_trace (snd tool)
  = [ R2Put "screenshots/2025/07/k-0001.jpg";
      InsertScreenshot "s-0001" "screenshots/2025/07/k-0001.jpg";
      Classify; UpdateScreenshot "s-0001" ]
  /\ w_trace (snd http) <> w_trace (snd tool)
  /\ List.length (analysisResults (w_db (snd http))) = 1%nat
  /\ List.length (analysisResults (w_db (snd tool))) = 0%nat
  /\ map c_name (Store.categories (w_db (snd http))) = ["Dev"; "terminal"]
  /\ Store.categories (w_db (snd tool)) = []
  /\ List.length (screenshotCategories (w_db (snd http))) = 2%nat
  /\ screenshotCategories (w_db (snd tool)) = []
  /\ w_db (snd http) <> w_db (snd tool).
Proof.
  cbv zeta. split; [vm_compute; reflexivity|].
  split; [vm_compute; discriminate|].
  split; [vm_compute; reflexivity|].
  split; [vm_compute; reflexivity|].
  split; [vm_compute; reflexivity|].
  split; [vm_compute; reflexivity|].
  split; [vm_compute; reflexivity|].
  split; [vm_compute; reflexivity|].
  intros H. apply (f_equal Store.categories) in H.
  vm_compute in H. discriminate.
Qed.

(** C7, as the code has it.  For an image the tool can decode and a free id
    and key, the tool issues the first statements of the upload's sequence
    (blob put, Screenshot row insert, classifier call, analysis-field update)
    and stops there.  Against the upload of the same bytes under the same name
    as image/jpeg: the Screenshot tables end up equal and the same bytes sit
    under the same key; the upload's log is the tool's log followed by the
    Analysis Result append and the category blocks; the tool leaves the
    Analysis Result, Category and link tables as it found them. *)
Theorem tool_is_a_prefix_of_upload (a : Ambient Multi.Analysis)
        (imageData filename : string) (buffer : bytes)
        (w : World Multi.Analysis) :
  atob a imageData = Normal buffer ->
  taken (id_uuid a) (generateR2Key a filename) (w_db w) = false ->
  let file := {| f_name := filename; f_type := "image/jpeg";
                 f_content := buffer |} in
  let tool := Multi.analyze_screenshot_tool a imageData filename w in
  let http := Multi.upload a (FormData (FormFile file)) w in
  let key := generateR2Key a filename in
  fst tool = Normal (ToolContent (Multi.tool_content a buffer))
  /\ fst http = Normal (Json 201 (Multi.upload_body a file))
  /\ w_trace (snd tool)
     = (w_trace w ++ [ R2Put key; InsertScreenshot (id_uuid a) key; Classify;
                       UpdateScreenshot (id_uuid a) ])%list
  /\ (exists rest,
        w_trace (snd http)
        = (w_trace (snd tool)
           ++ InsertAnalysisResult (id_uuid a) "gemini_vision" :: rest)%list)
  /\ screenshots (w_db (snd tool)) = screenshots (w_db (snd http))
  /\ (forall k, o_body <$> (w_r2 (snd tool) !! k)
                = o_body <$> (w_r2 (snd http) !! k))
  /\ analysisResults (w_db (snd tool)) = analysisResults (w_db w)
  /\ Store.categories (w_db (snd tool)) = Store.categories (w_db w)
  /\ screenshotCategories (w_db (snd tool)) = screenshotCategories (w_db w)
  /\ List.length (analysisResults (w_db (snd http)))
     = S (List.length (analysisResults (w_db w))).
Proof.
  intros Hbuf Hfresh file tool http key. subst tool http.
  rewrite (tool_run _ _ _ _ _ Hbuf Hfresh).
  rewrite (multi_upload_run a file w eq_refl Hfresh).
  cbn [fst snd w_db w_r2 w_trace].
  destruct (after_links_frame (Js.getSeconds (now a)) (id_uuid a)
              (Multi.confidence (Multi.judgement a buffer))
              (Multi.categories (Multi.judgement a buffer))
              (recorded_db a (id_uuid a) "gemini_vision"
                 (Multi.judgement a buffer)
                 (analyzed_db a (Multi.upload_row a file)
                    (Multi.isImportant (Multi.judgement a buffer))
                    (Multi.confidence (Multi.judgement a buffer)) (w_db w))))
    as [Hs Hr].
  split; [reflexivity|]. split; [reflexivity|]. split; [reflexivity|].
  split.
  { eexists. unfold Multi.upload_events. cbn [f_name f_content file].
    fold key. rewrite <- !app_assoc. reflexivity. }
  split.
  { unfold Multi.upload_db. cbn [f_content file]. rewrite Hs. reflexivity. }
  split.
  { intros k. cbn [f_name file]. fold key.
    rewrite !lookup_insert. destruct (decide (key = k)); reflexivity. }
  split; [reflexivity|]. split; [reflexivity|]. split; [reflexivity|].
  unfold Multi.upload_db. cbn [f_content file]. rewrite Hr.
  unfold recorded_db, append_analysisResult. cbn [analysisResults].
  rewrite length_app. cbn. lia.
Qed.

Lemma tool_is_a_prefix_of_upload_witness :
  atob Sample.up "/9j/" = Normal (f_content Sample.jpg)
  /\ taken (id_uuid Sample.up) (generateR2Key Sample.up "a.jpg")
           (w_db (@Sample.empty_world Multi.Analysis)) = false
  /\ screenshots
       (w_db (snd (Multi.analyze_screenshot_tool Sample.up "/9j/" "a.jpg"
                                                 Sample.empty_world)))
     = screenshots
         (w_db (snd (Multi.upload Sample.up (FormData (FormFile Sample.jpg))
                                  Sample.empty_world))).
Proof.
  split; [reflexivity|]. split; [reflexivity|].
  exact (proj1 (proj2 (proj2 (proj2 (proj2
           (tool_is_a_prefix_of_upload Sample.up "/9j/" "a.jpg"
              (f_content Sample.jpg) Sample.empty_world
              eq_refl eq_refl)))))).
Defined.


(** ** Reanalysis *)

Section Joins.
Context {J : Type}.
Implicit Types (d : DB J).

Lemma select_screenshot_update i at_ imp conf d s :
  select_screenshot i d = Some s ->
  select_screenshot i (update_screenshot i at_ imp conf d)
  = Some (set_analysis at_ imp conf s).
Proof.
  unfold select_screenshot, update_screenshot, with_screenshots.
  cbn [screenshots].
  induction (screenshots d) as [|x l IH]; cbn; [discriminate|].
  destruct (String.eqb (s_id x) i) eqn:E; cbn.
  - rewrite E. now intros [= ->].
  - rewrite E. exact IH.
Qed.

Lemma filter_by_id_none (l : list Category) (i : Z) :
  ~ In i (map c_id l) -> List.filter (fun x => c_id x =? i) l = [].
Proof.
  induction l as [|y l IH]; cbn; [reflexivity|]. intros H.
  destruct (c_id y =? i) eqn:E.
  - exfalso. apply H. left. now apply Z.eqb_eq.
  - apply IH. intros Hin. apply H. now right.
Qed.

Lemma filter_by_id_unique (l : list Category) (c : Category) :
  NoDup (map c_id l) -> In c l ->
  List.filter (fun x => c_id x =? c_id c) l = [c].
Proof.
  induction l as [|x l IH]; cbn; [intros _ []|].
  intros Hnd [-> | Hin].
  - rewrite Z.eqb_refl. f_equal.
    apply NoDup_cons in Hnd as [Hx _].
    apply filter_by_id_none. intros H. apply Hx.
    now apply list_elem_of_In.
  - apply NoDup_cons in Hnd as [Hx Hl].
    destruct (c_id x =? c_id c) eqn:E.
    + exfalso. apply Hx. apply Z.eqb_eq in E. rewrite E.
      apply list_elem_of_In. now apply in_map.
    + now apply IH.
Qed.

(** A fresh rowid matches no id in use. *)
Lemma filter_fresh_id (l : list Category) (seq i : Z) :
  In i (map c_id l) ->
  (i =? next_rowid seq (map c_id l)) = false.
Proof.
  intros Hin. apply Z.eqb_neq. intros ->.
  destruct (next_rowid_fresh seq (map c_id l)) as [H _].
  rewrite List.Forall_forall in H. specialize (H _ Hin). lia.
Qed.

Lemma has_category_in i d :
  has_category i d = true -> In i (map c_id (categories d)).
Proof.
  unfold has_category. intros H. apply existsb_exists in H as (c & Hin & E).
  apply Z.eqb_eq in E. subst i. now apply in_map.
Qed.

Lemma has_category_after_resolve created n i d :
  has_category i d = true ->
  has_category i (after_resolve created n d) = true.
Proof.
  unfold after_resolve. destruct (select_category n d); [trivial|].
  unfold has_category, append_category. cbn [categories].
  rewrite existsb_app. intros ->. reflexivity.
Qed.

Lemma NoDup_after_resolve created n d :
  NoDup (map c_id (categories d)) ->
  NoDup (map c_id (categories (after_resolve created n d))).
Proof.
  unfold after_resolve. destruct (select_category n d); [trivial|].
  unfold append_category, new_category. cbn [categories c_id].
  rewrite map_app. cbn. intros H.
  apply NoDup_app. split; [exact H|]. split.
  - intros x Hx Hx'. apply list_elem_of_In in Hx.
    apply list_elem_of_In in Hx'. destruct Hx' as [<- | []].
    pose proof (filter_fresh_id _ (categories_seq d) _ Hx) as E.
    now rewrite Z.eqb_refl in E.
  - apply NoDup_singleton.
Qed.

(** The names an old link joins to are not changed by a get-or-create. *)
Lemma join_after_resolve created n d (l : ScreenshotCategory) :
  has_category (sc_categoryId l) d = true ->
  List.filter (fun c => c_id c =? sc_categoryId l)
              (categories (after_resolve created n d))
  = List.filter (fun c => c_id c =? sc_categoryId l) (categories d).
Proof.
  intros H. unfold after_resolve. destruct (select_category n d); [trivial|].
  unfold append_category, new_category. cbn [categories].
  rewrite List.filter_app. cbn.
  apply has_category_in in H.
  rewrite Z.eqb_sym, (filter_fresh_id _ (categories_seq d) _ H).
  apply app_nil_r.
Qed.

(** The new link joins to exactly the resolved row, named as asked. *)
Lemma join_new_link created n d :
  NoDup (map c_id (categories d)) ->
  map c_name
      (List.filter
         (fun c => c_id c =? c_id (resolved_category created n d))
         (categories (after_resolve created n d)))
  = [n].
Proof.
  intros Hnd.
  pose proof (select_after_resolve created n d) as Hsel.
  rewrite filter_by_id_unique.
  - cbn. f_equal. eapply select_category_name. exact Hsel.
  - now apply NoDup_after_resolve.
  - unfold select_category in Hsel. now apply List.find_some in Hsel as [? _].
Qed.

Lemma links_of_after_link created sid conf n d :
  links_of sid (after_link created sid conf n d)
  = (links_of sid d ++ [new_link created sid conf n d])%list.
Proof.
  unfold links_of, after_link, append_screenshotCategory.
  cbn [screenshotCategories].
  rewrite List.filter_app. cbn. rewrite String.eqb_refl.
  f_equal. unfold after_resolve. now destruct (select_category n d).
Qed.

Lemma linked_after_link created sid conf n d :
  linked sid d -> linked sid (after_link created sid conf n d).
Proof.
  intros [Hnd Hfk]. split.
  - unfold after_link, append_screenshotCategory. cbn [categories].
    now apply NoDup_after_resolve.
  - rewrite links_of_after_link. apply Forall_app. split.
    + eapply List.Forall_impl; [|exact Hfk]. cbn. intros l Hl.
      unfold after_link, append_screenshotCategory, has_category.
      cbn [categories]. now apply has_category_after_resolve.
    + constructor; [|constructor].
      unfold new_link. cbn [sc_categoryId].
      apply has_resolved_category.
Qed.

Lemma names_after_link created sid conf n d :
  linked sid d ->
  category_names_of sid (after_link created sid conf n d)
  = (category_names_of sid d ++ [n])%list.
Proof.
  intros [Hnd Hfk]. unfold category_names_of.
  rewrite links_of_after_link, flat_map_app. cbn [flat_map].
  rewrite app_nil_r. f_equal.
  - unfold after_link, append_screenshotCategory. cbn [categories].
    induction Hfk as [|l ls Hl Hls IH]; cbn [flat_map]; [reflexivity|].
    rewrite IH. f_equal. f_equal. now apply join_after_resolve.
  - unfold after_link, append_screenshotCategory, new_link.
    cbn [categories sc_categoryId]. now apply join_new_link.
Qed.

Lemma names_after_links created sid conf names : forall d,
  linked sid d ->
  category_names_of sid (after_links created sid conf names d)
  = (category_names_of sid d ++ names)%list
  /\ linked sid (after_links created sid conf names d).
Proof.
  induction names as [|n names IH]; intros d H; cbn [after_links].
  - now rewrite app_nil_r.
  - destruct (IH _ (linked_after_link created sid conf n d H)) as [E L].
    split; [|exact L].
    rewrite E, (names_after_link _ _ _ _ _ H). now rewrite <- app_assoc.
Qed.

Lemma confidences_after_links created sid conf names : forall d,
  map sc_confidence (links_of sid (after_links created sid conf names d))
  = (map sc_confidence (links_of sid d)
     ++ map (fun _ => Some conf) names)%list.
Proof.
  induction names as [|n names IH]; intros d; cbn [after_links map].
  - now rewrite app_nil_r.
  - rewrite IH, links_of_after_link, map_app. cbn.
    now rewrite <- app_assoc.
Qed.

Lemma links_of_deleted sid d :
  links_of sid (delete_screenshotCategories sid d) = [].
Proof.
  unfold links_of, delete_screenshotCategories. cbn [screenshotCategories].
  apply filter_negb_nil.
Qed.

End Joins.

Lemma multi_reanalyze_run a id s o (w : World Multi.Analysis) :
  select_screenshot id (w_db w) = Some s ->
  w_r2 w !! s_r2Key s = Some o ->
  Multi.reanalyze a id w =
    (Normal (Json 200 (Multi.reanalyze_body a (o_body o))),
     Build_World (Multi.reanalyzed_db a id (o_body o) (w_db w)) (w_r2 w)
                 (w_trace w ++ Multi.reanalyze_events a id (o_body o) (w_db w))).
Proof.
  intros Hs Ho.
  unfold Multi.reanalyze, try_catch, bind at 1, db_select_screenshot, read_db.
  rewrite Hs. unfold bind at 1, r2_get. rewrite Ho.
  unfold bind at 1. rewrite multi_analyzeScreenshot_run.
  unfold db_update_screenshot, db_insert_analysisResult,
         insert_analysisResult, db_delete_screenshotCategories.
  unfold bind at 1. unfold bind at 1. unfold log at 1, write_db at 1.
  unfold bind at 1. unfold bind at 1. unfold log at 1, try_db at 1.
  cbn [w_db w_r2 w_trace].
  rewrite has_screenshot_update, (select_screenshot_has _ _ _ Hs).
  cbn [option_map].
  unfold bind at 1. unfold bind at 1. unfold log at 1, write_db at 1.
  cbn [w_db w_r2 w_trace].
  unfold bind at 1.
  rewrite for_of_link_run; cbn [w_db w_r2 w_trace].
  - unfold ret, Multi.reanalyzed_db, Multi.reanalyze_events,
           Multi.reanalyze_body, recorded_db.
    repeat rewrite <- app_assoc. reflexivity.
  - rewrite has_screenshot_delete_links,
            has_screenshot_append_analysisResult, has_screenshot_update.
    eapply select_screenshot_has; eauto.
Qed.

Lemma reanalyzed_db_facts a id img (d : DB Multi.Analysis) :
  NoDup (map c_id (Store.categories d)) ->
  screenshots (Multi.reanalyzed_db a id img d)
  = screenshots (update_screenshot id (Js.getSeconds (now a))
                   (Multi.isImportant (Multi.judgement a img))
                   (Multi.confidence (Multi.judgement a img)) d)
  /\ analysisResults (Multi.reanalyzed_db a id img d)
     = (analysisResults d
        ++ [new_analysisResult id "gemini_vision_reanalysis"
              (Multi.judgement a img) (Js.getSeconds (now a))
              (update_screenshot id (Js.getSeconds (now a))
                 (Multi.isImportant (Multi.judgement a img))
                 (Multi.confidence (Multi.judgement a img)) d)])%list
  /\ category_names_of id (Multi.reanalyzed_db a id img d)
     = Multi.categories (Multi.judgement a img)
  /\ map sc_confidence (links_of id (Multi.reanalyzed_db a id img d))
     = map (fun _ => Some (Multi.confidence (Multi.judgement a img)))
           (Multi.categories (Multi.judgement a img))
  /\ NoDup (map c_id (Store.categories (Multi.reanalyzed_db a id img d))).
Proof.
  intros Hnd. unfold Multi.reanalyzed_db. cbv zeta.
  set (j := Multi.judgement a img).
  set (d1 := update_screenshot id (Js.getSeconds (now a))
               (Multi.isImportant j) (Multi.confidence j) d).
  set (d3 := delete_screenshotCategories id
               (recorded_db a id "gemini_vision_reanalysis" j d1)).
  assert (Hl : linked id d3).
  { split; [exact Hnd|]. unfold d3. rewrite links_of_deleted. constructor. }
  destruct (after_links_frame (Js.getSeconds (now a)) id (Multi.confidence j)
              (Multi.categories j) d3) as [Hs Hr].
  destruct (names_after_links (Js.getSeconds (now a)) id (Multi.confidence j)
              (Multi.categories j) d3 Hl) as [Hn [Hnd' _]].
  split; [exact Hs|]. split; [exact Hr|]. split.
  - rewrite Hn. unfold category_names_of, d3. now rewrite links_of_deleted.
  - split; [|exact Hnd'].
    rewrite confidences_after_links. unfold d3.
    now rewrite links_of_deleted.
Qed.

Lemma reanalyzable_step a id img (w : World Multi.Analysis) :
  Multi.reanalyzable id img w ->
  Multi.reanalyzable id img
    (Build_World (Multi.reanalyzed_db a id img (w_db w)) (w_r2 w)
                 (w_trace w ++ Multi.reanalyze_events a id img (w_db w))).
Proof.
  intros [(s & o & Hs & Ho & Hb) Hnd].
  destruct (reanalyzed_db_facts a id img (w_db w) Hnd)
    as (Hsc & _ & _ & _ & Hnd').
  split; [|exact Hnd']. cbn [w_db w_r2].
  exists (set_analysis (Js.getSeconds (now a))
            (Multi.isImportant (Multi.judgement a img))
            (Multi.confidence (Multi.judgement a img)) s), o.
  split; [|split; [exact Ho | exact Hb]].
  unfold select_screenshot. rewrite Hsc.
  now apply select_screenshot_update.
Qed.

Lemma reanalyze_all_app l1 l2 id (w : World Multi.Analysis) :
  Multi.reanalyze_all (l1 ++ l2) id w
  = (let (rs1, w1) := Multi.reanalyze_all l1 id w in
     let (rs2, w2) := Multi.reanalyze_all l2 id w1 in
     ((rs1 ++ rs2)%list, w2)).
Proof.
  revert w. induction l1 as [|a l1 IH]; intros w; cbn [app Multi.reanalyze_all].
  - now destruct (Multi.reanalyze_all l2 id w).
  - destruct (Multi.reanalyze a id w) as [r w1]. rewrite IH.
    destruct (Multi.reanalyze_all l1 id w1) as [rs1 w2].
    now destruct (Multi.reanalyze_all l2 id w2).
Qed.

(** Any number of reanalyses in a row: all succeed, the history grows by
    one row per request, and the screenshot stays reanalyzable. *)
Lemma reanalyze_all_history requests id img : forall w : World Multi.Analysis,
  Multi.reanalyzable id img w ->
  fst (Multi.reanalyze_all requests id w)
  = map (fun a => Normal (Json 200 (Multi.reanalyze_body a img))) requests
  /\ Multi.reanalyzable id img (snd (Multi.reanalyze_all requests id w))
  /\ w_r2 (snd (Multi.reanalyze_all requests id w)) = w_r2 w
  /\ exists rows,
       analysisResults (w_db (snd (Multi.reanalyze_all requests id w)))
       = (analysisResults (w_db w) ++ rows)%list
       /\ map Multi.history_entry rows
          = map (fun a => (id, "gemini_vision_reanalysis",
                           Multi.judgement a img)) requests.
Proof.
  induction requests as [|a requests IH]; intros w Hw;
    cbn [Multi.reanalyze_all].
  - cbn. split; [reflexivity|]. split; [exact Hw|]. split; [reflexivity|].
    exists []. now rewrite app_nil_r.
  - pose proof Hw as [(s & o & Hs & Ho & Hb) Hnd].
    rewrite (multi_reanalyze_run a id s o w Hs Ho), Hb.
    pose proof (reanalyzable_step a id img w Hw) as Hw1.
    destruct (IH _ Hw1) as (Hrs & Hinv & Hr2 & rows & Hrows & Hent).
    destruct (Multi.reanalyze_all requests id _) as [rs w2].
    cbn [fst snd] in *. cbn [w_db w_r2] in Hrows, Hr2.
    destruct (reanalyzed_db_facts a id img (w_db w) Hnd) as (_ & Hres & _).
    split; [now rewrite Hrs|]. split; [exact Hinv|]. split; [exact Hr2|].
    eexists (_ :: rows). split.
    + rewrite Hrows, Hres, <- app_assoc. reflexivity.
    + cbn [map]. rewrite Hent. reflexivity.
Qed.

(** The claim of C3 on the multi-label handler: after [N >= 1] reanalyses of
    a stored screenshot whose blob is in the bucket, every request has
    answered 200, the history is the old history followed by exactly [N] rows
    tagged "gemini_vision_reanalysis" that carry the [N] judgements in order,
    and the screenshot's links join to exactly the categories of the last
    judgement, each with that judgement's confidence. *)
Lemma multi_reanalysis_history_and_links
      (earlier : list (Ambient Multi.Analysis)) (last : Ambient Multi.Analysis)
      (id : string) (img : bytes) (w : World Multi.Analysis) :
  Multi.reanalyzable id img w ->
  let requests := (earlier ++ [last])%list in
  let w' := snd (Multi.reanalyze_all requests id w) in
  fst (Multi.reanalyze_all requests id w)
  = map (fun a => Normal (Json 200 (Multi.reanalyze_body a img))) requests
  /\ (exists rows,
        analysisResults (w_db w') = (analysisResults (w_db w) ++ rows)%list
        /\ List.length rows = List.length requests
        /\ map Multi.history_entry rows
           = map (fun a => (id, "gemini_vision_reanalysis",
                            Multi.judgement a img)) requests)
  /\ category_names_of id (w_db w')
     = Multi.categories (Multi.judgement last img)
  /\ map sc_confidence (links_of id (w_db w'))
     = map (fun _ => Some (Multi.confidence (Multi.judgement last img)))
           (Multi.categories (Multi.judgement last img)).
Proof.
  intros Hw requests w'.
  destruct (reanalyze_all_history requests id img w Hw)
    as (Hrs & _ & _ & rows & Hrows & Hent).
  split; [exact Hrs|]. split.
  { exists rows. split; [exact Hrows|]. split; [|exact Hent].
    rewrite <- (length_map Multi.history_entry), Hent. apply length_map. }
  subst w' requests. rewrite reanalyze_all_app.
  destruct (reanalyze_all_history earlier id img w Hw) as (_ & Hinv & _).
  destruct (Multi.reanalyze_all earlier id w) as [rs1 w1].
  cbn [snd] in Hinv. cbn [Multi.reanalyze_all].
  pose proof Hinv as [(s & o & Hs & Ho & Hb) Hnd].
  rewrite (multi_reanalyze_run last id s o w1 Hs Ho), Hb.
  cbn [snd w_db].
  destruct (reanalyzed_db_facts last id img (w_db w1) Hnd)
    as (_ & _ & Hn & Hc & _).
  split; assumption.
Qed.

(** C3 on the single-label variant.  Its reanalysis handler still iterates
    [analysis.categories], which this variant's judgement does not have: for
    every stored screenshot whose blob is in the bucket the handler updates
    the row, appends the history row, deletes the screenshot's links, then
    throws on the loop and answers 500.  The history grows by one row, but the
    screenshot is left with no link at all, whatever the judgement's
    category. *)
Theorem single_reanalyze_loses_links (a : Ambient Single.Analysis)
        (id : string) (s : Screenshot) (o : R2Object)
        (w : World Single.Analysis) :
  select_screenshot id (w_db w) = Some s ->
  w_r2 w !! s_r2Key s = Some o ->
  exists w',
    Single.reanalyze a id w
    = (Normal (JsonError 500 "Reanalysis failed"), w')
    /\ links_of id (w_db w') = []
    /\ category_names_of id (w_db w') = []
    /\ (exists row,
          analysisResults (w_db w') = (analysisResults (w_db w) ++ [row])%list
          /\ ar_screenshotId row = id
          /\ ar_analysisType row = "gemini_vision_reanalysis"
          /\ ar_resultData row = Single.judgement a (o_body o))
    /\ w_trace w'
       = (w_trace w ++ [ Classify; UpdateScreenshot id;
                         InsertAnalysisResult id "gemini_vision_reanalysis";
                         DeleteScreenshotCategories id ])%list.
Proof.
  intros Hs Ho.
  unfold Single.reanalyze, try_catch, bind at 1, db_select_screenshot, read_db.
  rewrite Hs. unfold bind at 1, r2_get. rewrite Ho.
  unfold bind at 1. rewrite single_analyzeScreenshot_run.
  unfold db_update_screenshot, db_insert_analysisResult,
         insert_analysisResult, db_delete_screenshotCategories.
  run. rewrite has_screenshot_update, (select_screenshot_has _ _ _ Hs).
  cbn beta iota delta [option_map Single.for_of_value Single.categories].
  eexists. split; [reflexivity|]. cbn [w_db w_trace].
  split; [apply links_of_deleted|]. split.
  { unfold category_names_of. now rewrite links_of_deleted. }
  split.
  { eexists. split; [reflexivity|]. repeat split. }
  repeat rewrite <- app_assoc. reflexivity.
Qed.

Lemma single_reanalyze_loses_links_witness :
  category_names_of "s-0001" (w_db Sample.after_one_upload) = ["Dev"]
  /\ fst (Single.reanalyze Sample.single_up "s-0001" Sample.after_one_upload)
     = Normal (JsonError 500 "Reanalysis failed")
  /\ category_names_of "s-0001"
       (w_db (snd (Single.reanalyze Sample.single_up "s-0001"
                                    Sample.after_one_upload))) = []
  /\ List.length
       (analysisResults
          (w_db (snd (Single.reanalyze Sample.single_up "s-0001"
                                       Sample.after_one_upload)))) = 2%nat.
Proof.
  split; [vm_compute; reflexivity|].
  destruct (single_reanalyze_loses_links Sample.single_up "s-0001"
              (set_analysis 1751328000 true (9 # 10)
                 (Single.upload_row Sample.single_up Sample.png))
              (Single.upload_object Sample.single_up Sample.png)
              Sample.after_one_upload)
    as (w' & Hrun & _ & Hnames & (row & Hrows & _) & _).
  - vm_compute. reflexivity.
  - vm_compute. reflexivity.
  - rewrite Hrun. cbn [fst snd]. split; [reflexivity|].
    split; [exact Hnames|]. rewrite Hrows, length_app. reflexivity.
Defined.


(** ** Listing *)

Section Sorting.
Context {A : Type} (key : A -> Z).

Lemma in_insert_desc x y (l : list A) :
  In y (Multi.insert_desc key x l) <-> x = y \/ In y l.
Proof.
  induction l as [|z l IH]; cbn; [tauto|].
  destruct (key z <=? key x); cbn; [tauto|]. rewrite IH. tauto.
Qed.

Lemma in_orderBy_desc y (l : list A) :
  In y (Multi.orderBy_desc key l) <-> In y l.
Proof.
  unfold Multi.orderBy_desc.
  induction l as [|x l IH]; cbn; [tauto|].
  rewrite in_insert_desc, IH. split; intros [H|H]; auto.
Qed.

Lemma insert_desc_sorted x (l : list A) :
  StronglySorted (fun a b => key b <= key a) l ->
  StronglySorted (fun a b => key b <= key a) (Multi.insert_desc key x l).
Proof.
  induction 1 as [|z l Hl IH Hz]; cbn.
  - constructor; constructor.
  - destruct (key z <=? key x) eqn:E.
    + apply Z.leb_le in E. constructor; [now constructor|].
      constructor; [exact E|].
      eapply List.Forall_impl; [|exact Hz]. cbn. intros; lia.
    + apply Z.leb_gt in E. constructor; [exact IH|].
      apply List.Forall_forall. intros y Hy.
      apply in_insert_desc in Hy as [<- | Hy]; [lia|].
      rewrite List.Forall_forall in Hz. now apply Hz.
Qed.

Lemma orderBy_desc_sorted (l : list A) :
  StronglySorted (fun a b => key b <= key a) (Multi.orderBy_desc key l).
Proof.
  unfold Multi.orderBy_desc. induction l as [|x l IH]; cbn.
  - constructor.
  - now apply insert_desc_sorted.
Qed.

End Sorting.

Section Paging.
Context {A : Type}.

Lemma in_firstn_in n : forall (l : list A) y, In y (firstn n l) -> In y l.
Proof.
  induction n as [|n IH]; intros [|x l] y; cbn; try tauto.
  intros [H|H]; [now left | right; now apply IH].
Qed.

Lemma in_skipn_in n : forall (l : list A) y, In y (skipn n l) -> In y l.
Proof.
  induction n as [|n IH]; intros [|x l] y; cbn; try tauto.
  intros H. right. now apply IH.
Qed.

Lemma skipn_sorted (R : A -> A -> Prop) n : forall l : list A,
  StronglySorted R l -> StronglySorted R (skipn n l).
Proof.
  induction n as [|n IH]; intros l H; cbn; [exact H|].
  destruct l as [|x l]; [constructor|].
  apply IH. now inversion H.
Qed.

Lemma firstn_sorted (R : A -> A -> Prop) n : forall l : list A,
  StronglySorted R l -> StronglySorted R (firstn n l).
Proof.
  induction n as [|n IH]; intros l H; cbn; [constructor|].
  destruct l as [|x l]; [constructor|].
  inversion H as [|? ? Hl Hx]; subst. constructor; [now apply IH|].
  apply List.Forall_forall. intros y Hy.
  rewrite List.Forall_forall in Hx. apply Hx.
  eapply in_firstn_in. exact Hy.
Qed.

Lemma limit_offset_sorted (R : A -> A -> Prop) limit offset (l : list A) :
  StronglySorted R l -> StronglySorted R (Multi.limit_offset limit offset l).
Proof.
  intros H. unfold Multi.limit_offset.
  destruct (limit <? 0); [|apply firstn_sorted]; now apply skipn_sorted.
Qed.

Lemma in_limit_offset limit offset (l : list A) y :
  In y (Multi.limit_offset limit offset l) -> In y l.
Proof.
  unfold Multi.limit_offset. intros H.
  destruct (limit <? 0); [|apply in_firstn_in in H]; eapply in_skipn_in; eauto.
Qed.

End Paging.

Lemma and_all_conditions (q : Multi.ListQuery) (s : Screenshot) :
  Multi.and_all (Multi.conditions_of q) s = true <->
  (Multi.q_important_only q = Some "true" -> s_isImportant s = Some true)
  /\ (forall t, Multi.q_date_from q = Some t -> t <= s_uploadedAt s)
  /\ (forall t, Multi.q_date_to q = Some t -> s_uploadedAt s <= t).
Proof.
  unfold Multi.and_all, Multi.conditions_of.
  rewrite !forallb_app, !andb_true_iff.
  assert (H1 : forallb (Multi.holds s)
                 (if match Multi.q_important_only q with
                     | Some v => String.eqb v "true"
                     | None => false
                     end
                  then [Multi.IsImportantTrue] else []) = true
               <-> (Multi.q_important_only q = Some "true" ->
                    s_isImportant s = Some true)).
  { destruct (Multi.q_important_only q) as [v|]; cbn.
    - destruct (String.eqb v "true") eqn:E; cbn.
      + apply String.eqb_eq in E. subst v.
        destruct (s_isImportant s) as [[|]|]; cbn; split; intros H;
          try reflexivity; try discriminate; specialize (H eq_refl);
          discriminate.
      + apply String.eqb_neq in E. split; [|reflexivity].
        intros _ [= ->]. now destruct E.
    - split; [discriminate | reflexivity]. }
  assert (H2 : forallb (Multi.holds s)
                 match Multi.q_date_from q with
                 | Some d => [Multi.UploadedGte d]
                 | None => []
                 end = true
               <-> (forall t, Multi.q_date_from q = Some t ->
                              t <= s_uploadedAt s)).
  { destruct (Multi.q_date_from q) as [d|]; cbn.
    - rewrite andb_true_r, Z.leb_le. split; [now intros H t [= <-] | auto].
    - split; [discriminate | reflexivity]. }
  assert (H3 : forallb (Multi.holds s)
                 match Multi.q_date_to q with
                 | Some d => [Multi.UploadedLte d]
                 | None => []
                 end = true
               <-> (forall t, Multi.q_date_to q = Some t ->
                              s_uploadedAt s <= t)).
  { destruct (Multi.q_date_to q) as [d|]; cbn.
    - rewrite andb_true_r, Z.leb_le. split; [now intros H t [= <-] | auto].
    - split; [discriminate | reflexivity]. }
  rewrite H1, H2, H3. tauto.
Qed.

Lemma in_join_categories (d : DB Multi.Analysis) s l c :
  In (s, l, c) (Multi.join_categories d) <->
  In s (screenshots d) /\ In l (screenshotCategories d)
  /\ In c (Store.categories d)
  /\ sc_screenshotId l = s_id s /\ sc_categoryId l = c_id c.
Proof.
  unfold Multi.join_categories. rewrite in_flat_map. split.
  - intros (s' & Hs & H). apply in_flat_map in H as (l' & Hl & H).
    apply in_map_iff in H as (c' & [= -> -> ->] & Hc).
    apply List.filter_In in Hl as [Hl El].
    apply List.filter_In in Hc as [Hc Ec].
    apply String.eqb_eq in El. apply Z.eqb_eq in Ec. auto.
  - intros (Hs & Hl & Hc & El & Ec). exists s. split; [exact Hs|].
    apply in_flat_map. exists l. split.
    + apply List.filter_In. split; [exact Hl|]. now apply String.eqb_eq.
    + apply in_map_iff. exists c. split; [reflexivity|].
      apply List.filter_In. split; [exact Hc|]. now apply Z.eqb_eq.
Qed.

Lemma filter_all_true {A} (p : A -> bool) (l : list A) :
  (forall x, p x = true) -> List.filter p l = l.
Proof.
  intros H. induction l as [|x l IH]; cbn; [reflexivity|].
  now rewrite H, IH.
Qed.

(** The rows of a listing before pagination: exactly the stored rows that
    satisfy every active filter, newest first. *)
Lemma list_rows_unpaged (q : Multi.ListQuery) (d : DB Multi.Analysis) :
  exists all,
    Multi.list_rows q d
    = Multi.limit_offset (default 50 (Multi.q_limit q))
                         (default 0 (Multi.q_offset q)) all
    /\ (forall s, In s all <-> Multi.matches q d s)
    /\ Multi.newest_first all.
Proof.
  unfold Multi.list_rows, Multi.matches. cbv zeta.
  destruct (Js.truthy (Multi.q_category q)) eqn:Hcat.
  - eexists. split; [reflexivity|]. split; [|apply orderBy_desc_sorted].
    destruct (Multi.q_category q) as [c|] eqn:Hc; [|discriminate].
    cbn in Hcat. apply negb_true_iff, String.eqb_neq in Hcat. cbn [default].
    intros s. rewrite in_orderBy_desc, in_map_iff. split.
    + intros ([[s' l] cat] & E & Hin). cbn in E. subst s'.
      apply List.filter_In in Hin as [Hin Hp]. cbn [fst snd] in Hp.
      apply andb_true_iff in Hp as [Hn Hp].
      apply String.eqb_eq in Hn.
      apply in_join_categories in Hin as (Hs & Hl & Hcin & El & Ec).
      apply and_all_conditions in Hp as (Hi & Hf & Ht).
      split; [exact Hs|]. split; [exact Hi|]. split; [|split; assumption].
      intros c' [= <-] _. exists l, cat. auto.
    + intros (Hs & Hi & Hl & Hf & Ht).
      destruct (Hl c eq_refl Hcat) as (l & cat & Hlin & Hcin & El & Ec & En).
      exists (s, l, cat). split; [reflexivity|].
      apply List.filter_In. split.
      * apply in_join_categories. auto.
      * cbn [fst snd]. apply andb_true_iff. split.
        -- now apply String.eqb_eq.
        -- apply and_all_conditions. auto.
  - assert (Hno : forall c, Multi.q_category q = Some c -> c <> "" -> False).
    { intros c Hc Hne. rewrite Hc in Hcat. cbn in Hcat.
      apply negb_false_iff, String.eqb_eq in Hcat. contradiction. }
    exists (Multi.orderBy_desc s_uploadedAt
              (List.filter (Multi.and_all (Multi.conditions_of q))
                           (screenshots d))).
    split; [|split; [|apply orderBy_desc_sorted]].
    + destruct (0 <? Z.of_nat (List.length (Multi.conditions_of q))) eqn:E;
        [reflexivity|].
      destruct (Multi.conditions_of q) as [|c cs]; [|discriminate E].
      now rewrite filter_all_true.
    + intros s. rewrite in_orderBy_desc, List.filter_In, and_all_conditions.
      split.
      * intros (Hs & Hi & Hf & Ht). repeat split; auto.
        intros c Hc Hne. destruct (Hno c Hc Hne).
      * intros (Hs & Hi & _ & Hf & Ht). auto.
Qed.

(** The projection keeps the upload time, hence the order. *)
Lemma summaries_sorted (rows : list Screenshot) :
  Multi.newest_first rows ->
  StronglySorted (fun x y => Multi.sm_uploadedAt y <= Multi.sm_uploadedAt x)
                 (map Multi.summary rows).
Proof.
  induction 1 as [|x l Hl IH Hx]; cbn [map]; constructor; [exact IH|].
  apply List.Forall_forall. intros y Hy.
  apply in_map_iff in Hy as (y' & <- & Hy').
  rewrite List.Forall_forall in Hx. now apply Hx.
Qed.

(** C6.  [GET /screenshots] lists only rows that satisfy every active filter
    at once, newest first.  There is a list of exactly those stored rows that
    satisfy every active filter (importance flag true under
    important_only=true, a link to the named category under a category
    filter, upload time within the inclusive date bounds), ordered by upload
    time, most recent first.  With a limit of 0 or more, or with offset 0,
    the answer is 200 with the page cut out of that list, so every row of the
    page satisfies the filters and the page is in the same order.  With a
    negative limit and an offset other than 0 SQLite refuses the statement
    and the answer is 500 with no rows.  The store is not changed. *)
Theorem listing_is_filtered_and_newest_first (q : Multi.ListQuery)
        (w : World Multi.Analysis) :
  exists all,
    let limit := default 50 (Multi.q_limit q) in
    let offset := default 0 (Multi.q_offset q) in
    let page := Multi.limit_offset limit offset all in
    (0 <= limit \/ offset = 0 ->
     Multi.list_screenshots q w
     = (Normal (Json 200
                  {| Multi.lb_screenshots := map Multi.summary page;
                     Multi.lb_limit := limit;
                     Multi.lb_offset := offset |}),
        w))
    /\ (limit < 0 -> offset <> 0 ->
        Multi.list_screenshots q w
        = (Normal (JsonError 500 "Failed to list screenshots"), w))
    /\ (forall s, In s all <-> Multi.matches q (w_db w) s)
    /\ (forall s, In s page -> Multi.matches q (w_db w) s)
    /\ Multi.newest_first all
    /\ Multi.newest_first page
    /\ StronglySorted (fun x y => Multi.sm_uploadedAt y <= Multi.sm_uploadedAt x)
                      (map Multi.summary page).
Proof.
  destruct (list_rows_unpaged q (w_db w)) as (all & Hrows & Hin & Hsorted).
  exists all. cbv zeta.
  assert (Hpage : Multi.newest_first
                    (Multi.limit_offset (default 50 (Multi.q_limit q))
                                        (default 0 (Multi.q_offset q)) all))
    by (unfold Multi.newest_first; now apply limit_offset_sorted).
  split; [|split; [|split; [exact Hin | split; [|split; [exact Hsorted|split]]]]].
  - intros Hok. unfold Multi.list_screenshots.
    replace (Multi.accepted_page _ _) with true.
    + run. rewrite Hrows. now destruct w.
    + symmetry. unfold Multi.accepted_page. apply orb_true_iff.
      destruct Hok as [H | H]; [left; now apply Z.leb_le
                               | right; now apply Z.eqb_eq].
  - intros Hlim Hoff. unfold Multi.list_screenshots.
    replace (Multi.accepted_page _ _) with false.
    + run. now destruct w.
    + symmetry. unfold Multi.accepted_page. apply orb_false_iff.
      split; [now apply Z.leb_gt | now apply Z.eqb_neq].
  - intros s Hs. apply Hin. eapply in_limit_offset. exact Hs.
  - exact Hpage.
  - now apply summaries_sorted.
Qed.

Lemma listing_is_filtered_and_newest_first_witness :
  (exists page,
     fst (Multi.list_screenshots Sample.important Sample.shelf)
     = Normal (Json 200 {| Multi.lb_screenshots := map Multi.summary page;
                           Multi.lb_limit := 50; Multi.lb_offset := 0 |})
     /\ forall s, In s page -> s_isImportant s = Some true)
  /\ fst (Multi.list_screenshots (Multi.page Sample.important (-1) 1)
                                 Sample.shelf)
     = Normal (JsonError 500 "Failed to list screenshots").
Proof.
  split.
  - destruct (listing_is_filtered_and_newest_first Sample.important
                                                   Sample.shelf)
      as (all & Hrun & _ & _ & Hpage & _).
    eexists. split.
    + rewrite Hrun; [reflexivity | right; reflexivity].
    + intros s Hs. apply Hpage in Hs as (_ & Himp & _). now apply Himp.
  - destruct (listing_is_filtered_and_newest_first
                (Multi.page Sample.important (-1) 1) Sample.shelf)
      as (all & _ & Hrun & _).
    rewrite Hrun; [reflexivity | reflexivity | discriminate].
Defined.


(** ** Blob keys *)

Section JsStrings.

Lemma append_nil_l (s : string) : (EmptyString ++ s)%string = s.
Proof. reflexivity. Qed.

Lemma append_cons (x : ascii) (a s : string) :
  (String x a ++ s)%string = String x (a ++ s).
Proof. reflexivity. Qed.

Lemma append_assoc (a b c : string) : ((a ++ b) ++ c = a ++ (b ++ c))%string.
Proof.
  induction a as [|x a IH]; [reflexivity|].
  rewrite !append_cons. now rewrite IH.
Qed.

Lemma length_append (a b : string) :
  String.length (a ++ b) = (String.length a + String.length b)%nat.
Proof.
  induction a as [|x a IH]; [reflexivity|].
  rewrite append_cons. cbn. now rewrite IH.
Qed.

Lemma append_inv_tail (t : string) : forall a b : string,
  (a ++ t = b ++ t)%string -> a = b.
Proof.
  induction a as [|x a IH]; intros [|y b] H;
    rewrite ?append_nil_l, ?append_cons in H.
  - reflexivity.
  - apply (f_equal String.length) in H. cbn in H.
    rewrite length_append in H. lia.
  - apply (f_equal String.length) in H. cbn in H.
    rewrite length_append in H. lia.
  - injection H as -> H. f_equal. now apply IH.
Qed.

Lemma split_without (c : ascii) (s : string) :
  Js.contains c s = false -> Js.split c s = [s].
Proof.
  induction s as [|x s IH]; cbn; [reflexivity|].
  intros H. apply orb_false_iff in H as [Hx Hs].
  rewrite Hx, (IH Hs). reflexivity.
Qed.

Lemma split_two (c : ascii) (e : string) : forall x : string,
  exists seg r1 r, Js.split c (x ++ String c e) = seg :: r1 :: r.
Proof.
  induction x as [|a x (seg & r1 & r & IH)];
    rewrite ?append_nil_l, ?append_cons; cbn.
  - rewrite Ascii.eqb_refl.
    destruct (Js.split c e) as [|y l] eqn:E; [|eauto].
    destruct e; cbn in E; [discriminate|].
    destruct (Ascii.eqb _ c); [discriminate|].
    destruct (Js.split c e); discriminate.
  - rewrite IH. destruct (Ascii.eqb a c); eauto.
Qed.

(** The last segment of a split is what follows the last separator. *)
Lemma pop_split_append (c : ascii) (e : string) :
  Js.contains c e = false ->
  forall x : string, Js.pop (Js.split c (x ++ String c e)) = Some e.
Proof.
  intros He. induction x as [|a x IH];
    rewrite ?append_nil_l, ?append_cons; cbn.
  - rewrite Ascii.eqb_refl, (split_without _ _ He). reflexivity.
  - destruct (split_two c e x) as (seg & r1 & r & E).
    rewrite E in IH |- *. destruct (Ascii.eqb a c); exact IH.
Qed.

(** The last segment of a split holds no separator. *)
Lemma pop_split_clean (c : ascii) : forall s : string,
  exists e, Js.pop (Js.split c s) = Some e /\ Js.contains c e = false.
Proof.
  induction s as [|x s (e & IH & He)]; cbn.
  - exists EmptyString. auto.
  - destruct (Ascii.eqb x c) eqn:Ex.
    + exists e. split; [|exact He].
      destruct (Js.split c s); [discriminate | exact IH].
    + destruct (Js.split c s) as [|seg [|r1 r]]; [discriminate| |].
      * injection IH as <-. exists (String x seg). split; [reflexivity|].
        cbn. now rewrite Ex, He.
      * exists e. split; [exact IH | exact He].
Qed.

Lemma extension_clean (filename : string) :
  Js.contains "." (Js.or_else (Js.pop (Js.split "." filename)) "jpg") = false.
Proof.
  destruct (pop_split_clean "." filename) as (e & -> & He). cbn.
  destruct (String.eqb e ""); [reflexivity | exact He].
Qed.

End JsStrings.

(** The blob key has the documented shape, its extension is the last
    dot-separated segment of the file name, or "jpg" when that segment is
    empty, and two keys drawn with different identifiers differ (a UUID holds
    no slash). *)
Lemma generateR2Key_shape {J} (a : Ambient J) (filename : string) :
  exists ext,
    generateR2Key a filename
    = ("screenshots/" ++ Js.String_of (Js.getFullYear (now a)) ++ "/"
       ++ Js.padStart 2 "0" (Js.String_of (Js.getMonth (now a) + 1)) ++ "/"
       ++ key_uuid a ++ "." ++ ext)%string
    /\ Js.contains "." ext = false
    /\ (forall stem e, Js.contains "." e = false -> e <> "" ->
          filename = (stem ++ "." ++ e)%string -> ext = e)
    /\ (forall stem, filename = (stem ++ ".")%string -> ext = "jpg")
    /\ (filename = "" -> ext = "jpg").
Proof.
  exists (Js.or_else (Js.pop (Js.split "." filename)) "jpg").
  split; [reflexivity|]. split; [apply extension_clean|]. split; [|split].
  - intros stem e He Hne ->.
    change (stem ++ "." ++ e)%string with (stem ++ String "." e)%string.
    rewrite (pop_split_append "." e He stem). cbn.
    destruct (String.eqb e "") eqn:E; [|reflexivity].
    apply String.eqb_eq in E. contradiction.
  - intros stem ->.
    now rewrite (pop_split_append "." EmptyString eq_refl stem).
  - intros ->. reflexivity.
Qed.

Lemma generateR2Key_segments {J} (a : Ambient J) (filename : string) :
  generateR2Key a filename
  = ((("screenshots/" ++ Js.String_of (Js.getFullYear (now a)) ++ "/"
       ++ Js.padStart 2 "0" (Js.String_of (Js.getMonth (now a) + 1)))
      ++ String "/" (key_uuid a))
     ++ String "." (Js.or_else (Js.pop (Js.split "." filename)) "jpg"))%string.
Proof. unfold generateR2Key. rewrite !append_assoc. reflexivity. Qed.

Lemma generateR2Key_injective {J} (a1 a2 : Ambient J) (f1 f2 : string) :
  Js.contains "/" (key_uuid a1) = false ->
  Js.contains "/" (key_uuid a2) = false ->
  generateR2Key a1 f1 = generateR2Key a2 f2 ->
  key_uuid a1 = key_uuid a2.
Proof.
  intros H1 H2 E. rewrite !generateR2Key_segments in E.
  assert (Ee : Js.or_else (Js.pop (Js.split "." f1)) "jpg"
               = Js.or_else (Js.pop (Js.split "." f2)) "jpg").
  { apply (f_equal (fun s => Js.pop (Js.split "." s))) in E.
    rewrite !pop_split_append in E by apply extension_clean.
    now injection E. }
  rewrite Ee in E. apply append_inv_tail in E.
  apply (f_equal (fun s => Js.pop (Js.split "/" s))) in E.
  rewrite !pop_split_append in E by assumption.
  now injection E.
Qed.

(** Different draws give different keys and different row ids. *)
Lemma distinct_draws_distinct_keys {J} (a1 a2 : Ambient J) (f1 f2 : File) :
  Js.contains "/" (key_uuid a1) = false ->
  Js.contains "/" (key_uuid a2) = false ->
  key_uuid a1 <> key_uuid a2 ->
  id_uuid a1 <> id_uuid a2 ->
  generateR2Key a1 (f_name f1) <> generateR2Key a2 (f_name f2)
  /\ s_id (new_screenshot (id_uuid a1) (f_name f1)
             (generateR2Key a1 (f_name f1)) (f_size f1) (f_type f1)
             (Js.getSeconds (now a1)))
     <> s_id (new_screenshot (id_uuid a2) (f_name f2)
                (generateR2Key a2 (f_name f2)) (f_size f2) (f_type f2)
                (Js.getSeconds (now a2))).
Proof.
  intros H1 H2 Hk Hi. split; [|exact Hi].
  intros E. apply Hk. eapply generateR2Key_injective; eauto.
Qed.

(** C9, where the code departs from it.  For a file name that has no dot
    (and is not empty) the whole name ends up as the extension of the key:
    [filename.split('.')] is then the one-element array holding the name, its
    [pop()] is the name, and the ["jpg"] default after [||] is not reached.
    The default applies only when the name is empty or ends in a dot. *)
Theorem dotless_name_becomes_the_extension {J} (a : Ambient J)
        (filename : string) :
  Js.contains "." filename = false ->
  filename <> "" ->
  generateR2Key a filename
  = ("screenshots/" ++ Js.String_of (Js.getFullYear (now a)) ++ "/"
     ++ Js.padStart 2 "0" (Js.String_of (Js.getMonth (now a) + 1)) ++ "/"
     ++ key_uuid a ++ "." ++ filename)%string.
Proof.
  intros Hdot Hne. unfold generateR2Key. cbv zeta.
  rewrite (split_without _ _ Hdot). cbn [Js.pop Js.or_else].
  destruct (String.eqb filename "") eqn:E; [|reflexivity].
  apply String.eqb_eq in E. contradiction.
Qed.

Lemma dotless_name_becomes_the_extension_witness :
  Js.contains "." "screenshot" = false
  /\ generateR2Key (@Sample.down Multi.Analysis) "screenshot"
     = "screenshots/2025/07/k-0001.screenshot"
  /\ generateR2Key (@Sample.down Multi.Analysis) "screenshot"
     <> "screenshots/2025/07/k-0001.jpg".
Proof.
  split; [reflexivity|].
  assert (H : generateR2Key (@Sample.down Multi.Analysis) "screenshot"
              = "screenshots/2025/07/k-0001.screenshot").
  { rewrite (dotless_name_becomes_the_extension Sample.down "screenshot"
               eq_refl); [reflexivity | discriminate]. }
  split; [exact H|]. rewrite H. discriminate.
Defined.


(** * Further properties of the handlers *)

(** ** Outcomes of an upload *)

Lemma taken_select_none {J} i key (d : DB J) :
  taken i key d = false -> select_screenshot i d = None.
Proof.
  unfold taken, select_screenshot.
  induction (screenshots d) as [|s l IH]; cbn; [reflexivity|].
  intros H. apply orb_false_iff in H as [H1 H2].
  apply orb_false_iff in H1 as [H1 _]. rewrite H1. now apply IH.
Qed.

Lemma multi_upload_taken a file (w : World Multi.Analysis) :
  Js.startsWith (f_type file) "image/" = true ->
  taken (id_uuid a) (generateR2Key a (f_name file)) (w_db w) = true ->
  Multi.upload a (FormData (FormFile file)) w =
    (Normal (JsonError 500 "Upload failed"),
     Build_World (w_db w)
       (<[generateR2Key a (f_name file) := Multi.upload_object a file]>
          (w_r2 w))
       (w_trace w ++ [ R2Put (generateR2Key a (f_name file));
                       InsertScreenshot (id_uuid a)
                                        (generateR2Key a (f_name file)) ])).
Proof.
  intros Himg Htaken.
  unfold Multi.upload, try_catch, bind at 1. simpl. unfold ret at 1.
  rewrite Himg. simpl.
  unfold r2_put, db_insert_screenshot, insert_screenshot. run.
  rewrite Htaken. unfold Multi.upload_object.
  now rewrite <- app_assoc.
Qed.

(** X1.  What an upload can do.  It answers 201 exactly when the form
    carries an image file and neither the drawn id nor the generated key is
    taken.  A missing file, a form value that is no file and a file that is no
    image are answered 400, and a body that is no form 500, with the store,
    the bucket and the log untouched: the classifier is not called.  When the
    id or the key is taken the answer is 500 after the blob has been written:
    the row insert is refused, nothing else happens, and the bytes stay under
    the key (replacing what was there). *)
Theorem upload_outcomes (a : Ambient Multi.Analysis) (req : RequestBody)
        (w : World Multi.Analysis) :
  let r := fst (Multi.upload a req w) in
  let w' := snd (Multi.upload a req w) in
  match req with
  | NotFormData => r = Normal (JsonError 500 "Upload failed") /\ w' = w
  | FormData (FormFile file) =>
      if Js.startsWith (f_type file) "image/" then
        if taken (id_uuid a) (generateR2Key a (f_name file)) (w_db w) then
          r = Normal (JsonError 500 "Upload failed")
          /\ w_db w' = w_db w
          /\ w_r2 w' = <[generateR2Key a (f_name file) :=
                           Multi.upload_object a file]> (w_r2 w)
          /\ w_trace w'
             = (w_trace w ++ [ R2Put (generateR2Key a (f_name file));
                               InsertScreenshot (id_uuid a)
                                 (generateR2Key a (f_name file)) ])%list
        else
          r = Normal (Json 201 (Multi.upload_body a file))
          /\ w_db w' = Multi.upload_db a file (w_db w)
          /\ w_r2 w' = <[generateR2Key a (f_name file) :=
                           Multi.upload_object a file]> (w_r2 w)
      else r = Normal (JsonError 400 "File must be an image") /\ w' = w
  | FormData _ => r = Normal (JsonError 400 "No file provided") /\ w' = w
  end.
Proof.
  cbv zeta. destruct req as [|[| s | file]]; try (split; reflexivity).
  destruct (Js.startsWith (f_type file) "image/") eqn:Himg.
  - destruct (taken _ _ _) eqn:Ht.
    + rewrite (multi_upload_taken _ _ _ Himg Ht). cbn. auto.
    + rewrite (multi_upload_run _ _ _ Himg Ht). cbn. auto.
  - unfold Multi.upload, try_catch, bind at 1. cbn. rewrite Himg.
    split; reflexivity.
Qed.


(** ** Fetching what was stored *)

Lemma select_screenshot_ext {J} i (d d' : DB J) :
  screenshots d = screenshots d' ->
  select_screenshot i d = select_screenshot i d'.
Proof. unfold select_screenshot. now intros ->. Qed.

Lemma select_screenshot_appended {J} (row : Screenshot) (d : DB J) :
  select_screenshot (s_id row) d = None ->
  select_screenshot (s_id row) (with_screenshots (screenshots d ++ [row]) d)
  = Some row.
Proof.
  unfold select_screenshot, with_screenshots. cbn [screenshots]. intros H.
  rewrite (find_app_none _ _ _ H). cbn. now rewrite String.eqb_refl.
Qed.

(** The row an accepted upload leaves under the drawn id. *)
Lemma select_in_analyzed_db {J} (a : Ambient J) (row : Screenshot)
      (imp : bool) (conf : Q) (d : DB J) :
  select_screenshot (s_id row) d = None ->
  select_screenshot (s_id row) (analyzed_db a row imp conf d)
  = Some (set_analysis (Js.getSeconds (now a)) imp conf row).
Proof.
  intros H. unfold analyzed_db.
  apply select_screenshot_update. now apply select_screenshot_appended.
Qed.

Lemma select_in_upload_db a file (d : DB Multi.Analysis) :
  taken (id_uuid a) (generateR2Key a (f_name file)) d = false ->
  select_screenshot (id_uuid a) (Multi.upload_db a file d)
  = Some (set_analysis (Js.getSeconds (now a))
            (Multi.isImportant (Multi.judgement a (f_content file)))
            (Multi.confidence (Multi.judgement a (f_content file)))
            (Multi.upload_row a file)).
Proof.
  intros Ht. unfold Multi.upload_db. cbv zeta.
  erewrite select_screenshot_ext; [|apply after_links_frame].
  unfold recorded_db, append_analysisResult.
  erewrite select_screenshot_ext; [|reflexivity].
  apply (select_in_analyzed_db a (Multi.upload_row a file)).
  eapply taken_select_none. exact Ht.
Qed.

Lemma get_screenshot_run id (w : World Multi.Analysis) :
  Multi.get_screenshot id w
  = (Normal
       match select_screenshot id (w_db w) with
       | None => Multi.FileError 404 "Screenshot not found"
       | Some s =>
           match w_r2 w !! s_r2Key s with
           | None => Multi.FileError 404 "File not found in storage"
           | Some o =>
               Multi.File200 (o_body o) (o_contentType o) (o_cacheControl o)
           end
       end, w).
Proof.
  unfold Multi.get_screenshot, db_select_screenshot, r2_get. run.
  destruct (select_screenshot id (w_db w)) as [s|]; [|now destruct w].
  run. destruct (w_r2 w !! s_r2Key s); now destruct w.
Qed.

(** X2.  Fetching right after an accepted upload returns the uploaded
    bytes with the file's own content type and the one-day cache header, and
    changes nothing. *)
Theorem upload_then_fetch (a : Ambient Multi.Analysis) (file : File)
        (w : World Multi.Analysis) :
  Js.startsWith (f_type file) "image/" = true ->
  taken (id_uuid a) (generateR2Key a (f_name file)) (w_db w) = false ->
  let w' := snd (Multi.upload a (FormData (FormFile file)) w) in
  Multi.get_screenshot (id_uuid a) w'
  = (Normal (Multi.File200 (f_content file) (f_type file) "max-age=86400"),
     w').
Proof.
  intros Himg Ht w'. subst w'.
  rewrite (multi_upload_run _ _ _ Himg Ht). cbn [snd].
  rewrite get_screenshot_run. cbn [w_db w_r2].
  rewrite (select_in_upload_db _ _ _ Ht). cbn [s_r2Key set_analysis].
  unfold Multi.upload_row. cbn [s_r2Key new_screenshot].
  now rewrite lookup_insert_eq.
Qed.

Lemma upload_then_fetch_witness :
  fst (Multi.get_screenshot "s-0001"
         (snd (Multi.upload Sample.up (FormData (FormFile Sample.png))
                            Sample.empty_world)))
  = Normal (Multi.File200 (f_content Sample.png) "image/png" "max-age=86400").
Proof.
  exact (f_equal fst (upload_then_fetch Sample.up Sample.png
                        Sample.empty_world eq_refl eq_refl)).
Defined.

(** X3.  The tool stores every image as image/jpeg: fetching after an
    accepted tool call returns the decoded bytes under that content type,
    whatever the file name says. *)
Theorem tool_then_fetch (a : Ambient Multi.Analysis)
        (imageData filename : string) (buffer : bytes)
        (w : World Multi.Analysis) :
  atob a imageData = Normal buffer ->
  taken (id_uuid a) (generateR2Key a filename) (w_db w) = false ->
  let w' := snd (Multi.analyze_screenshot_tool a imageData filename w) in
  Multi.get_screenshot (id_uuid a) w'
  = (Normal (Multi.File200 buffer "image/jpeg" "max-age=86400"), w').
Proof.
  intros Hbuf Ht w'. subst w'.
  rewrite (tool_run _ _ _ _ _ Hbuf Ht). cbn [snd].
  rewrite get_screenshot_run. cbn [w_db w_r2].
  unfold Multi.tool_db. cbv zeta.
  rewrite (select_in_analyzed_db a
             (new_screenshot (id_uuid a) filename (generateR2Key a filename)
                (Z.of_nat (List.length buffer)) "image/jpeg"
                (Js.getSeconds (now a))))
    by (eapply taken_select_none; exact Ht).
  cbn [s_r2Key set_analysis new_screenshot].
  now rewrite lookup_insert_eq.
Qed.

Lemma tool_then_fetch_witness :
  fst (Multi.get_screenshot "s-0001"
         (snd (Multi.analyze_screenshot_tool Sample.up "/9j/" "a.png"
                                             Sample.empty_world)))
  = Normal (Multi.File200 (f_content Sample.jpg) "image/jpeg" "max-age=86400").
Proof.
  exact (f_equal fst (tool_then_fetch Sample.up "/9j/" "a.png"
                        (f_content Sample.jpg) Sample.empty_world
                        eq_refl eq_refl)).
Defined.


(** ** The analysis view *)

Section AnalysisView.
Context {J : Type}.
Implicit Types (d : DB J).

Lemma select_none_has_not i d :
  select_screenshot i d = None -> has_screenshot i d = false.
Proof. apply find_none_existsb. Qed.

(** Under the schema's foreign keys, an id no row has is referenced by no
    link and no history row. *)
Lemma unreferenced i d :
  integrity d -> select_screenshot i d = None ->
  links_of i d = [] /\ results_of i d = [].
Proof.
  intros (_ & _ & _ & _ & _ & Hl & Hr) Hno.
  apply select_none_has_not in Hno. unfold links_of, results_of. split.
  - induction Hl as [|l ls [Hs _] _ IH]; cbn; [reflexivity|].
    destruct (String.eqb (sc_screenshotId l) i) eqn:E; [|exact IH].
    apply String.eqb_eq in E. congruence.
  - induction Hr as [|r rs Hs _ IH]; cbn; [reflexivity|].
    destruct (String.eqb (ar_screenshotId r) i) eqn:E; [|exact IH].
    apply String.eqb_eq in E. congruence.
Qed.

Lemma join_new_link_row created n d :
  NoDup (map c_id (categories d)) ->
  List.filter (fun c => c_id c =? c_id (resolved_category created n d))
              (categories (after_resolve created n d))
  = [resolved_category created n d].
Proof.
  intros Hnd.
  pose proof (select_after_resolve created n d) as Hsel.
  apply filter_by_id_unique.
  - now apply NoDup_after_resolve.
  - unfold select_category in Hsel. now apply List.find_some in Hsel as [? _].
Qed.

Lemma resolved_category_name created n d :
  c_name (resolved_category created n d) = n.
Proof.
  eapply select_category_name. apply select_after_resolve.
Qed.

Lemma categories_of_after_link created sid conf n d :
  linked sid d ->
  categories_of sid (after_link created sid conf n d)
  = (categories_of sid d ++ [(n, Some conf)])%list.
Proof.
  intros [Hnd Hfk]. unfold categories_of.
  rewrite links_of_after_link, flat_map_app. cbn [flat_map].
  rewrite app_nil_r. f_equal.
  - unfold after_link, append_screenshotCategory. cbn [categories].
    induction Hfk as [|l ls Hl Hls IH]; cbn [flat_map]; [reflexivity|].
    rewrite IH. f_equal. f_equal. now apply join_after_resolve.
  - unfold after_link, append_screenshotCategory, new_link.
    cbn [categories sc_categoryId sc_confidence].
    rewrite join_new_link_row by exact Hnd. cbn.
    now rewrite resolved_category_name.
Qed.

Lemma categories_of_after_links created sid conf names : forall d,
  linked sid d ->
  categories_of sid (after_links created sid conf names d)
  = (categories_of sid d ++ map (fun n => (n, Some conf)) names)%list.
Proof.
  induction names as [|n names IH]; intros d H; cbn [after_links map].
  - now rewrite app_nil_r.
  - rewrite (IH _ (linked_after_link created sid conf n d H)).
    rewrite (categories_of_after_link _ _ _ _ _ H).
    now rewrite <- app_assoc.
Qed.

Lemma categories_of_no_links sid d :
  links_of sid d = [] -> categories_of sid d = [].
Proof. unfold categories_of. now intros ->. Qed.

End AnalysisView.

Lemma get_analysis_run id (w : World Multi.Analysis) :
  Multi.get_analysis id w
  = (Normal
       match select_screenshot id (w_db w) with
       | None => JsonError 404 "Screenshot not found"
       | Some s =>
           Json 200
             {| Multi.an_screenshot :=
                  {| Multi.as_id := s_id s;
                     Multi.as_filename := s_filename s;
                     Multi.as_isImportant := s_isImportant s;
                     Multi.as_confidenceScore := s_confidenceScore s;
                     Multi.as_analyzedAt := s_analyzedAt s |};
                Multi.an_categories := categories_of id (w_db w);
                Multi.an_analysisResults :=
                  Multi.orderBy_desc ar_createdAt (results_of id (w_db w)) |}
       end, w).
Proof.
  unfold Multi.get_analysis, db_select_screenshot. run.
  destruct (select_screenshot id (w_db w)) as [s|]; now destruct w.
Qed.

(** X4.  In a store that meets its schema, the analysis view right after
    an accepted upload shows the judgement and nothing else: the summary
    carries its importance flag and confidence and the analysis time, the
    categories are the judgement's names in order, each with the judgement's
    one confidence, and the history is the single row tagged "gemini_vision"
    that holds the judgement. *)
Theorem upload_then_analysis (a : Ambient Multi.Analysis) (file : File)
        (w : World Multi.Analysis) :
  integrity (w_db w) ->
  Js.startsWith (f_type file) "image/" = true ->
  taken (id_uuid a) (generateR2Key a (f_name file)) (w_db w) = false ->
  let j := Multi.judgement a (f_content file) in
  let w' := snd (Multi.upload a (FormData (FormFile file)) w) in
  exists row,
    Multi.get_analysis (id_uuid a) w'
    = (Normal
         (Json 200
            {| Multi.an_screenshot :=
                 {| Multi.as_id := id_uuid a;
                    Multi.as_filename := f_name file;
                    Multi.as_isImportant := Some (Multi.isImportant j);
                    Multi.as_confidenceScore := Some (Multi.confidence j);
                    Multi.as_analyzedAt := Some (Js.getSeconds (now a)) |};
               Multi.an_categories :=
                 map (fun n => (n, Some (Multi.confidence j)))
                     (Multi.categories j);
               Multi.an_analysisResults := [row] |}), w')
    /\ ar_screenshotId row = id_uuid a
    /\ ar_analysisType row = "gemini_vision"
    /\ ar_resultData row = j
    /\ ar_createdAt row = Js.getSeconds (now a).
Proof.
  intros Hint Himg Ht j w'. subst w'.
  rewrite (multi_upload_run _ _ _ Himg Ht). cbn [snd].
  rewrite get_analysis_run. cbn [w_db].
  rewrite (select_in_upload_db _ _ _ Ht). fold j.
  pose proof (taken_select_none _ _ _ Ht) as Hno.
  destruct (unreferenced _ _ Hint Hno) as [Hl Hr].
  set (d2 := recorded_db a (id_uuid a) "gemini_vision" j
               (analyzed_db a (Multi.upload_row a file)
                  (Multi.isImportant j) (Multi.confidence j) (w_db w))).
  assert (Hlinks : links_of (id_uuid a) d2 = []) by exact Hl.
  assert (Hlinked : linked (id_uuid a) d2).
  { split; [apply Hint|]. rewrite Hlinks. constructor. }
  eexists. split.
  { unfold Multi.upload_db. cbv zeta. fold j. fold d2.
    rewrite (categories_of_after_links _ _ _ _ _ Hlinked).
    rewrite (categories_of_no_links _ _ Hlinks). cbn [app].
    unfold results_of.
    destruct (after_links_frame (Js.getSeconds (now a)) (id_uuid a)
                (Multi.confidence j) (Multi.categories j) d2) as [_ ->].
    unfold d2, recorded_db, append_analysisResult. cbn [analysisResults].
    rewrite List.filter_app. unfold analyzed_db, update_screenshot.
    cbn [analysisResults with_screenshots].
    unfold results_of in Hr. rewrite Hr. cbn.
    rewrite String.eqb_refl. cbn. reflexivity. }
  repeat split.
Qed.

Lemma integrity_empty {J} : integrity (@empty_db J).
Proof. repeat split; constructor. Qed.

Lemma upload_then_analysis_witness :
  exists row,
    fst (Multi.get_analysis "s-0001"
           (snd (Multi.upload Sample.up (FormData (FormFile Sample.png))
                              Sample.empty_world)))
    = Normal
        (Json 200
           {| Multi.an_screenshot :=
                {| Multi.as_id := "s-0001";
                   Multi.as_filename := "a.png";
                   Multi.as_isImportant := Some true;
                   Multi.as_confidenceScore := Some (9 # 10);
                   Multi.as_analyzedAt := Some 1751328000 |};
              Multi.an_categories :=
                [("Dev", Some (9 # 10)); ("terminal", Some (9 # 10))];
              Multi.an_analysisResults := [row] |}).
Proof.
  destruct (upload_then_analysis Sample.up Sample.png Sample.empty_world
              integrity_empty eq_refl eq_refl) as (row & H & _).
  exists row. exact (f_equal fst H).
Defined.


(** ** After a deletion *)

Lemma find_filter_implied {A} (p q : A -> bool) (l : list A) :
  (forall x, p x = true -> q x = true) ->
  List.find p (List.filter q l) = List.find p l.
Proof.
  intros H. induction l as [|x l IH]; cbn; [reflexivity|].
  destruct (q x) eqn:Eq; cbn.
  - now rewrite IH.
  - destruct (p x) eqn:Ep; [|exact IH].
    apply H in Ep. congruence.
Qed.

Lemma filter_filter_implied {A} (p q : A -> bool) (l : list A) :
  (forall x, p x = true -> q x = true) ->
  List.filter p (List.filter q l) = List.filter p l.
Proof.
  intros H. induction l as [|x l IH]; cbn; [reflexivity|].
  destruct (q x) eqn:Eq; cbn.
  - now rewrite IH.
  - destruct (p x) eqn:Ep; [|exact IH].
    apply H in Ep. congruence.
Qed.

Lemma other_id_kept (i j x : string) :
  i <> j -> String.eqb x i = true -> negb (String.eqb x j) = true.
Proof.
  intros Hne E. apply String.eqb_eq in E. subst x.
  apply negb_true_iff. now apply String.eqb_neq.
Qed.

(** Deleting one screenshot leaves what belongs to another id alone. *)
Lemma delete_screenshot_frame {J} i j (d : DB J) :
  i <> j ->
  select_screenshot i (delete_screenshot j d) = select_screenshot i d
  /\ links_of i (delete_screenshot j d) = links_of i d
  /\ results_of i (delete_screenshot j d) = results_of i d
  /\ categories (delete_screenshot j d) = categories d.
Proof.
  intros Hne.
  unfold select_screenshot, links_of, results_of, delete_screenshot.
  cbn [screenshots screenshotCategories analysisResults categories].
  split; [|split; [|split; [|reflexivity]]].
  - apply find_filter_implied. intros x. now apply other_id_kept.
  - apply filter_filter_implied. intros x. now apply other_id_kept.
  - apply filter_filter_implied. intros x. now apply other_id_kept.
Qed.

Lemma delete_handler_run id (w : World Multi.Analysis) :
  Multi.delete_handler id w
  = match select_screenshot id (w_db w) with
    | None => (Normal (JsonError 404 "Screenshot not found"), w)
    | Some s =>
        (Normal (Json 200 "Screenshot deleted successfully"),
         Build_World (delete_screenshot id (w_db w))
                     (delete (s_r2Key s) (w_r2 w))
                     (w_trace w ++ [R2Delete (s_r2Key s); DeleteScreenshot id]))
    end.
Proof.
  unfold Multi.delete_handler, db_select_screenshot, r2_delete,
         db_delete_screenshot. run.
  destruct (select_screenshot id (w_db w)) as [s|]; run.
  - now rewrite <- app_assoc.
  - now destruct w.
Qed.

Lemma delete_handler_no_row id (w : World Multi.Analysis) :
  select_screenshot id (w_db (snd (Multi.delete_handler id w))) = None.
Proof.
  rewrite delete_handler_run.
  destruct (select_screenshot id (w_db w)) as [s|] eqn:E; cbn [snd w_db].
  - apply delete_screenshot_gone.
  - exact E.
Qed.

Lemma multi_reanalyze_no_row a id (w : World Multi.Analysis) :
  select_screenshot id (w_db w) = None ->
  Multi.reanalyze a id w = (Normal (JsonError 404 "Screenshot not found"), w).
Proof.
  intros H. unfold Multi.reanalyze, db_select_screenshot. run.
  rewrite H. now destruct w.
Qed.

(** X5.  Once the delete endpoint has been called for an id, whatever it
    answered, that id is gone for every endpoint: fetching it, its analysis
    view, a reanalysis and a second delete all answer 404 "Screenshot not
    found" and change nothing, and no listing shows a row with that id. *)
Theorem deleted_is_not_found (a : Ambient Multi.Analysis) (id : string)
        (w : World Multi.Analysis) :
  let w' := snd (Multi.delete_handler id w) in
  Multi.get_screenshot id w'
  = (Normal (Multi.FileError 404 "Screenshot not found"), w')
  /\ Multi.get_analysis id w'
     = (Normal (JsonError 404 "Screenshot not found"), w')
  /\ Multi.reanalyze a id w'
     = (Normal (JsonError 404 "Screenshot not found"), w')
  /\ Multi.delete_handler id w'
     = (Normal (JsonError 404 "Screenshot not found"), w')
  /\ (forall q s, In s (Multi.list_rows q (w_db w')) -> s_id s <> id).
Proof.
  cbv zeta. pose proof (delete_handler_no_row id w) as Hno.
  set (w' := snd (Multi.delete_handler id w)) in *.
  split; [now rewrite get_screenshot_run, Hno|].
  split; [now rewrite get_analysis_run, Hno|].
  split; [now apply multi_reanalyze_no_row|].
  split; [now rewrite delete_handler_run, Hno|].
  intros q s Hin Hid.
  destruct (list_rows_unpaged q (w_db w')) as (all & Hrows & Hall & _).
  rewrite Hrows in Hin. apply in_limit_offset in Hin.
  apply Hall in Hin as [Hin _].
  unfold select_screenshot in Hno.
  eapply List.find_none in Hno; [|exact Hin].
  cbn in Hno. apply String.eqb_neq in Hno. contradiction.
Qed.

(** X6.  A deletion touches nothing that belongs to another screenshot: its
    row, its links and its history stay as they were, no category is removed,
    and, in a store that meets its schema, its blob stays in the bucket. *)
Theorem delete_leaves_the_others (id other : string)
        (w : World Multi.Analysis) :
  other <> id ->
  let w' := snd (Multi.delete_handler id w) in
  select_screenshot other (w_db w') = select_screenshot other (w_db w)
  /\ links_of other (w_db w') = links_of other (w_db w)
  /\ results_of other (w_db w') = results_of other (w_db w)
  /\ Store.categories (w_db w') = Store.categories (w_db w)
  /\ (integrity (w_db w) ->
      forall s, In s (screenshots (w_db w)) -> s_id s = other ->
                w_r2 w' !! s_r2Key s = w_r2 w !! s_r2Key s).
Proof.
  intros Hne w'. subst w'. rewrite delete_handler_run.
  destruct (select_screenshot id (w_db w)) as [s0|] eqn:E; cbn [snd w_db w_r2].
  - destruct (delete_screenshot_frame other id (w_db w) Hne)
      as (H1 & H2 & H3 & H4).
    repeat split; try assumption.
    intros (_ & Hkeys & _) s Hin Hid.
    apply lookup_delete_ne. intros Hk.
    unfold select_screenshot in E. apply List.find_some in E as [Hin0 E0].
    apply String.eqb_eq in E0.
    assert (s0 = s); [|subst; contradiction].
    clear - Hkeys Hin Hin0 Hk.
    induction (screenshots (w_db w)) as [|x l IH]; [destruct Hin|].
    cbn in Hkeys. apply NoDup_cons in Hkeys as [Hx Hl].
    destruct Hin as [-> | Hin], Hin0 as [-> | Hin0]; auto.
    + exfalso. apply Hx. rewrite <- Hk. apply list_elem_of_In.
      now apply in_map.
    + exfalso. apply Hx. rewrite Hk. apply list_elem_of_In.
      now apply in_map.
  - repeat split.
Qed.

Lemma delete_leaves_the_others_witness :
  select_screenshot "s-80"
    (w_db (snd (Multi.delete_handler "s-79" Sample.shelf)))
  = select_screenshot "s-80" (w_db Sample.shelf).
Proof.
  refine (proj1 (delete_leaves_the_others "s-79" "s-80" Sample.shelf _)).
  discriminate.
Defined.


(** ** More on reanalysis *)

Lemma multi_reanalyze_no_blob a id s (w : World Multi.Analysis) :
  select_screenshot id (w_db w) = Some s ->
  w_r2 w !! s_r2Key s = None ->
  Multi.reanalyze a id w
  = (Normal (JsonError 404 "File not found in storage"), w).
Proof.
  intros Hs Ho.
  unfold Multi.reanalyze, try_catch, bind at 1, db_select_screenshot, read_db.
  rewrite Hs. unfold bind at 1, r2_get. rewrite Ho. now destruct w.
Qed.

(** X7.  What a reanalysis can do.  Without a row for the id, or with a row
    whose blob is not in the bucket, it answers 404 and leaves the store, the
    bucket and the log as they were: the classifier is not called.  With both
    in place it answers 200 with the fields of the new judgement, however the
    classifier fared. *)
Theorem reanalyze_outcomes (a : Ambient Multi.Analysis) (id : string)
        (w : World Multi.Analysis) :
  Multi.reanalyze a id w
  = match select_screenshot id (w_db w) with
    | None => (Normal (JsonError 404 "Screenshot not found"), w)
    | Some s =>
        match w_r2 w !! s_r2Key s with
        | None => (Normal (JsonError 404 "File not found in storage"), w)
        | Some o =>
            (Normal (Json 200 (Multi.reanalyze_body a (o_body o))),
             Build_World (Multi.reanalyzed_db a id (o_body o) (w_db w))
               (w_r2 w)
               (w_trace w ++ Multi.reanalyze_events a id (o_body o) (w_db w)))
        end
    end.
Proof.
  destruct (select_screenshot id (w_db w)) as [s|] eqn:Hs.
  - destruct (w_r2 w !! s_r2Key s) as [o|] eqn:Ho.
    + now apply multi_reanalyze_run with (s := s).
    + now apply multi_reanalyze_no_blob with (s := s).
  - now apply multi_reanalyze_no_row.
Qed.

Section OtherLinks.
Context {J : Type}.
Implicit Types (d : DB J).

Lemma links_of_other_after_link created sid conf n other d :
  other <> sid ->
  links_of other (after_link created sid conf n d) = links_of other d.
Proof.
  intros Hne. unfold links_of, after_link, append_screenshotCategory.
  cbn [screenshotCategories]. rewrite List.filter_app. cbn.
  apply String.eqb_neq in Hne. rewrite String.eqb_sym, Hne, app_nil_r.
  unfold after_resolve. now destruct (select_category n d).
Qed.

Lemma links_of_other_after_links created sid conf names other : forall d,
  other <> sid ->
  links_of other (after_links created sid conf names d) = links_of other d.
Proof.
  induction names as [|n names IH]; intros d Hne; cbn [after_links];
    [reflexivity|].
  rewrite IH by exact Hne. now apply links_of_other_after_link.
Qed.

Lemma links_of_other_deleted sid other d :
  other <> sid ->
  links_of other (delete_screenshotCategories sid d) = links_of other d.
Proof.
  intros Hne. unfold links_of, delete_screenshotCategories.
  cbn [screenshotCategories].
  apply filter_filter_implied. intros x. now apply other_id_kept.
Qed.

Lemma select_other_update i j at_ imp conf d :
  i <> j ->
  select_screenshot i (update_screenshot j at_ imp conf d)
  = select_screenshot i d.
Proof.
  intros Hne. unfold select_screenshot, update_screenshot, with_screenshots.
  cbn [screenshots].
  induction (screenshots d) as [|x l IH]; cbn; [reflexivity|].
  destruct (String.eqb (s_id x) j) eqn:Ej; cbn.
  - apply String.eqb_eq in Ej.
    assert (String.eqb (s_id x) i = false) as ->
        by (apply String.eqb_neq; congruence).
    exact IH.
  - now rewrite IH.
Qed.

End OtherLinks.

(** X8.  A reanalysis keeps to its own screenshot: the bucket is not
    written; the row, the links and the history of every other id stay as
    they were; and the row itself keeps its file name, key, size, MIME type
    and upload time while its analysis fields take the new judgement. *)
Theorem reanalyze_keeps_to_its_screenshot (a : Ambient Multi.Analysis)
        (id : string) (s : Screenshot) (o : R2Object)
        (w : World Multi.Analysis) :
  select_screenshot id (w_db w) = Some s ->
  w_r2 w !! s_r2Key s = Some o ->
  NoDup (map c_id (Store.categories (w_db w))) ->
  let j := Multi.judgement a (o_body o) in
  let w' := snd (Multi.reanalyze a id w) in
  w_r2 w' = w_r2 w
  /\ select_screenshot id (w_db w')
     = Some {| s_id := s_id s; s_filename := s_filename s;
               s_r2Key := s_r2Key s; s_fileSize := s_fileSize s;
               s_mimeType := s_mimeType s; s_uploadedAt := s_uploadedAt s;
               s_analyzedAt := Some (Js.getSeconds (now a));
               s_isImportant := Some (Multi.isImportant j);
               s_confidenceScore := Some (Multi.confidence j) |}
  /\ (forall other, other <> id ->
        select_screenshot other (w_db w') = select_screenshot other (w_db w)
        /\ links_of other (w_db w') = links_of other (w_db w)
        /\ results_of other (w_db w') = results_of other (w_db w)).
Proof.
  intros Hs Ho Hnd j w'. subst w'.
  rewrite (multi_reanalyze_run a id s o w Hs Ho). cbn [snd w_db w_r2].
  destruct (reanalyzed_db_facts a id (o_body o) (w_db w) Hnd)
    as (Hsc & Hres & _).
  split; [reflexivity|]. split.
  - erewrite select_screenshot_ext; [|exact Hsc].
    now apply select_screenshot_update.
  - intros other Hne. split; [|split].
    + erewrite select_screenshot_ext; [|exact Hsc].
      now apply select_other_update.
    + unfold Multi.reanalyzed_db. cbv zeta.
      rewrite links_of_other_after_links by exact Hne.
      now rewrite links_of_other_deleted by exact Hne.
    + unfold results_of. rewrite Hres, List.filter_app. cbn.
      apply String.eqb_neq in Hne. rewrite String.eqb_sym, Hne.
      apply app_nil_r.
Qed.

Lemma reanalyze_keeps_to_its_screenshot_witness :
  select_screenshot "s-79"
    (w_db (snd (Multi.reanalyze Sample.up "s-80" Sample.shelf)))
  = select_screenshot "s-79" (w_db Sample.shelf).
Proof.
  refine (proj1 (proj2 (proj2
            (reanalyze_keeps_to_its_screenshot Sample.up "s-80"
               (Sample.shot "s-80" false (8 # 10)) Sample.blob Sample.shelf
               eq_refl eq_refl _)) "s-79" _)).
  - constructor.
  - discriminate.
Defined.

Section Convergence.
Context {J : Type}.
Implicit Types (d : DB J).

Lemma select_category_ext n d d' :
  categories d = categories d' -> select_category n d = select_category n d'.
Proof. unfold select_category. now intros ->. Qed.

Lemma select_stable_link created sid conf m n c d :
  select_category n d = Some c ->
  select_category n (after_link created sid conf m d) = Some c.
Proof.
  intros H. unfold after_link, append_screenshotCategory, select_category.
  cbn [categories]. unfold after_resolve.
  destruct (select_category m d); [exact H|].
  unfold append_category. cbn [categories]. now apply find_app_some.
Qed.

Lemma select_stable_links created sid conf names n c : forall d,
  select_category n d = Some c ->
  select_category n (after_links created sid conf names d) = Some c.
Proof.
  induction names as [|m names IH]; intros d H; cbn [after_links];
    [exact H|].
  apply IH. now apply select_stable_link.
Qed.

Lemma select_resolved_link created sid conf n d :
  select_category n (after_link created sid conf n d)
  = Some (resolved_category created n d).
Proof.
  unfold after_link, append_screenshotCategory, select_category.
  cbn [categories]. apply select_after_resolve.
Qed.

(** The links the loop writes point at the rows the names select in the
    store it leaves. *)
Lemma links_after_links created sid conf names : forall d,
  exists cats,
    Forall2 (fun n c =>
               select_category n (after_links created sid conf names d)
               = Some c) names cats
    /\ links_of sid (after_links created sid conf names d)
       = (links_of sid d ++ map (link_to sid conf) cats)%list.
Proof.
  induction names as [|n names IH]; intros d; cbn [after_links].
  - exists []. split; [constructor | now rewrite app_nil_r].
  - destruct (IH (after_link created sid conf n d)) as (cats & F & E).
    exists (resolved_category created n d :: cats). split.
    + constructor; [|exact F].
      apply select_stable_links, select_resolved_link.
    + rewrite E, links_of_after_link. cbn [map].
      now rewrite <- app_assoc.
Qed.

(** When every name is already a category, the loop creates none and
    links to the rows that are there. *)
Lemma after_links_present created sid conf names cats : forall d,
  Forall2 (fun n c => select_category n d = Some c) names cats ->
  categories (after_links created sid conf names d) = categories d
  /\ links_of sid (after_links created sid conf names d)
     = (links_of sid d ++ map (link_to sid conf) cats)%list.
Proof.
  intros d F. revert cats d F.
  induction names as [|n names IH]; intros cats d F;
    inversion F as [|? c ? cs Hn Hrest]; subst; cbn [after_links map].
  - now rewrite app_nil_r.
  - assert (Hd1 : categories (after_link created sid conf n d) = categories d).
    { unfold after_link, append_screenshotCategory, after_resolve.
      now rewrite Hn. }
    destruct (IH cs (after_link created sid conf n d)) as [Hc Hl].
    { eapply Forall2_impl; [exact Hrest|]. intros m c' Hm.
      rewrite <- Hm. now apply select_category_ext. }
    split; [congruence|].
    rewrite Hl, links_of_after_link. unfold new_link, resolved_category.
    rewrite Hn. cbn [map]. now rewrite <- app_assoc.
Qed.

End Convergence.

Lemma reanalyzed_db_frame a id img (d : DB Multi.Analysis) :
  screenshots (Multi.reanalyzed_db a id img d)
  = screenshots (update_screenshot id (Js.getSeconds (now a))
                   (Multi.isImportant (Multi.judgement a img))
                   (Multi.confidence (Multi.judgement a img)) d)
  /\ analysisResults (Multi.reanalyzed_db a id img d)
     = (analysisResults d
        ++ [new_analysisResult id "gemini_vision_reanalysis"
              (Multi.judgement a img) (Js.getSeconds (now a))
              (update_screenshot id (Js.getSeconds (now a))
                 (Multi.isImportant (Multi.judgement a img))
                 (Multi.confidence (Multi.judgement a img)) d)])%list.
Proof.
  unfold Multi.reanalyzed_db. cbv zeta.
  match goal with
  | |- context [after_links ?t ?i ?c ?n ?D] =>
      destruct (after_links_frame t i c n D) as [H1 H2]
  end.
  rewrite H1, H2. split; reflexivity.
Qed.

(** The links a reanalysis leaves, and what it does when the names of its
    judgement are all categories already. *)
Lemma reanalyzed_links a id img (d : DB Multi.Analysis) :
  exists cats,
    Forall2 (fun n c =>
               select_category n (Multi.reanalyzed_db a id img d) = Some c)
            (Multi.categories (Multi.judgement a img)) cats
    /\ links_of id (Multi.reanalyzed_db a id img d)
       = map (link_to id (Multi.confidence (Multi.judgement a img))) cats.
Proof.
  unfold Multi.reanalyzed_db. cbv zeta.
  match goal with
  | |- context [after_links ?t ?i ?c ?n ?D] =>
      destruct (links_after_links t i c n D) as (cats & F & E)
  end.
  exists cats. split; [exact F|].
  rewrite E, links_of_deleted. reflexivity.
Qed.

Lemma reanalyzed_again a id img cats (d : DB Multi.Analysis) :
  Forall2 (fun n c => select_category n d = Some c)
          (Multi.categories (Multi.judgement a img)) cats ->
  Store.categories (Multi.reanalyzed_db a id img d) = Store.categories d
  /\ links_of id (Multi.reanalyzed_db a id img d)
     = map (link_to id (Multi.confidence (Multi.judgement a img))) cats.
Proof.
  intros F. unfold Multi.reanalyzed_db. cbv zeta.
  match goal with
  | |- context [after_links ?t ?i ?c ?n ?D] =>
      destruct (after_links_present t i c n cats D) as [Hc Hl]
  end.
  { eapply Forall2_impl; [exact F|]. intros n c Hn.
    rewrite <- Hn. now apply select_category_ext. }
  rewrite Hc, Hl, links_of_deleted. split; reflexivity.
Qed.

(** X9.  Reanalysis converges in its effect but not in its history: when a
    second reanalysis of a screenshot yields the same category names and the
    same confidence as the first, it leaves exactly the link rows the first
    left and creates no category, while the history gains one more row. *)
Theorem reanalysis_converges (a1 a2 : Ambient Multi.Analysis) (id : string)
        (s : Screenshot) (o : R2Object) (w : World Multi.Analysis) :
  select_screenshot id (w_db w) = Some s ->
  w_r2 w !! s_r2Key s = Some o ->
  Multi.categories (Multi.judgement a2 (o_body o))
  = Multi.categories (Multi.judgement a1 (o_body o)) ->
  Multi.confidence (Multi.judgement a2 (o_body o))
  = Multi.confidence (Multi.judgement a1 (o_body o)) ->
  let w1 := snd (Multi.reanalyze a1 id w) in
  let w2 := snd (Multi.reanalyze a2 id w1) in
  fst (Multi.reanalyze a2 id w1)
  = Normal (Json 200 (Multi.reanalyze_body a2 (o_body o)))
  /\ links_of id (w_db w2) = links_of id (w_db w1)
  /\ Store.categories (w_db w2) = Store.categories (w_db w1)
  /\ List.length (results_of id (w_db w2))
     = S (List.length (results_of id (w_db w1))).
Proof.
  intros Hs Ho Hnames Hconf w1 w2. subst w2 w1.
  rewrite (multi_reanalyze_run a1 id s o w Hs Ho). cbn [snd].
  set (d1 := Multi.reanalyzed_db a1 id (o_body o) (w_db w)).
  destruct (reanalyzed_db_frame a1 id (o_body o) (w_db w)) as [Hsc1 _].
  assert (Hs1 : select_screenshot id d1
                = Some (set_analysis (Js.getSeconds (now a1))
                          (Multi.isImportant (Multi.judgement a1 (o_body o)))
                          (Multi.confidence (Multi.judgement a1 (o_body o)))
                          s)).
  { unfold d1. erewrite select_screenshot_ext; [|exact Hsc1].
    now apply select_screenshot_update. }
  rewrite (multi_reanalyze_run a2 id _ o (Build_World d1 _ _) Hs1 Ho).
  cbn [fst snd w_db].
  split; [reflexivity|].
  destruct (reanalyzed_links a1 id (o_body o) (w_db w)) as (cats & F & E1).
  fold d1 in F, E1. rewrite <- Hnames in F.
  destruct (reanalyzed_again a2 id (o_body o) cats d1 F) as [Hc2 Hl2].
  destruct (reanalyzed_db_frame a2 id (o_body o) d1) as [_ Hres2].
  split; [|split].
  - rewrite Hl2, E1, Hconf. reflexivity.
  - exact Hc2.
  - unfold results_of. rewrite Hres2, List.filter_app, length_app. cbn.
    rewrite String.eqb_refl. cbn. lia.
Qed.

Lemma reanalysis_converges_witness :
  links_of "s-80"
    (w_db (snd (Multi.reanalyze Sample.up "s-80"
                  (snd (Multi.reanalyze Sample.up "s-80" Sample.shelf)))))
  = links_of "s-80" (w_db (snd (Multi.reanalyze Sample.up "s-80" Sample.shelf))).
Proof.
  exact (proj1 (proj2
           (reanalysis_converges Sample.up Sample.up "s-80"
              (Sample.shot "s-80" false (8 # 10)) Sample.blob Sample.shelf
              eq_refl eq_refl eq_refl eq_refl))).
Defined.

Lemma multi_reanalysis_history_and_links_witness :
  Multi.reanalyzable "s-80" (f_content Sample.png) Sample.shelf
  /\ category_names_of "s-80"
       (w_db (snd (Multi.reanalyze_all [Sample.down; Sample.up] "s-80"
                                       Sample.shelf)))
     = ["Dev"; "terminal"].
Proof.
  assert (H : Multi.reanalyzable "s-80" (f_content Sample.png) Sample.shelf).
  { split; [|constructor].
    exists (Sample.shot "s-80" false (8 # 10)), Sample.blob.
    repeat split. }
  split; [exact H|].
  exact (proj1 (proj2 (proj2
           (multi_reanalysis_history_and_links [Sample.down] Sample.up "s-80"
              (f_content Sample.png) Sample.shelf H)))).
Defined.


(** ** Relations that every step of a handler respects *)

Section Always.
Context {J : Type} (R : World J -> World J -> Prop).
Hypothesis R_refl : forall w, R w w.
Hypothesis R_trans : forall w1 w2 w3, R w1 w2 -> R w2 w3 -> R w1 w3.

Lemma always_ret {A} (x : A) : always R (ret x).
Proof. intros w. apply R_refl. Qed.

Lemma always_throw {A} (e : string) : always R (@throw J A e).
Proof. intros w. apply R_refl. Qed.

Lemma always_lift {A} (c : completion A) : always R (lift c).
Proof. intros w. apply R_refl. Qed.

Lemma always_bind {A B} (m : M J A) (k : A -> M J B) :
  always R m -> (forall x, always R (k x)) -> always R (bind m k).
Proof.
  intros Hm Hk w. unfold bind. specialize (Hm w).
  destruct (m w) as [[x|e] w1]; cbn [snd] in *; [|exact Hm].
  eapply R_trans; [exact Hm | apply Hk].
Qed.

Lemma always_try_catch {A} (m : M J A) (h : string -> M J A) :
  always R m -> (forall e, always R (h e)) -> always R (try_catch m h).
Proof.
  intros Hm Hh w. unfold try_catch. specialize (Hm w).
  destruct (m w) as [[x|e] w1]; cbn [snd] in *; [exact Hm|].
  eapply R_trans; [exact Hm | apply Hh].
Qed.

Lemma always_for_of {A} (l : list A) (body : A -> M J unit) :
  (forall x, always R (body x)) -> always R (for_of l body).
Proof.
  intros Hb. induction l as [|x l IH]; cbn [for_of].
  - apply always_ret.
  - apply always_bind; [apply Hb | intros _; exact IH].
Qed.

(** A relation that looks at the store only is respected by whatever
    leaves the store alone, and by a statement when the store function behind
    it respects it. *)
Hypothesis R_db : forall w w', w_db w' = w_db w -> R w w'.

Lemma always_log (e : Event) : always R (log e).
Proof. intros w. now apply R_db. Qed.

Lemma always_read_db {A} (q : DB J -> A) : always R (read_db q).
Proof. intros w. apply R_refl. Qed.

Lemma always_r2_get key : always R (r2_get key).
Proof. intros w. apply R_refl. Qed.

Lemma always_r2_put key o : always R (r2_put key o).
Proof.
  unfold r2_put. apply always_bind; [apply always_log|].
  intros _ w. now apply R_db.
Qed.

Lemma always_r2_delete key : always R (r2_delete key).
Proof.
  unfold r2_delete. apply always_bind; [apply always_log|].
  intros _ w. now apply R_db.
Qed.

End Always.

Section Respected.
Context {J : Type} (Rd : DB J -> DB J -> Prop) (HR : respected Rd).

Lemma on_store_refl w : on_store Rd w w.
Proof. apply (rd_refl Rd HR). Qed.

Lemma on_store_trans w1 w2 w3 :
  on_store Rd w1 w2 -> on_store Rd w2 w3 -> on_store Rd w1 w3.
Proof. apply (rd_trans Rd HR). Qed.

Lemma on_store_db (w w' : World J) : w_db w' = w_db w -> on_store Rd w w'.
Proof. unfold on_store. intros ->. apply (rd_refl Rd HR). Qed.

Lemma always_write_db (f : DB J -> DB J) :
  (forall d, Rd d (f d)) -> always (on_store Rd) (write_db f).
Proof. intros H w. apply H. Qed.

Lemma always_try_db {A} msg (f : DB J -> option (A * DB J)) :
  (forall d x d', f d = Some (x, d') -> Rd d d') ->
  always (on_store Rd) (try_db msg f).
Proof.
  intros H w. unfold try_db.
  destruct (f (w_db w)) as [[x d']|] eqn:E; cbn [snd].
  - eapply H. exact E.
  - apply on_store_refl.
Qed.

Ltac logged :=
  apply (always_bind _ on_store_trans);
  [apply (always_log _ on_store_db) | intros _].

Lemma always_db_insert_screenshot i f k sz m u :
  always (on_store Rd) (db_insert_screenshot i f k sz m u).
Proof.
  unfold db_insert_screenshot. logged. apply always_try_db.
  intros d row d'. apply (rd_insert_screenshot Rd HR).
Qed.

Lemma always_db_update_screenshot i t imp c :
  always (on_store Rd) (db_update_screenshot i t imp c).
Proof.
  unfold db_update_screenshot. logged. apply always_write_db.
  apply (rd_update_screenshot Rd HR).
Qed.

Lemma always_db_insert_analysisResult sid ty (data : J) cr :
  always (on_store Rd) (db_insert_analysisResult sid ty data cr).
Proof.
  unfold db_insert_analysisResult. logged. apply always_try_db.
  intros d x d' E.
  destruct (insert_analysisResult sid ty data cr d) as [d''|] eqn:E';
    [|discriminate].
  injection E as _ <-. eapply (rd_insert_analysisResult Rd HR). exact E'.
Qed.

Lemma always_db_select_category n :
  always (on_store Rd) (db_select_category n).
Proof.
  unfold db_select_category. logged.
  apply (always_read_db _ on_store_refl).
Qed.

Lemma always_db_insert_category n cr :
  always (on_store Rd) (db_insert_category n cr).
Proof.
  unfold db_insert_category. logged. apply always_try_db.
  intros d row d'. apply (rd_insert_category Rd HR).
Qed.

Lemma always_db_insert_screenshotCategory sid cid c :
  always (on_store Rd) (db_insert_screenshotCategory sid cid c).
Proof.
  unfold db_insert_screenshotCategory. logged. apply always_try_db.
  intros d x d' E.
  destruct (insert_screenshotCategory sid cid c d) as [d''|] eqn:E';
    [|discriminate].
  injection E as _ <-. eapply (rd_insert_screenshotCategory Rd HR). exact E'.
Qed.

Lemma always_db_delete_screenshotCategories sid :
  always (on_store Rd) (db_delete_screenshotCategories sid).
Proof.
  unfold db_delete_screenshotCategories. logged. apply always_write_db.
  apply (rd_delete_screenshotCategories Rd HR).
Qed.

Lemma always_db_delete_screenshot i :
  (forall d, Rd d (delete_screenshot i d)) ->
  always (on_store Rd) (db_delete_screenshot i).
Proof.
  intros H. unfold db_delete_screenshot. logged. now apply always_write_db.
Qed.

Lemma always_resolveCategory (a : Ambient J) n :
  always (on_store Rd) (resolveCategory a n).
Proof.
  unfold resolveCategory.
  apply (always_bind _ on_store_trans); [apply always_db_select_category|].
  intros [c|]; [apply (always_ret _ on_store_refl)|].
  apply always_db_insert_category.
Qed.

Lemma always_link_category (a : Ambient J) sid conf n :
  always (on_store Rd) (link_category a sid conf n).
Proof.
  unfold link_category.
  apply (always_bind _ on_store_trans); [apply always_resolveCategory|].
  intros c. apply always_db_insert_screenshotCategory.
Qed.

Lemma respect_ret {A} (x : A) : always (on_store Rd) (ret x).
Proof. apply (always_ret _ on_store_refl). Qed.

Lemma respect_throw {A} e : always (on_store Rd) (@throw J A e).
Proof. apply (always_throw _ on_store_refl). Qed.

Lemma respect_lift {A} (c : completion A) : always (on_store Rd) (lift c).
Proof. apply (always_lift _ on_store_refl). Qed.

Lemma respect_bind {A B} (m : M J A) (k : A -> M J B) :
  always (on_store Rd) m -> (forall x, always (on_store Rd) (k x)) ->
  always (on_store Rd) (bind m k).
Proof. apply (always_bind _ on_store_trans). Qed.

Lemma respect_try_catch {A} (m : M J A) (h : string -> M J A) :
  always (on_store Rd) m -> (forall e, always (on_store Rd) (h e)) ->
  always (on_store Rd) (try_catch m h).
Proof. apply (always_try_catch _ on_store_trans). Qed.

Lemma respect_for_of {A} (l : list A) (body : A -> M J unit) :
  (forall x, always (on_store Rd) (body x)) ->
  always (on_store Rd) (for_of l body).
Proof. apply (always_for_of _ on_store_refl on_store_trans). Qed.

Lemma respect_log e : always (on_store Rd) (log e).
Proof. apply (always_log _ on_store_db). Qed.

Lemma respect_read_db {A} (q : DB J -> A) : always (on_store Rd) (read_db q).
Proof. apply (always_read_db _ on_store_refl). Qed.

Lemma respect_r2_get key : always (on_store Rd) (r2_get key).
Proof. apply (always_r2_get _ on_store_refl). Qed.

Lemma respect_r2_put key o : always (on_store Rd) (r2_put key o).
Proof. apply (always_r2_put _ on_store_trans on_store_db). Qed.

Lemma respect_r2_delete key : always (on_store Rd) (r2_delete key).
Proof. apply (always_r2_delete _ on_store_trans on_store_db). Qed.

Lemma respect_db_select_screenshot i :
  always (on_store Rd) (db_select_screenshot i).
Proof. apply respect_read_db. Qed.

Lemma respect_formData (b : RequestBody) :
  always (on_store Rd) (formData_get_file b).
Proof. destruct b; [apply respect_throw | apply respect_ret]. Qed.

End Respected.

(** Walks through a handler, one combinator at a time. *)
Ltac respect HR :=
  repeat first
    [ apply (respect_ret _ HR)
    | apply (respect_throw _ HR)
    | apply (respect_lift _ HR)
    | apply (respect_log _ HR)
    | apply (respect_read_db _ HR)
    | apply (respect_r2_get _ HR)
    | apply (respect_r2_put _ HR)
    | apply (respect_r2_delete _ HR)
    | apply (respect_db_select_screenshot _ HR)
    | apply (respect_formData _ HR)
    | apply (always_db_insert_screenshot _ HR)
    | apply (always_db_update_screenshot _ HR)
    | apply (always_db_insert_analysisResult _ HR)
    | apply (always_db_delete_screenshotCategories _ HR)
    | apply (always_link_category _ HR)
    | apply (always_resolveCategory _ HR)
    | apply (respect_for_of _ HR); intros ?
    | apply (respect_try_catch _ HR); [|intros ?]
    | apply (respect_bind _ HR); [|intros ?]
    | match goal with
      | |- always _ (match ?x with _ => _ end) => destruct x
      | |- always _ (if ?b then _ else _) => destruct b
      end ].

Section RespectedHandlers.
Context (Rd : DB Multi.Analysis -> DB Multi.Analysis -> Prop)
        (HR : respected Rd).

Lemma respect_analyzeScreenshot a img :
  always (on_store Rd) (Multi.analyzeScreenshot a img).
Proof. unfold Multi.analyzeScreenshot. respect HR. Qed.

Lemma respect_upload a req : always (on_store Rd) (Multi.upload a req).
Proof.
  unfold Multi.upload. respect HR; apply respect_analyzeScreenshot.
Qed.

Lemma respect_reanalyze a id : always (on_store Rd) (Multi.reanalyze a id).
Proof.
  unfold Multi.reanalyze. respect HR; apply respect_analyzeScreenshot.
Qed.

Lemma respect_tool a imageData filename :
  always (on_store Rd) (Multi.analyze_screenshot_tool a imageData filename).
Proof.
  unfold Multi.analyze_screenshot_tool.
  respect HR; apply respect_analyzeScreenshot.
Qed.

Hypothesis Rd_delete : forall i d, Rd d (delete_screenshot i d).

Lemma respect_delete_handler id :
  always (on_store Rd) (Multi.delete_handler id).
Proof.
  unfold Multi.delete_handler. respect HR.
  all: apply (always_db_delete_screenshot _ HR), Rd_delete.
Qed.

Lemma respect_cleanup_clutter dryRun threshold :
  always (on_store Rd) (Multi.cleanup_clutter dryRun threshold).
Proof.
  unfold Multi.cleanup_clutter. cbv zeta. respect HR.
  all: apply (always_db_delete_screenshot _ HR), Rd_delete.
Qed.

End RespectedHandlers.


(** ** The schema's constraints survive every statement *)

Section Integrity.
Context {J : Type}.
Implicit Types (d : DB J).

Lemma existsb_false_notin {A} (f : A -> string) (x : string) (l : list A) :
  existsb (fun y => String.eqb (f y) x) l = false -> ~ In x (map f l).
Proof.
  induction l as [|y l IH]; cbn; [tauto|].
  intros H. apply orb_false_iff in H as [Hy Hl].
  apply String.eqb_neq in Hy. intros [E|E]; [congruence | now apply IH].
Qed.

Lemma NoDup_snoc {A} (l : list A) (x : A) :
  NoDup l -> ~ In x l -> NoDup (l ++ [x]).
Proof.
  intros Hl Hx. apply NoDup_app. split; [exact Hl|]. split.
  - intros y Hy Hy'. apply list_elem_of_In in Hy.
    apply list_elem_of_In in Hy'. destruct Hy' as [<- | []]. contradiction.
  - apply NoDup_singleton.
Qed.

Lemma NoDup_map_filter {A B} (f : A -> B) (p : A -> bool) (l : list A) :
  NoDup (map f l) -> NoDup (map f (List.filter p l)).
Proof.
  induction l as [|x l IH]; cbn; [trivial|].
  intros H. apply NoDup_cons in H as [Hx Hl].
  destruct (p x); cbn; [|now apply IH].
  apply NoDup_cons. split; [|now apply IH].
  intros Hin. apply Hx. apply list_elem_of_In in Hin.
  apply list_elem_of_In. apply in_map_iff in Hin as (y & E & Hy).
  apply in_map_iff. exists y. split; [exact E|].
  now apply List.filter_In in Hy as [Hy _].
Qed.

Lemma taken_false i key d :
  taken i key d = false ->
  ~ In i (map s_id (screenshots d)) /\ ~ In key (map s_r2Key (screenshots d)).
Proof.
  unfold taken. induction (screenshots d) as [|s l IH]; cbn; [tauto|].
  intros H. apply orb_false_iff in H as [Hs Hl].
  apply orb_false_iff in Hs as [H1 H2].
  apply String.eqb_neq in H1. apply String.eqb_neq in H2.
  destruct (IH Hl) as [I1 I2]. split; intros [E|E]; auto.
Qed.

Lemma has_screenshot_grows i (row : Screenshot) d :
  has_screenshot i d = true ->
  has_screenshot i (with_screenshots (screenshots d ++ [row]) d) = true.
Proof.
  unfold has_screenshot, with_screenshots. cbn [screenshots].
  rewrite existsb_app. now intros ->.
Qed.

Lemma integrity_insert_screenshot i f k sz m u d row d' :
  insert_screenshot i f k sz m u d = Some (row, d') ->
  integrity d -> integrity d'.
Proof.
  unfold insert_screenshot. destruct (taken i k d) eqn:Ht; [discriminate|].
  intros [= <- <-] (H1 & H2 & H3 & H4 & H5 & H6 & H7).
  destruct (taken_false _ _ _ Ht) as [Hi Hk].
  unfold integrity, with_screenshots.
  cbn [screenshots categories analysisResults screenshotCategories].
  rewrite !map_app. cbn [map s_id s_r2Key new_screenshot].
  split; [now apply NoDup_snoc|]. split; [now apply NoDup_snoc|].
  split; [exact H3|]. split; [exact H4|]. split; [exact H5|]. split.
  - eapply List.Forall_impl; [|exact H6]. cbv beta. intros l [Ha Hb].
    split; [|exact Hb]. now apply has_screenshot_grows.
  - eapply List.Forall_impl; [|exact H7]. cbv beta. intros r Ha.
    now apply has_screenshot_grows.
Qed.

Lemma map_update_keeps {B} (g : Screenshot -> B) i t imp c
      (l : list Screenshot) :
  (forall s, g (set_analysis t imp c s) = g s) ->
  map g (map (fun s => if String.eqb (s_id s) i
                       then set_analysis t imp c s else s) l)
  = map g l.
Proof.
  intros Hg. induction l as [|s l IH]; cbn; [reflexivity|].
  rewrite IH. f_equal. destruct (String.eqb (s_id s) i); auto.
Qed.

Lemma integrity_update_screenshot i t imp c d :
  integrity d -> integrity (update_screenshot i t imp c d).
Proof.
  intros (H1 & H2 & H3 & H4 & H5 & H6 & H7).
  unfold integrity.
  assert (E1 : map s_id (screenshots (update_screenshot i t imp c d))
               = map s_id (screenshots d))
    by (apply map_update_keeps; reflexivity).
  assert (E2 : map s_r2Key (screenshots (update_screenshot i t imp c d))
               = map s_r2Key (screenshots d))
    by (apply map_update_keeps; reflexivity).
  rewrite E1, E2.
  split; [exact H1|]. split; [exact H2|]. split; [exact H3|].
  split; [exact H4|]. split; [exact H5|]. split.
  - eapply List.Forall_impl; [|exact H6]. cbv beta. intros l [Ha Hb].
    now rewrite has_screenshot_update.
  - eapply List.Forall_impl; [|exact H7]. cbv beta. intros r Ha.
    now rewrite has_screenshot_update.
Qed.

Lemma fresh_rowid_notin seq (l : list Z) : ~ In (next_rowid seq l) l.
Proof.
  intros Hin. destruct (next_rowid_fresh seq l) as [H _].
  rewrite List.Forall_forall in H. specialize (H _ Hin). lia.
Qed.

Lemma integrity_insert_analysisResult sid ty (data : J) cr d d' :
  insert_analysisResult sid ty data cr d = Some d' ->
  integrity d -> integrity d'.
Proof.
  unfold insert_analysisResult.
  destruct (has_screenshot sid d) eqn:Hs; [|discriminate].
  intros [= <-] (H1 & H2 & H3 & H4 & H5 & H6 & H7).
  unfold integrity, append_analysisResult, new_analysisResult.
  cbn [screenshots categories analysisResults screenshotCategories].
  rewrite map_app. cbn [map ar_id].
  repeat (split; [assumption|]). split.
  - apply NoDup_snoc; [exact H5 | apply fresh_rowid_notin].
  - split; [exact H6|]. apply Forall_app. split; [exact H7|].
    constructor; [exact Hs | constructor].
Qed.

Lemma has_category_grows i (row : Category) d :
  has_category i d = true -> has_category i (append_category row d) = true.
Proof.
  unfold has_category, append_category. cbn [categories].
  rewrite existsb_app. now intros ->.
Qed.

Lemma integrity_insert_category n cr d row d' :
  insert_category n cr d = Some (row, d') -> integrity d -> integrity d'.
Proof.
  unfold insert_category.
  destruct (existsb _ (categories d)) eqn:Hn; [discriminate|].
  intros [= <- <-] (H1 & H2 & H3 & H4 & H5 & H6 & H7).
  unfold integrity, append_category, new_category.
  cbn [screenshots categories analysisResults screenshotCategories c_id].
  rewrite !map_app. cbn [map c_id c_name].
  split; [exact H1|]. split; [exact H2|].
  split; [apply NoDup_snoc; [exact H3 | apply fresh_rowid_notin]|].
  split; [apply NoDup_snoc; [exact H4 | now apply existsb_false_notin]|].
  split; [exact H5|]. split; [|exact H7].
  eapply List.Forall_impl; [|exact H6]. cbv beta. intros l [Ha Hb].
  split; [exact Ha|].
  now apply (has_category_grows _
               {| c_id := next_rowid (categories_seq d)
                                     (map c_id (categories d));
                  c_name := n; c_description := None; c_createdAt := cr |}).
Qed.

Lemma integrity_insert_screenshotCategory sid cid c d d' :
  insert_screenshotCategory sid cid c d = Some d' ->
  integrity d -> integrity d'.
Proof.
  unfold insert_screenshotCategory.
  destruct (has_screenshot sid d && has_category cid d) eqn:Hc;
    [|discriminate].
  apply andb_true_iff in Hc as [Hs Hcat].
  intros [= <-] (H1 & H2 & H3 & H4 & H5 & H6 & H7).
  unfold integrity, append_screenshotCategory.
  cbn [screenshots categories analysisResults screenshotCategories].
  repeat (split; [assumption|]). split; [|exact H7].
  apply Forall_app. split; [exact H6|].
  constructor; [split; assumption | constructor].
Qed.

Lemma Forall_filter_keeps {A} (P : A -> Prop) (p : A -> bool) (l : list A) :
  Forall P l -> Forall P (List.filter p l).
Proof.
  induction 1 as [|x l Hx Hl IH]; cbn; [constructor|].
  destruct (p x); [constructor|]; assumption.
Qed.

Lemma integrity_delete_screenshotCategories sid d :
  integrity d -> integrity (delete_screenshotCategories sid d).
Proof.
  intros (H1 & H2 & H3 & H4 & H5 & H6 & H7).
  unfold integrity, delete_screenshotCategories.
  cbn [screenshots categories analysisResults screenshotCategories].
  repeat (split; [assumption|]). split; [|exact H7].
  now apply Forall_filter_keeps.
Qed.

Lemma has_screenshot_after_delete i j d :
  i <> j -> has_screenshot i d = true ->
  has_screenshot i (delete_screenshot j d) = true.
Proof.
  intros Hne. unfold has_screenshot, delete_screenshot. cbn [screenshots].
  induction (screenshots d) as [|s l IH]; cbn; [trivial|].
  destruct (String.eqb (s_id s) i) eqn:E; cbn.
  - intros _. pose proof E as E'. apply String.eqb_eq in E'.
    assert (String.eqb (s_id s) j = false) as ->
        by (apply String.eqb_neq; congruence).
    cbn. now rewrite E.
  - intros H. destruct (negb (String.eqb (s_id s) j)); cbn; [rewrite E|];
      now apply IH.
Qed.

End Integrity.

Lemma Forall_filter_with {A} (P Q : A -> Prop) (p : A -> bool) (l : list A) :
  (forall x, P x -> p x = true -> Q x) ->
  Forall P l -> Forall Q (List.filter p l).
Proof.
  intros H. induction 1 as [|x l Hx Hl IH]; cbn; [constructor|].
  destruct (p x) eqn:E; [constructor; auto | exact IH].
Qed.

Lemma integrity_delete_screenshot {J} i (d : DB J) :
  integrity d -> integrity (delete_screenshot i d).
Proof.
  intros (H1 & H2 & H3 & H4 & H5 & H6 & H7).
  unfold integrity.
  assert (Hcat : forall k, has_category k (delete_screenshot i d)
                           = has_category k d) by reflexivity.
  split; [now apply NoDup_map_filter|].
  split; [now apply NoDup_map_filter|].
  split; [exact H3|]. split; [exact H4|].
  split; [now apply NoDup_map_filter|]. split.
  - unfold delete_screenshot at 3. cbn [screenshotCategories].
    eapply Forall_filter_with; [|exact H6]. cbv beta.
    intros l [Hs Hc] Hne. apply negb_true_iff, String.eqb_neq in Hne.
    split; [now apply has_screenshot_after_delete | now rewrite Hcat].
  - unfold delete_screenshot at 2. cbn [analysisResults].
    eapply Forall_filter_with; [|exact H7]. cbv beta.
    intros r Hs Hne. apply negb_true_iff, String.eqb_neq in Hne.
    now apply has_screenshot_after_delete.
Qed.

Lemma integrity_respected {J} :
  respected (fun d d' : DB J => integrity d -> integrity d').
Proof.
  constructor.
  - auto.
  - auto.
  - intros. eapply integrity_insert_screenshot; eauto.
  - intros. now apply integrity_update_screenshot.
  - intros. eapply integrity_insert_analysisResult; eauto.
  - intros. eapply integrity_insert_category; eauto.
  - intros. eapply integrity_insert_screenshotCategory; eauto.
  - intros. now apply integrity_delete_screenshotCategories.
Qed.

(** X10.  The endpoints and tools of [src/index.ts] that write never leave
    the store in breach of its schema: if primary keys, unique indexes and
    foreign keys hold before a request, they hold after it, for every input
    and however the request ends (also when it fails half-way and answers
    500). *)
Theorem handlers_keep_integrity (a : Ambient Multi.Analysis) :
  (forall req, always keeps_integrity (Multi.upload a req))
  /\ (forall id, always keeps_integrity (Multi.reanalyze a id))
  /\ (forall id, always keeps_integrity (Multi.delete_handler id))
  /\ (forall imageData filename,
        always keeps_integrity
               (Multi.analyze_screenshot_tool a imageData filename))
  /\ (forall dryRun threshold,
        always keeps_integrity (Multi.cleanup_clutter dryRun threshold)).
Proof.
  pose proof (@integrity_respected Multi.Analysis) as HR.
  split; [|split; [|split; [|split]]]; intros.
  - apply (respect_upload _ HR).
  - apply (respect_reanalyze _ HR).
  - apply (respect_delete_handler _ HR).
    intros. now apply integrity_delete_screenshot.
  - apply (respect_tool _ HR).
  - apply (respect_cleanup_clutter _ HR).
    intros. now apply integrity_delete_screenshot.
Qed.

Lemma categories_respected {J} :
  respected (fun d d' : DB J =>
               exists extra, categories d' = (categories d ++ extra)%list).
Proof.
  constructor.
  - intros d. exists []. now rewrite app_nil_r.
  - intros d1 d2 d3 [e1 E1] [e2 E2]. exists (e1 ++ e2)%list.
    now rewrite E2, E1, app_assoc.
  - unfold insert_screenshot. intros i f k sz m u d row d'.
    destruct (taken i k d); [discriminate|]. intros [= <- <-].
    exists []. now rewrite app_nil_r.
  - intros. exists []. now rewrite app_nil_r.
  - unfold insert_analysisResult. intros sid ty data cr d d'.
    destruct (has_screenshot sid d); [|discriminate]. intros [= <-].
    exists []. now rewrite app_nil_r.
  - unfold insert_category. intros n cr d row d'.
    destruct (existsb _ _); [discriminate|]. intros [= <- <-].
    eexists. reflexivity.
  - unfold insert_screenshotCategory. intros sid cid c d d'.
    destruct (_ && _); [|discriminate]. intros [= <-].
    exists []. now rewrite app_nil_r.
  - intros. exists []. now rewrite app_nil_r.
Qed.

(** X11.  No endpoint or tool of [src/index.ts] ever removes, renames or
    renumbers a category: after any request, for every input and however it
    ends, the category table is the table before with rows appended.  Deleting
    screenshots, through the endpoint or the cleanup tool, leaves the
    categories they used in place. *)
Theorem categories_only_grow (a : Ambient Multi.Analysis) :
  (forall req, always categories_grow (Multi.upload a req))
  /\ (forall id, always categories_grow (Multi.reanalyze a id))
  /\ (forall id, always categories_grow (Multi.delete_handler id))
  /\ (forall imageData filename,
        always categories_grow
               (Multi.analyze_screenshot_tool a imageData filename))
  /\ (forall dryRun threshold,
        always categories_grow (Multi.cleanup_clutter dryRun threshold)).
Proof.
  pose proof (@categories_respected Multi.Analysis) as HR.
  assert (Hdel : forall i (d : DB Multi.Analysis),
             exists extra,
               Store.categories (delete_screenshot i d)
               = (Store.categories d ++ extra)%list)
    by (intros; exists []; now rewrite app_nil_r).
  split; [|split; [|split; [|split]]]; intros.
  - apply (respect_upload _ HR).
  - apply (respect_reanalyze _ HR).
  - apply (respect_delete_handler _ HR Hdel).
  - apply (respect_tool _ HR).
  - apply (respect_cleanup_clutter _ HR Hdel).
Qed.

Lemma history_respected {J} :
  respected (fun d d' : DB J =>
               exists extra,
                 analysisResults d' = (analysisResults d ++ extra)%list).
Proof.
  constructor.
  - intros d. exists []. now rewrite app_nil_r.
  - intros d1 d2 d3 [e1 E1] [e2 E2]. exists (e1 ++ e2)%list.
    now rewrite E2, E1, app_assoc.
  - unfold insert_screenshot. intros i f k sz m u d row d'.
    destruct (taken i k d); [discriminate|]. intros [= <- <-].
    exists []. now rewrite app_nil_r.
  - intros. exists []. now rewrite app_nil_r.
  - unfold insert_analysisResult. intros sid ty data cr d d'.
    destruct (has_screenshot sid d); [|discriminate]. intros [= <-].
    eexists. reflexivity.
  - unfold insert_category. intros n cr d row d'.
    destruct (existsb _ _); [discriminate|]. intros [= <- <-].
    exists []. now rewrite app_nil_r.
  - unfold insert_screenshotCategory. intros sid cid c d d'.
    destruct (_ && _); [|discriminate]. intros [= <-].
    exists []. now rewrite app_nil_r.
  - intros. exists []. now rewrite app_nil_r.
Qed.

(** X12.  The analysis history is append-only under uploads, reanalyses
    and tool calls: after any such request, for every input and however it
    ends, the history table is the table before with rows appended; no earlier
    row is updated, removed or reordered. *)
Theorem history_is_append_only (a : Ambient Multi.Analysis) :
  (forall req, always history_grows (Multi.upload a req))
  /\ (forall id, always history_grows (Multi.reanalyze a id))
  /\ (forall imageData filename,
        always history_grows
               (Multi.analyze_screenshot_tool a imageData filename)).
Proof.
  pose proof (@history_respected Multi.Analysis) as HR.
  split; [|split]; intros.
  - apply (respect_upload _ HR).
  - apply (respect_reanalyze _ HR).
  - apply (respect_tool _ HR).
Qed.

Lemma handlers_keep_integrity_witness :
  integrity
    (w_db (snd (Multi.upload Sample.up (FormData (FormFile Sample.png))
                             Sample.empty_world))).
Proof.
  exact (proj1 (handlers_keep_integrity Sample.up)
           (FormData (FormFile Sample.png)) Sample.empty_world
           integrity_empty).
Defined.


(** ** Every catalog row has its blob *)

Lemma same_key_same_row (l : list Screenshot) (s s' : Screenshot) :
  NoDup (map s_r2Key l) -> In s l -> In s' l ->
  s_r2Key s = s_r2Key s' -> s = s'.
Proof.
  induction l as [|x l IH]; [intros _ []|].
  cbn. intros Hnd Hs Hs' Hk. apply NoDup_cons in Hnd as [Hx Hl].
  destruct Hs as [-> | Hs], Hs' as [-> | Hs']; auto.
  - exfalso. apply Hx. rewrite Hk. apply list_elem_of_In. now apply in_map.
  - exfalso. apply Hx. rewrite <- Hk. apply list_elem_of_In. now apply in_map.
Qed.

Lemma keys_after_analyzed {J} (a : Ambient J) row imp conf (d : DB J) :
  map s_r2Key (screenshots (analyzed_db a row imp conf d))
  = (map s_r2Key (screenshots d) ++ [s_r2Key row])%list.
Proof.
  unfold analyzed_db, update_screenshot, with_screenshots.
  cbn [screenshots].
  rewrite map_update_keeps by reflexivity. now rewrite map_app.
Qed.

Lemma stored_put_new (w : World Multi.Analysis) (d' : DB Multi.Analysis)
      key o tr :
  Multi.stored w ->
  map s_r2Key (screenshots d')
  = (map s_r2Key (screenshots (w_db w)) ++ [key])%list ->
  Multi.stored (Build_World d' (<[key := o]> (w_r2 w)) tr).
Proof.
  intros Hst Hkeys s Hin. cbn [w_db w_r2] in *.
  apply (in_map s_r2Key) in Hin. rewrite Hkeys in Hin.
  apply in_app_iff in Hin as [Hin | [<- | []]].
  - apply in_map_iff in Hin as (s0 & E & Hin0). rewrite <- E.
    rewrite lookup_insert. destruct (decide _); [eauto|]. now apply Hst.
  - rewrite lookup_insert_eq. eauto.
Qed.

Lemma stored_put_only (w : World Multi.Analysis) key o tr :
  Multi.stored w ->
  Multi.stored (Build_World (w_db w) (<[key := o]> (w_r2 w)) tr).
Proof.
  intros Hst s Hin. cbn [w_db w_r2] in *.
  rewrite lookup_insert. destruct (decide _); [eauto|]. now apply Hst.
Qed.

Lemma stored_upload a req (w : World Multi.Analysis) :
  Multi.stored w -> Multi.stored (snd (Multi.upload a req w)).
Proof.
  intros Hst. destruct req as [|[| s | file]]; try exact Hst.
  destruct (Js.startsWith (f_type file) "image/") eqn:Himg.
  - destruct (taken (id_uuid a) (generateR2Key a (f_name file)) (w_db w))
      eqn:Ht.
    + rewrite (multi_upload_taken _ _ _ Himg Ht). cbn [snd].
      now apply stored_put_only.
    + rewrite (multi_upload_run _ _ _ Himg Ht). cbn [snd].
      apply stored_put_new; [exact Hst|].
      unfold Multi.upload_db. cbv zeta.
      match goal with
      | |- context [after_links ?t ?i ?c ?n ?D] =>
          destruct (after_links_frame t i c n D) as [-> _]
      end.
      unfold recorded_db, append_analysisResult. cbn [screenshots].
      now rewrite keys_after_analyzed.
  - unfold Multi.upload, try_catch, bind at 1. cbn. rewrite Himg. exact Hst.
Qed.

Lemma multi_tool_taken a imageData filename buffer (w : World Multi.Analysis) :
  atob a imageData = Normal buffer ->
  taken (id_uuid a) (generateR2Key a filename) (w_db w) = true ->
  Multi.analyze_screenshot_tool a imageData filename w =
    (Normal (ToolError
               "Analysis failed: UNIQUE constraint failed: screenshots"),
     Build_World (w_db w)
       (<[generateR2Key a filename := Multi.tool_object buffer]> (w_r2 w))
       (w_trace w ++ [ R2Put (generateR2Key a filename);
                       InsertScreenshot (id_uuid a)
                                        (generateR2Key a filename) ])).
Proof.
  intros Hbuf Ht.
  unfold Multi.analyze_screenshot_tool, try_catch, bind at 1, lift.
  rewrite Hbuf.
  unfold r2_put, db_insert_screenshot, insert_screenshot. run.
  rewrite Ht. unfold Multi.tool_object. now rewrite <- app_assoc.
Qed.

Lemma multi_tool_undecodable a imageData filename e
      (w : World Multi.Analysis) :
  atob a imageData = Thrown e ->
  Multi.analyze_screenshot_tool a imageData filename w
  = (Normal (ToolError ("Analysis failed: " ++ e)), w).
Proof.
  intros Hbuf.
  unfold Multi.analyze_screenshot_tool, try_catch, bind at 1, lift.
  rewrite Hbuf. reflexivity.
Qed.

Lemma stored_tool a imageData filename (w : World Multi.Analysis) :
  Multi.stored w ->
  Multi.stored (snd (Multi.analyze_screenshot_tool a imageData filename w)).
Proof.
  intros Hst. destruct (atob a imageData) as [buffer|e] eqn:Hbuf.
  - destruct (taken (id_uuid a) (generateR2Key a filename) (w_db w)) eqn:Ht.
    + rewrite (multi_tool_taken _ _ _ _ _ Hbuf Ht). cbn [snd].
      now apply stored_put_only.
    + rewrite (tool_run _ _ _ _ _ Hbuf Ht). cbn [snd].
      apply stored_put_new; [exact Hst|].
      unfold Multi.tool_db. cbv zeta. now rewrite keys_after_analyzed.
  - now rewrite (multi_tool_undecodable _ _ _ _ _ Hbuf).
Qed.

Lemma stored_reanalyze a id (w : World Multi.Analysis) :
  Multi.stored w -> Multi.stored (snd (Multi.reanalyze a id w)).
Proof.
  intros Hst. destruct (select_screenshot id (w_db w)) as [s|] eqn:Hs.
  - destruct (w_r2 w !! s_r2Key s) as [o|] eqn:Ho.
    + rewrite (multi_reanalyze_run a id s o w Hs Ho). cbn [snd].
      intros s' Hin. cbn [w_db w_r2] in *.
      destruct (reanalyzed_db_frame a id (o_body o) (w_db w)) as [Hsc _].
      rewrite Hsc in Hin. apply (in_map s_r2Key) in Hin.
      unfold update_screenshot, with_screenshots in Hin.
      cbn [screenshots] in Hin.
      rewrite map_update_keeps in Hin by reflexivity.
      apply in_map_iff in Hin as (s0 & E & Hin0). rewrite <- E.
      now apply Hst.
    + now rewrite (multi_reanalyze_no_blob a id s w Hs Ho).
  - now rewrite (multi_reanalyze_no_row a id w Hs).
Qed.

(** Removing one row with its blob, where keys are unique. *)
Lemma stored_cleanup_step (w : World Multi.Analysis) (s : Screenshot) :
  NoDup (map s_r2Key (screenshots (w_db w))) ->
  In s (screenshots (w_db w)) ->
  Multi.stored w -> Multi.stored (Multi.cleanup_step w s).
Proof.
  intros Hnd Hs Hst s' Hin. unfold Multi.cleanup_step in *.
  cbn [w_db w_r2 delete_screenshot screenshots] in *.
  apply List.filter_In in Hin as [Hin Hne].
  apply negb_true_iff, String.eqb_neq in Hne.
  rewrite lookup_delete_ne; [now apply Hst|].
  intros Hk. apply Hne.
  now rewrite (same_key_same_row _ _ _ Hnd Hs Hin Hk).
Qed.

Lemma stored_delete_handler id (w : World Multi.Analysis) :
  integrity (w_db w) ->
  Multi.stored w -> Multi.stored (snd (Multi.delete_handler id w)).
Proof.
  intros (_ & Hkeys & _) Hst. rewrite delete_handler_run.
  destruct (select_screenshot id (w_db w)) as [s|] eqn:Hs; [|exact Hst].
  cbn [snd]. pose proof (select_screenshot_id _ _ _ Hs) as Hid.
  unfold select_screenshot in Hs. apply List.find_some in Hs as [Hin _].
  pose proof (stored_cleanup_step w s Hkeys Hin Hst) as H.
  unfold Multi.cleanup_step in H. rewrite Hid in H.
  intros s' Hs'. exact (H s' Hs').
Qed.

Lemma stored_cleanup_fold (l : list Screenshot) :
  forall w : World Multi.Analysis,
    NoDup (map s_id l) ->
    (forall s, In s l -> In s (screenshots (w_db w))) ->
    NoDup (map s_r2Key (screenshots (w_db w))) ->
    Multi.stored w -> Multi.stored (fold_left Multi.cleanup_step l w).
Proof.
  induction l as [|x l IH]; intros w Hids Hin Hkeys Hst; cbn [fold_left];
    [exact Hst|].
  cbn in Hids. apply NoDup_cons in Hids as [Hx Hl].
  apply IH.
  - exact Hl.
  - intros s Hs. unfold Multi.cleanup_step, delete_screenshot.
    cbn [w_db screenshots]. apply List.filter_In. split.
    + apply Hin. now right.
    + apply negb_true_iff, String.eqb_neq. intros E. apply Hx.
      rewrite <- E. apply list_elem_of_In. now apply in_map.
  - unfold Multi.cleanup_step, delete_screenshot. cbn [w_db screenshots].
    now apply NoDup_map_filter.
  - apply stored_cleanup_step; [exact Hkeys | | exact Hst].
    apply Hin. now left.
Qed.

Lemma stored_cleanup_clutter dryRun threshold (w : World Multi.Analysis) :
  integrity (w_db w) ->
  Multi.stored w ->
  Multi.stored (snd (Multi.cleanup_clutter dryRun threshold w)).
Proof.
  intros (Hids & Hkeys & _) Hst.
  unfold Multi.cleanup_clutter. cbv zeta.
  unfold try_catch, bind at 1, read_db.
  destruct (default true dryRun); [exact Hst|].
  unfold bind at 1. rewrite cleanup_loop_run. cbn [snd].
  apply stored_cleanup_fold; try assumption.
  - unfold Multi.select_clutter. now apply NoDup_map_filter.
  - intros s Hs. unfold Multi.select_clutter in Hs.
    now apply List.filter_In in Hs as [Hs _].
Qed.

(** X13.  In a store that meets its schema, no request through
    [src/index.ts] leaves a catalog row without its blob: if every row's key
    holds an object before an upload, a tool call, a reanalysis, a deletion or
    a cleanup, every remaining row's key holds one after it, for every input
    and however the request ends.  Fetching an existing row then never
    answers "File not found in storage". *)
Theorem rows_keep_their_blobs (a : Ambient Multi.Analysis)
        (w : World Multi.Analysis) :
  integrity (w_db w) ->
  Multi.stored w ->
  (forall req, Multi.stored (snd (Multi.upload a req w)))
  /\ (forall imageData filename,
        Multi.stored
          (snd (Multi.analyze_screenshot_tool a imageData filename w)))
  /\ (forall id, Multi.stored (snd (Multi.reanalyze a id w)))
  /\ (forall id, Multi.stored (snd (Multi.delete_handler id w)))
  /\ (forall dryRun threshold,
        Multi.stored (snd (Multi.cleanup_clutter dryRun threshold w)))
  /\ (forall id s, select_screenshot id (w_db w) = Some s ->
        exists o,
          w_r2 w !! s_r2Key s = Some o
          /\ Multi.get_screenshot id w
             = (Normal (Multi.File200 (o_body o) (o_contentType o)
                                      (o_cacheControl o)), w)).
Proof.
  intros Hint Hst.
  split; [intros; now apply stored_upload|].
  split; [intros; now apply stored_tool|].
  split; [intros; now apply stored_reanalyze|].
  split; [intros; now apply stored_delete_handler|].
  split; [intros; now apply stored_cleanup_clutter|].
  intros id s Hs. pose proof Hs as Hs'.
  unfold select_screenshot in Hs'. apply List.find_some in Hs' as [Hin _].
  destruct (Hst s Hin) as [o Ho]. exists o. split; [exact Ho|].
  now rewrite get_screenshot_run, Hs, Ho.
Qed.

Lemma rows_keep_their_blobs_witness :
  Multi.stored
    (snd (Multi.upload Sample.up (FormData (FormFile Sample.png))
                       Sample.empty_world)).
Proof.
  refine (proj1 (rows_keep_their_blobs Sample.up Sample.empty_world
                   integrity_empty _) (FormData (FormFile Sample.png))).
  intros s [].
Defined.


(** ** Categories and their counts *)

Section Counts.
Context {J : Type}.
Implicit Types (d : DB J).

Lemma groups_by_all {A} (key : A -> Z) (rows : list A) : forall seen,
  NoDup (map key rows) ->
  (forall r, In r rows -> ~ In (key r) seen) ->
  groups_by key seen rows = rows.
Proof.
  induction rows as [|r rows IH]; intros seen Hnd Hseen; cbn; [reflexivity|].
  cbn in Hnd. apply NoDup_cons in Hnd as [Hr Hrows].
  destruct (existsb (Z.eqb (key r)) seen) eqn:E.
  - exfalso. apply existsb_exists in E as (k & Hk & Ek).
    apply Z.eqb_eq in Ek. subst k. apply (Hseen r); [now left | exact Hk].
  - f_equal. apply IH; [exact Hrows|].
    intros r' Hr' [E'|Hin].
    + apply Hr. rewrite E'. apply list_elem_of_In. now apply in_map.
    + apply (Hseen r'); [now right | exact Hin].
Qed.

Lemma group_count_unique d (c : Category) :
  NoDup (map c_id (categories d)) -> In c (categories d) ->
  group_count (c_id c) d = links_to c d.
Proof.
  intros Hnd Hin. unfold group_count, links_to.
  rewrite (filter_by_id_unique _ _ Hnd Hin). cbn. now rewrite app_nil_r.
Qed.

Lemma categories_with_counts_unique d :
  NoDup (map c_id (categories d)) ->
  categories_with_counts d = map (fun c => (c, links_to c d)) (categories d).
Proof.
  intros Hnd. unfold categories_with_counts.
  rewrite groups_by_all; [|exact Hnd | intros r _ []].
  apply map_ext_in. intros c Hc. f_equal. now apply group_count_unique.
Qed.

(** Each link row is counted once, by the one category it references. *)
Lemma counts_add_up (cats : list Category) (links : list ScreenshotCategory) :
  NoDup (map c_id cats) ->
  Forall (fun l => In (sc_categoryId l) (map c_id cats)) links ->
  fold_right Nat.add 0%nat
    (map (fun c =>
            List.length (List.filter (fun l => c_id c =? sc_categoryId l)
                                     links)) cats)
  = List.length links.
Proof.
  intros Hnd. induction 1 as [|l links Hl Hls IH]; cbn [List.filter].
  - induction cats as [|c cats IHc]; cbn; [reflexivity|].
    apply IHc. cbn in Hnd. now apply NoDup_cons in Hnd as [_ ?].
  - cbn [List.length]. rewrite <- IH. clear IH Hls.
    induction cats as [|c cats IHc]; [destruct Hl|].
    cbn in Hnd. apply NoDup_cons in Hnd as [Hc Hcats].
    cbn [map fold_right]. destruct Hl as [E | Hin].
    + rewrite E, Z.eqb_refl. cbn [List.length].
      assert (Hrest : forall cs,
                 ~ In (sc_categoryId l) (map c_id cs) ->
                 fold_right Nat.add 0%nat
                   (map (fun c0 =>
                           List.length
                             (if c_id c0 =? sc_categoryId l
                              then l :: List.filter
                                          (fun l0 => c_id c0 =? sc_categoryId l0)
                                          links
                              else List.filter
                                     (fun l0 => c_id c0 =? sc_categoryId l0)
                                     links)) cs)
                 = fold_right Nat.add 0%nat
                     (map (fun c0 =>
                             List.length
                               (List.filter
                                  (fun l0 => c_id c0 =? sc_categoryId l0)
                                  links)) cs)).
      { induction cs as [|c0 cs IHcs]; cbn; [reflexivity|]. intros Hn.
        destruct (c_id c0 =? sc_categoryId l) eqn:E0.
        - exfalso. apply Hn. left. now apply Z.eqb_eq.
        - rewrite IHcs; [reflexivity|]. intros H. apply Hn. now right. }
      rewrite Hrest; [lia|]. intros Hin. apply Hc. rewrite E.
      now apply list_elem_of_In.
    + destruct (c_id c =? sc_categoryId l) eqn:E.
      * exfalso. apply Hc. apply Z.eqb_eq in E. rewrite E.
        now apply list_elem_of_In.
      * rewrite (IHc Hcats Hin). lia.
Qed.

End Counts.

Lemma insert_desc_length {A} (key : A -> Z) x (l : list A) :
  List.length (Multi.insert_desc key x l) = S (List.length l).
Proof.
  induction l as [|y l IH]; cbn; [reflexivity|].
  destruct (key y <=? key x); cbn; [reflexivity | now rewrite IH].
Qed.

Lemma orderBy_desc_length {A} (key : A -> Z) (l : list A) :
  List.length (Multi.orderBy_desc key l) = List.length l.
Proof.
  unfold Multi.orderBy_desc. induction l as [|x l IH]; cbn; [reflexivity|].
  now rewrite insert_desc_length, IH.
Qed.

Lemma list_categories_run (w : World Multi.Analysis) :
  Multi.list_categories w
  = (Normal (Json 200
               (map Multi.category_count (categories_with_counts (w_db w)))),
     w).
Proof. reflexivity. Qed.

(** X14.  [GET /categories] on a catalog that satisfies the schema's
    constraints: the answer has one entry per category row, in table order,
    each with its columns and the number of link rows that reference it
    (0 for a category no screenshot has); the counts add up to the number of
    link rows; and nothing is written. *)
Theorem categories_listing_counts (w : World Multi.Analysis) :
  integrity (w_db w) ->
  exists body,
    Multi.list_categories w = (Normal (Json 200 body), w)
    /\ body
       = map (fun c =>
                {| Multi.cc_id := c_id c; Multi.cc_name := c_name c;
                   Multi.cc_description := c_description c;
                   Multi.cc_createdAt := c_createdAt c;
                   Multi.cc_screenshotCount := links_to c (w_db w) |})
             (categories (w_db w))
    /\ fold_right Nat.add 0%nat (map Multi.cc_screenshotCount body)
       = List.length (screenshotCategories (w_db w)).
Proof.
  intros (_ & _ & Hc & _ & _ & Hl & _).
  eexists. split; [apply list_categories_run|].
  rewrite (categories_with_counts_unique _ Hc), map_map.
  split; [reflexivity|].
  rewrite map_map. cbn [Multi.category_count Multi.cc_screenshotCount snd].
  unfold links_to. apply counts_add_up; [exact Hc|].
  eapply List.Forall_impl; [|exact Hl]. cbv beta. intros l [_ H].
  unfold has_category in H. apply existsb_exists in H as (c & Hin & E).
  apply Z.eqb_eq in E. rewrite <- E. now apply in_map.
Qed.

Lemma categories_listing_counts_witness :
  exists body,
    Multi.list_categories
      (snd (Multi.upload Sample.up (FormData (FormFile Sample.png))
                         Sample.empty_world))
    = (Normal (Json 200 body),
       snd (Multi.upload Sample.up (FormData (FormFile Sample.png))
                         Sample.empty_world))
    /\ map Multi.cc_screenshotCount body = [1%nat; 1%nat].
Proof.
  destruct (categories_listing_counts
              (snd (Multi.upload Sample.up (FormData (FormFile Sample.png))
                                 Sample.empty_world)))
    as (body & H1 & H2 & _).
  - exact (respect_upload _ integrity_respected Sample.up _
                           Sample.empty_world integrity_empty).
  - exists body. split; [exact H1|]. rewrite H2. reflexivity.
Defined.


(** ** The statistics tool *)

Lemma round_MiB_near (x : Z) :
  x - 524288 < 1048576 * Js.round_MiB x <= x + 524288.
Proof.
  unfold Js.round_MiB.
  pose proof (Z.div_mod (x + 524288) 1048576 ltac:(lia)) as E.
  pose proof (Z.mod_pos_bound (x + 524288) 1048576 ltac:(lia)) as B.
  lia.
Qed.

Lemma StronglySorted_map {A B} (f : A -> B) (R : A -> A -> Prop)
      (R' : B -> B -> Prop) (l : list A) :
  (forall a b, R a b -> R' (f a) (f b)) ->
  StronglySorted R l -> StronglySorted R' (map f l).
Proof.
  intros HR. induction 1 as [|x l Hl IH Hx]; cbn; constructor; [exact IH|].
  apply List.Forall_forall. intros y Hy.
  apply in_map_iff in Hy as (z & <- & Hz).
  rewrite List.Forall_forall in Hx. now apply HR, Hx.
Qed.

Lemma get_screenshot_stats_run (w : World Multi.Analysis) :
  Multi.get_screenshot_stats w
  = (Normal (ToolContent (Multi.stats_of (w_db w))), w).
Proof. reflexivity. Qed.

(** X15.  [get_screenshot_stats] on a catalog whose file sizes are byte
    counts (none negative) with a total below 2^53, where the 64-bit sum
    cannot overflow and reaches JavaScript as an exact number: the tool
    writes nothing and answers with its figures.  The important screenshots
    are at most the total; an empty catalog gives 0, 0 and 0 MB (the NULL
    sum is read as 0); the megabytes are the byte total divided by 2^20 and
    rounded to the nearest integer, a half upwards, and are not negative;
    and the breakdown lists the categories by descending count. *)
Theorem stats_totals (w : World Multi.Analysis) :
  Forall (fun s => 0 <= s_fileSize s) (screenshots (w_db w)) ->
  fold_right Z.add 0 (map s_fileSize (screenshots (w_db w))) < 2 ^ 53 ->
  exists st,
    Multi.get_screenshot_stats w = (Normal (ToolContent st), w)
    /\ (Multi.st_important st <= Multi.st_total st)%nat
    /\ Multi.st_total st = List.length (screenshots (w_db w))
    /\ (screenshots (w_db w) = [] ->
        Multi.st_important st = 0%nat /\ Multi.st_megabytes st = 0)
    /\ (let bytes := fold_right Z.add 0 (map s_fileSize (screenshots (w_db w)))
        in bytes - 524288 < 1048576 * Multi.st_megabytes st <= bytes + 524288)
    /\ 0 <= Multi.st_megabytes st
    /\ StronglySorted (fun x y => (snd y <= snd x)%nat)
                      (Multi.st_categories st).
Proof.
  intros Hsizes Hbound.
  assert (Hnonneg : 0 <= fold_right Z.add 0
                           (map s_fileSize (screenshots (w_db w)))).
  { clear Hbound. induction Hsizes as [|s rows Hs _ IH]; cbn; lia. }
  assert (Hmb : forall x, 0 <= x -> 0 <= Js.round_MiB x).
  { intros x Hx. pose proof (round_MiB_near x). lia. }
  exists (Multi.stats_of (w_db w)).
  split; [apply get_screenshot_stats_run|].
  unfold Multi.stats_of.
  cbn [Multi.st_important Multi.st_total Multi.st_megabytes
       Multi.st_categories].
  split; [apply List.filter_length_le|]. split; [reflexivity|].
  split; [|split; [|split]].
  - unfold Multi.sum_fileSize. intros ->. split; reflexivity.
  - cbv zeta. unfold Multi.sum_fileSize.
    destruct (screenshots (w_db w)) as [|s rows] eqn:E.
    + cbn [default map fold_right]. apply round_MiB_near.
    + cbn [default]. apply round_MiB_near.
  - unfold Multi.sum_fileSize.
    destruct (screenshots (w_db w)) as [|s rows] eqn:E.
    + cbn [default]. now apply Hmb.
    + cbn [default]. now apply Hmb.
  - eapply StronglySorted_map; [|apply orderBy_desc_sorted].
    cbn. intros a b H. lia.
Qed.

Lemma stats_totals_witness :
  exists st,
    Multi.get_screenshot_stats Sample.shelf
    = (Normal (ToolContent st), Sample.shelf)
    /\ Multi.st_total st = 4%nat
    /\ Multi.st_important st = 1%nat
    /\ Multi.st_megabytes st = 0.
Proof.
  destruct (stats_totals Sample.shelf) as (st & Hrun & _).
  - repeat constructor; discriminate.
  - reflexivity.
  - exists st. split; [exact Hrun|].
    injection Hrun as <-. repeat split.
Defined.

(** X16.  On a catalog that satisfies the schema's constraints the breakdown
    of [get_screenshot_stats] has exactly one line per category row: a name
    and a count are listed together if and only if a category row has that
    name and that many link rows reference it. *)
Theorem stats_breakdown (w : World Multi.Analysis) :
  integrity (w_db w) ->
  exists st,
    Multi.get_screenshot_stats w = (Normal (ToolContent st), w)
    /\ List.length (Multi.st_categories st)
       = List.length (categories (w_db w))
    /\ (forall name count,
          In (name, count) (Multi.st_categories st)
          <-> exists c, In c (categories (w_db w))
                        /\ c_name c = name /\ links_to c (w_db w) = count).
Proof.
  intros (_ & _ & Hc & _).
  exists (Multi.stats_of (w_db w)).
  split; [apply get_screenshot_stats_run|].
  unfold Multi.stats_of. cbn [Multi.st_categories].
  rewrite (categories_with_counts_unique _ Hc).
  split.
  - now rewrite length_map, orderBy_desc_length, length_map.
  - intros name count. rewrite in_map_iff. split.
    + intros ([c k] & [= <- <-] & Hin).
      apply in_orderBy_desc, in_map_iff in Hin as (c' & [= <- <-] & Hin).
      now exists c'.
    + intros (c & Hin & <- & <-). exists (c, links_to c (w_db w)).
      split; [reflexivity|]. apply in_orderBy_desc, in_map_iff.
      now exists c.
Qed.

Lemma stats_breakdown_witness :
  exists st,
    Multi.get_screenshot_stats
      (snd (Multi.upload Sample.up (FormData (FormFile Sample.png))
                         Sample.empty_world))
    = (Normal (ToolContent st),
       snd (Multi.upload Sample.up (FormData (FormFile Sample.png))
                         Sample.empty_world))
    /\ List.length (Multi.st_categories st) = 2%nat.
Proof.
  destruct (stats_breakdown
              (snd (Multi.upload Sample.up (FormData (FormFile Sample.png))
                                 Sample.empty_world)))
    as (st & H1 & H2 & _).
  - exact (respect_upload _ integrity_respected Sample.up _
                           Sample.empty_world integrity_empty).
  - exists st. split; [exact H1|]. rewrite H2. reflexivity.
Defined.


(** ** Searching and paging *)

(** X17.  The [search_screenshots] tool finds exactly the rows that
    [GET /screenshots] lists for the same category and importance filter
    with no date bounds and offset 0, in the same order; without a [limit]
    the tool stops at 10 rows where the endpoint's default is 50.  Neither
    writes. *)
Theorem search_is_the_listing (category : option string)
        (importantOnly : option bool) (limit : option Z)
        (w : World Multi.Analysis) :
  exists rows,
    Multi.search_screenshots category importantOnly limit w
    = (Normal (ToolContent (List.length rows, rows)), w)
    /\ Multi.list_screenshots
         {| Multi.q_category := category;
            Multi.q_important_only :=
              if default false importantOnly then Some "true" else None;
            Multi.q_limit := Some (default 10 limit);
            Multi.q_offset := None;
            Multi.q_date_from := None;
            Multi.q_date_to := None |} w
       = (Normal (Json 200
                    {| Multi.lb_screenshots := map Multi.summary rows;
                       Multi.lb_limit := default 10 limit;
                       Multi.lb_offset := 0 |}), w).
Proof.
  exists (Multi.search_rows category (default false importantOnly)
                            (default 10 limit) (w_db w)).
  split; [reflexivity|].
  unfold Multi.list_screenshots, Multi.accepted_page.
  cbn [Multi.q_limit Multi.q_offset default].
  rewrite Z.eqb_refl, orb_true_r.
  unfold try_catch, bind, read_db, ret.
  repeat f_equal.
  unfold Multi.list_rows, Multi.search_rows, Multi.conditions_of.
  cbn [Multi.q_category Multi.q_important_only Multi.q_limit Multi.q_offset
       Multi.q_date_from Multi.q_date_to default].
  destruct (default false importantOnly); reflexivity.
Qed.

Lemma firstn_plus {A} (m : list A) : forall a b,
  firstn (a + b) m = (firstn a m ++ firstn b (skipn a m))%list.
Proof.
  induction m as [|x m IH]; intros a b.
  - now rewrite skipn_nil, !firstn_nil.
  - destruct a as [|a]; cbn; [reflexivity|]. now rewrite IH.
Qed.

Lemma skipn_plus {A} (m : list A) : forall a b,
  skipn (a + b) m = skipn b (skipn a m).
Proof.
  induction m as [|x m IH]; intros a b.
  - now rewrite !skipn_nil.
  - destruct a as [|a]; cbn; [reflexivity|]. apply IH.
Qed.

Lemma pages_concat {A} (m : list A) (size : nat) : forall n,
  List.concat (map (fun k => firstn size (skipn (k * size) m)) (seq 0 n))
  = firstn (n * size) m.
Proof.
  induction n as [|n IH]; [reflexivity|].
  rewrite seq_S, map_app, concat_app, IH. cbn [map List.concat Nat.add].
  rewrite app_nil_r.
  replace (S n * size)%nat with (n * size + size)%nat by lia.
  now rewrite firstn_plus.
Qed.

(** The rows of a page are a window on the rows of the query without a limit
    (a negative limit) or an offset. *)
Lemma list_rows_window (q : Multi.ListQuery) (limit offset : Z)
      (d : DB Multi.Analysis) :
  Multi.list_rows (Multi.page q limit offset) d
  = Multi.limit_offset limit offset
      (Multi.list_rows (Multi.page q (-1) 0) d).
Proof.
  unfold Multi.list_rows, Multi.page, Multi.conditions_of.
  cbn [Multi.q_category Multi.q_important_only Multi.q_limit Multi.q_offset
       Multi.q_date_from Multi.q_date_to default].
  destruct (Js.truthy (Multi.q_category q)); [reflexivity|].
  match goal with |- context [0 <? ?x] => destruct (0 <? x) end; reflexivity.
Qed.

(** X18.  Paging through [GET /screenshots] with a limit [size >= 0] and the
    offsets 0, [size], 2 [size], ... gives windows that tile the result: the
    first [n] pages, one after the other, are the single page of limit
    [n * size] at offset 0, so no row is skipped or repeated between pages;
    and no page has more than [size] rows. *)
Theorem pages_tile (q : Multi.ListQuery) (d : DB Multi.Analysis)
        (size : Z) (n : nat) :
  0 <= size ->
  List.concat
    (map (fun k => Multi.list_rows (Multi.page q size (Z.of_nat k * size)) d)
         (seq 0 n))
  = Multi.list_rows (Multi.page q (Z.of_nat n * size) 0) d
  /\ (forall offset,
        Z.of_nat (List.length (Multi.list_rows (Multi.page q size offset) d))
        <= size).
Proof.
  intros Hs. split.
  - rewrite (list_rows_window q (Z.of_nat n * size) 0).
    unfold Multi.limit_offset at 1.
    replace (Z.of_nat n * size <? 0) with false
      by (symmetry; apply Z.ltb_ge; nia).
    cbn [Z.to_nat skipn].
    rewrite Z2Nat.inj_mul, Nat2Z.id by lia.
    rewrite <- pages_concat. f_equal. apply map_ext. intros k.
    rewrite list_rows_window. unfold Multi.limit_offset.
    replace (size <? 0) with false by (symmetry; apply Z.ltb_ge; lia).
    now rewrite Z2Nat.inj_mul, Nat2Z.id by lia.
  - intros offset. rewrite list_rows_window. unfold Multi.limit_offset.
    replace (size <? 0) with false by (symmetry; apply Z.ltb_ge; lia).
    rewrite length_firstn. lia.
Qed.

Lemma pages_tile_witness :
  (Multi.list_rows (Multi.page Sample.unfiltered 1 0) (w_db Sample.shelf)
   ++ Multi.list_rows (Multi.page Sample.unfiltered 1 1)
                      (w_db Sample.shelf))%list
  = Multi.list_rows (Multi.page Sample.unfiltered 2 0) (w_db Sample.shelf).
Proof.
  pose proof (proj1 (pages_tile Sample.unfiltered (w_db Sample.shelf) 1 2
                                ltac:(lia))) as H.
  cbn [seq map List.concat] in H. rewrite app_nil_r in H. exact H.
Defined.


(** ** Cleanup, again and after an upload *)

Lemma cleanup_execute_run (t : Q) (w : World Multi.Analysis) :
  Multi.cleanup_clutter (Some false) (Some t) w
  = (Normal (ToolContent
               (Multi.Deleted
                  (List.length (Multi.select_clutter t (w_db w))))),
     fold_left Multi.cleanup_step (Multi.select_clutter t (w_db w)) w).
Proof.
  unfold Multi.cleanup_clutter. cbn [default id].
  unfold try_catch, bind at 1, read_db. unfold bind at 1.
  cbn [id]. now rewrite cleanup_loop_run.
Qed.

Lemma is_clutter_lower (t t' : Q) (s : Screenshot) :
  (t <= t')%Q -> Multi.is_clutter t' s = true -> Multi.is_clutter t s = true.
Proof.
  unfold Multi.is_clutter. intros Hle.
  destruct (s_isImportant s) as [[|]|]; cbn; try discriminate.
  destruct (s_confidenceScore s) as [c|]; [|discriminate].
  rewrite !Qle_bool_iff. intros H. now apply Qle_trans with t'.
Qed.

Lemma same_id_same_row (l : list Screenshot) (s s' : Screenshot) :
  NoDup (map s_id l) -> In s l -> In s' l -> s_id s = s_id s' -> s = s'.
Proof.
  induction l as [|x l IH]; [intros _ []|].
  cbn. intros Hnd Hs Hs' Hk. apply NoDup_cons in Hnd as [Hx Hl].
  destruct Hs as [-> | Hs], Hs' as [-> | Hs']; auto.
  - exfalso. apply Hx. rewrite Hk. apply list_elem_of_In. now apply in_map.
  - exfalso. apply Hx. rewrite <- Hk. apply list_elem_of_In. now apply in_map.
Qed.

Lemma filter_all_false {A} (p : A -> bool) (l : list A) :
  (forall x, In x l -> p x = false) -> List.filter p l = [].
Proof.
  induction l as [|x l IH]; cbn; [reflexivity|]. intros H.
  rewrite (H x) by now left. apply IH. intros y Hy. apply H. now right.
Qed.

Lemma candidate_id_found (t : Q) (s : Screenshot) (d : DB Multi.Analysis) :
  In s (screenshots d) -> Multi.is_clutter t s = true ->
  existsb (fun c => String.eqb (s_id s) (s_id c)) (Multi.select_clutter t d)
  = true.
Proof.
  intros Hin Hc. apply existsb_exists. exists s. split.
  - unfold Multi.select_clutter. now apply List.filter_In.
  - apply String.eqb_refl.
Qed.

(** X19.  An executed [cleanup_clutter] leaves no candidate behind: after it
    the candidate query is empty at the same and at every higher threshold,
    and a second run deletes nothing and changes nothing.  Every row that
    remains was there before and was no candidate; where ids are unique the
    remaining rows are exactly the rows that were no candidates, so an
    important row or a row without a confidence is never removed. *)
Theorem cleanup_leaves_no_candidate (t : Q) (w : World Multi.Analysis) :
  let w' := snd (Multi.cleanup_clutter (Some false) (Some t) w) in
  (forall t', (t <= t')%Q -> Multi.select_clutter t' (w_db w') = [])
  /\ Multi.cleanup_clutter (Some false) (Some t) w'
     = (Normal (ToolContent (Multi.Deleted 0)), w')
  /\ (forall s, In s (screenshots (w_db w')) ->
        In s (screenshots (w_db w)) /\ Multi.is_clutter t s = false)
  /\ (NoDup (map s_id (screenshots (w_db w))) ->
      screenshots (w_db w')
      = List.filter (fun s => negb (Multi.is_clutter t s))
                    (screenshots (w_db w))).
Proof.
  cbv zeta. rewrite cleanup_execute_run. cbn [snd].
  set (w' := fold_left Multi.cleanup_step _ w).
  destruct (cleanup_fold_rest (Multi.select_clutter t (w_db w)) w)
    as [Hrows _]. fold w' in Hrows.
  assert (Hnone : forall t', (t <= t')%Q ->
                    Multi.select_clutter t' (w_db w') = []).
  { intros t' Hle. unfold Multi.select_clutter at 1. rewrite Hrows.
    apply filter_all_false. intros s Hs.
    apply List.filter_In in Hs as [Hs Hn].
    apply negb_true_iff in Hn.
    destruct (Multi.is_clutter t' s) eqn:Hc; [|reflexivity].
    rewrite candidate_id_found in Hn; [discriminate | exact Hs|].
    now apply is_clutter_lower with t'. }
  split; [exact Hnone|]. split; [|split].
  - rewrite cleanup_execute_run.
    rewrite (Hnone t (Qle_refl t)). reflexivity.
  - intros s Hs. rewrite Hrows in Hs.
    apply List.filter_In in Hs as [Hs Hn]. split; [exact Hs|].
    apply negb_true_iff in Hn.
    destruct (Multi.is_clutter t s) eqn:E; [|reflexivity].
    now rewrite candidate_id_found in Hn.
  - intros Hnd. rewrite Hrows. apply List.filter_ext_in. intros s Hs.
    f_equal. destruct (Multi.is_clutter t s) eqn:E.
    + now apply candidate_id_found.
    + destruct (existsb _ _) eqn:Ex; [|reflexivity].
      apply existsb_exists in Ex as (c & Hc & Eid).
      apply String.eqb_eq in Eid.
      unfold Multi.select_clutter in Hc.
      apply List.filter_In in Hc as [Hc1 Hc2].
      rewrite (same_id_same_row _ s c Hnd Hs Hc1 Eid) in E. congruence.
Qed.

Lemma cleanup_leaves_no_candidate_witness :
  map s_id
      (screenshots
         (w_db (snd (Multi.cleanup_clutter (Some false) (Some (8 # 10))
                                           Sample.shelf))))
  = ["s-79"; "s-imp"]
  /\ Multi.select_clutter (9 # 10)
       (w_db (snd (Multi.cleanup_clutter (Some false) (Some (8 # 10))
                                         Sample.shelf))) = [].
Proof.
  destruct (cleanup_leaves_no_candidate (8 # 10) Sample.shelf)
    as (H1 & _ & _ & H4).
  split.
  - rewrite H4; [reflexivity|].
    apply (bool_decide_unpack _). vm_compute. exact I.
  - apply H1. unfold Qle. cbn. lia.
Defined.






(** ** The single-label [analyze_screenshot] tool *)

Lemma single_tool_run a imageData filename buffer
      (w : World Single.Analysis) :
  atob a imageData = Normal buffer ->
  taken (id_uuid a) (generateR2Key a filename) (w_db w) = false ->
  Single.analyze_screenshot_tool a imageData filename w =
    (Normal (ToolError
               "Analysis failed: Cannot read properties of undefined (reading 'join')"),
     Build_World
       (analyzed_db a
          (new_screenshot (id_uuid a) filename (generateR2Key a filename)
                          (Z.of_nat (List.length buffer)) "image/jpeg"
                          (Js.getSeconds (now a)))
          (Single.isImportant (Single.judgement a buffer))
          (Single.confidence (Single.judgement a buffer)) (w_db w))
       (<[generateR2Key a filename :=
            {| o_body := buffer; o_contentType := "image/jpeg";
               o_cacheControl := "max-age=86400";
               o_customMetadata := [] |}]> (w_r2 w))
       (w_trace w ++
          [ R2Put (generateR2Key a filename);
            InsertScreenshot (id_uuid a) (generateR2Key a filename);
            Classify;
            UpdateScreenshot (id_uuid a) ])).
Proof.
  intros Hbuf Hfresh.
  unfold Single.analyze_screenshot_tool, try_catch, bind at 1, lift.
  rewrite Hbuf.
  unfold r2_put, db_insert_screenshot, insert_screenshot. run.
  rewrite Hfresh.
  unfold bind. rewrite single_analyzeScreenshot_run.
  unfold db_update_screenshot, Single.join_value, Single.categories. run.
  unfold analyzed_db. cbn [s_id new_screenshot].
  repeat rewrite <- app_assoc. reflexivity.
Qed.

(** X21.  The [analyze_screenshot] tool of the single-label variant never
    reports success: its text reads [analysis.categories], which a
    single-label judgement does not have, so every call answers [isError].
    When the image decodes and the drawn id and key are free the failure
    comes late: the blob and the row, with its analysis fields set, are
    already stored and stay stored, with no history row and no link. *)
Theorem single_tool_never_succeeds (a : Ambient Single.Analysis)
        (imageData filename : string) (w : World Single.Analysis) :
  (exists message,
     fst (Single.analyze_screenshot_tool a imageData filename w)
     = Normal (ToolError message))
  /\ (forall buffer,
        atob a imageData = Normal buffer ->
        taken (id_uuid a) (generateR2Key a filename) (w_db w) = false ->
        let w' := snd (Single.analyze_screenshot_tool a imageData filename w) in
        fst (Single.analyze_screenshot_tool a imageData filename w)
        = Normal (ToolError
                    "Analysis failed: Cannot read properties of undefined (reading 'join')")
        /\ (exists o, w_r2 w' !! generateR2Key a filename = Some o
                      /\ o_body o = buffer)
        /\ (exists row,
              select_screenshot (id_uuid a) (w_db w') = Some row
              /\ s_r2Key row = generateR2Key a filename
              /\ s_analyzedAt row = Some (Js.getSeconds (now a)))
        /\ analysisResults (w_db w') = analysisResults (w_db w)
        /\ screenshotCategories (w_db w') = screenshotCategories (w_db w)).
Proof.
  split.
  - destruct (atob a imageData) as [buffer|e] eqn:Hbuf.
    + destruct (taken (id_uuid a) (generateR2Key a filename) (w_db w)) eqn:Ht.
      * eexists.
        unfold Single.analyze_screenshot_tool, try_catch, bind at 1, lift.
        rewrite Hbuf.
        unfold r2_put, db_insert_screenshot, insert_screenshot. run.
        rewrite Ht. reflexivity.
      * eexists. now rewrite (single_tool_run _ _ _ _ _ Hbuf Ht).
    + eexists.
      unfold Single.analyze_screenshot_tool, try_catch, bind at 1, lift.
      rewrite Hbuf. reflexivity.
  - intros buffer Hbuf Ht. cbv zeta.
    rewrite (single_tool_run _ _ _ _ _ Hbuf Ht). cbn [fst snd w_db w_r2].
    split; [reflexivity|]. split; [|split; [|split]].
    + eexists. split; [apply lookup_insert_eq | reflexivity].
    + eexists. split.
      * apply (select_in_analyzed_db a
                 (new_screenshot (id_uuid a) filename
                    (generateR2Key a filename)
                    (Z.of_nat (List.length buffer)) "image/jpeg"
                    (Js.getSeconds (now a)))).
        eapply taken_select_none. exact Ht.
      * split; reflexivity.
    + reflexivity.
    + reflexivity.
Qed.

Lemma single_tool_never_succeeds_witness :
  Single.analyze_screenshot_tool Sample.single_up "/9j/" "shot.jpg"
                                 Sample.empty_world
  = (Normal (ToolError
               "Analysis failed: Cannot read properties of undefined (reading 'join')"),
     snd (Single.analyze_screenshot_tool Sample.single_up "/9j/" "shot.jpg"
                                         Sample.empty_world))
  /\ List.length
       (screenshots
          (w_db (snd (Single.analyze_screenshot_tool
                        Sample.single_up "/9j/" "shot.jpg"
                        Sample.empty_world)))) = 1%nat.
Proof.
  destruct (proj2 (single_tool_never_succeeds Sample.single_up "/9j/"
                     "shot.jpg" Sample.empty_world)
                  _ eq_refl eq_refl) as (H & _).
  split; [|reflexivity].
  rewrite <- H. now destruct (Single.analyze_screenshot_tool _ _ _ _).
Defined.


(** ** The chunked conversion in front of the classifier *)

Section Chunks.
Variable chunkSize : nat.
Variable a : list Byte.byte.
Hypothesis positive : (0 < chunkSize)%nat.

Lemma append_nil_r (s : string) : (s ++ EmptyString)%string = s.
Proof.
  induction s as [|x s IH]; [reflexivity|]. now rewrite append_cons, IH.
Qed.

Lemma fromCharCode_app (x y : list Byte.byte) :
  Js.fromCharCode (x ++ y) = (Js.fromCharCode x ++ Js.fromCharCode y)%string.
Proof.
  induction x as [|b x IH]; [reflexivity|].
  cbn [app Js.fromCharCode]. now rewrite append_cons, IH.
Qed.

Lemma fromCharCode_length (x : list Byte.byte) :
  String.length (Js.fromCharCode x) = List.length x.
Proof. induction x as [|b x IH]; cbn; [reflexivity | now rewrite IH]. Qed.

Lemma slice_then_rest (i : nat) :
  (Js.slice a i (i + chunkSize) ++ skipn (i + chunkSize) a)%list = skipn i a.
Proof.
  unfold Js.slice. replace (i + chunkSize - i)%nat with chunkSize by lia.
  rewrite skipn_plus. apply firstn_skipn.
Qed.

Lemma slice_length (i : nat) :
  List.length (Js.slice a i (i + chunkSize))
  = Nat.min chunkSize (List.length a - i).
Proof.
  unfold Js.slice. replace (i + chunkSize - i)%nat with chunkSize by lia.
  now rewrite length_firstn, length_skipn.
Qed.

Lemma binaryString_from_rest : forall fuel i binaryString,
  (List.length a - i <= fuel)%nat ->
  Js.binaryString_from fuel chunkSize a i binaryString
  = Some (binaryString ++ Js.fromCharCode (skipn i a))%string.
Proof.
  induction fuel as [|fuel IH]; intros i acc Hfuel;
    cbn [Js.binaryString_from];
    destruct (i <? List.length a)%nat eqn:E.
  - apply Nat.ltb_lt in E. lia.
  - apply Nat.ltb_ge in E. rewrite skipn_all2 by exact E.
    cbn [Js.fromCharCode]. now rewrite append_nil_r.
  - apply Nat.ltb_lt in E. rewrite IH by lia.
    now rewrite append_assoc, <- fromCharCode_app, slice_then_rest.
  - apply Nat.ltb_ge in E. rewrite skipn_all2 by exact E.
    cbn [Js.fromCharCode]. now rewrite append_nil_r.
Qed.

Lemma chunk_sizes_rest : forall fuel i,
  (List.length a - i <= fuel)%nat ->
  Forall (fun n => (0 < n <= chunkSize)%nat)
         (Js.chunk_sizes fuel chunkSize a i)
  /\ fold_right Nat.add 0%nat (Js.chunk_sizes fuel chunkSize a i)
     = (List.length a - i)%nat.
Proof.
  induction fuel as [|fuel IH]; intros i Hfuel; cbn [Js.chunk_sizes];
    destruct (i <? List.length a)%nat eqn:E.
  - apply Nat.ltb_lt in E. lia.
  - apply Nat.ltb_ge in E. split; [constructor | cbn; lia].
  - apply Nat.ltb_lt in E.
    destruct (IH (i + chunkSize)%nat ltac:(lia)) as [H1 H2]. split.
    + constructor; [rewrite slice_length; lia | exact H1].
    + cbn [fold_right]. rewrite H2, slice_length. lia.
  - apply Nat.ltb_ge in E. split; [constructor | cbn; lia].
Qed.

End Chunks.

(** X22.  The loop that turns the image bytes into a binary string before
    [btoa], for any positive chunk size (8192 in the source): it ends within
    as many turns as there are bytes, its result is the bytes' characters in
    order, one per byte, whatever the chunk size; every chunk it spreads into
    [String.fromCharCode] is non-empty and no longer than the chunk size; and
    the chunks together are all the bytes. *)
Theorem chunked_conversion (chunkSize : nat) (a : list Byte.byte)
        (fuel : nat) :
  (0 < chunkSize)%nat -> (List.length a <= fuel)%nat ->
  Js.binaryString_from fuel chunkSize a 0 EmptyString
  = Some (Js.fromCharCode a)
  /\ String.length (Js.fromCharCode a) = List.length a
  /\ Forall (fun n => (0 < n <= chunkSize)%nat)
            (Js.chunk_sizes fuel chunkSize a 0)
  /\ fold_right Nat.add 0%nat (Js.chunk_sizes fuel chunkSize a 0)
     = List.length a.
Proof.
  intros Hpos Hfuel. split; [|split].
  - rewrite binaryString_from_rest by (try assumption; lia).
    cbn [skipn]. now rewrite append_nil_l.
  - apply fromCharCode_length.
  - destruct (chunk_sizes_rest chunkSize a Hpos fuel 0%nat ltac:(lia))
      as [H1 H2].
    split; [exact H1|]. rewrite H2. lia.
Qed.

Lemma chunked_conversion_witness :
  Js.binaryString_from 4 3 (f_content Sample.png) 0 EmptyString
  = Some (Js.fromCharCode (f_content Sample.png))
  /\ Js.chunk_sizes 4 3 (f_content Sample.png) 0 = [3%nat; 1%nat].
Proof.
  split; [|reflexivity].
  apply (chunked_conversion 3 (f_content Sample.png) 4); cbn; lia.
Defined.


(** ** The single-label handlers and the schema *)

Section RespectedSingle.
Context (Rd : DB Single.Analysis -> DB Single.Analysis -> Prop)
        (HR : respected Rd).

Lemma respect_single_analyzeScreenshot a img :
  always (on_store Rd) (Single.analyzeScreenshot a img).
Proof. unfold Single.analyzeScreenshot. respect HR. Qed.

Lemma respect_single_analyze a req :
  always (on_store Rd) (Single.analyze a req).
Proof.
  unfold Single.analyze. respect HR; apply respect_single_analyzeScreenshot.
Qed.

Lemma respect_single_upload a req :
  always (on_store Rd) (Single.upload a req).
Proof.
  unfold Single.upload. respect HR; apply respect_single_analyzeScreenshot.
Qed.

Lemma respect_single_reanalyze a id :
  always (on_store Rd) (Single.reanalyze a id).
Proof.
  unfold Single.reanalyze, Single.for_of_value.
  respect HR; apply respect_single_analyzeScreenshot.
Qed.

Lemma respect_single_tool a imageData filename :
  always (on_store Rd) (Single.analyze_screenshot_tool a imageData filename).
Proof.
  unfold Single.analyze_screenshot_tool, Single.join_value.
  respect HR; apply respect_single_analyzeScreenshot.
Qed.

End RespectedSingle.

Lemma keeps_schema_respected {J A} (m : M J A) :
  (forall Rd : DB J -> DB J -> Prop, respected Rd -> always (on_store Rd) m) ->
  always keeps_schema m.
Proof.
  intros H w. split; [|split].
  - apply (H _ integrity_respected).
  - apply (H _ categories_respected).
  - apply (H _ history_respected).
Qed.

(** X23.  The single-label handlers keep the catalog within its schema, also
    where they fail half-way (the reanalysis and the tool of this variant
    throw after their first writes): after an upload, an analysis without
    saving, a reanalysis or a tool call, for every input and however the
    request ends, primary keys, unique indexes and foreign keys still hold if
    they held before, the category table is the old one with rows appended,
    and so is the history. *)
Theorem single_handlers_keep_the_schema (a : Ambient Single.Analysis) :
  (forall req, always keeps_schema (Single.upload a req))
  /\ (forall req, always keeps_schema (Single.analyze a req))
  /\ (forall id, always keeps_schema (Single.reanalyze a id))
  /\ (forall imageData filename,
        always keeps_schema
               (Single.analyze_screenshot_tool a imageData filename)).
Proof.
  split; [|split; [|split]]; intros; apply keeps_schema_respected; intros.
  - now apply respect_single_upload.
  - now apply respect_single_analyze.
  - now apply respect_single_reanalyze.
  - now apply respect_single_tool.
Qed.

Lemma single_handlers_keep_the_schema_witness :
  integrity
    (w_db (snd (Single.reanalyze Sample.single_up "s-0001"
                                 Sample.after_one_upload)))
  /\ List.length
       (analysisResults
          (w_db (snd (Single.reanalyze Sample.single_up "s-0001"
                                       Sample.after_one_upload)))) = 2%nat.
Proof.
  split; [|reflexivity].
  apply (proj1 (proj1 (proj2 (proj2
           (single_handlers_keep_the_schema Sample.single_up)))
           "s-0001" Sample.after_one_upload)).
  apply (proj1 (proj1 (single_handlers_keep_the_schema Sample.single_up)
                      (FormData (FormFile Sample.png)) Sample.empty_world)).
  apply integrity_empty.
Defined.


(** ** The category listing shows a screenshot once per link *)

Section CategoryListing.
Variable d : DB Multi.Analysis.
Variable c : string.
Variable id : string.

Local Abbreviation rows_of x :=
  (flat_map
     (fun l =>
        map (fun c' => (x, l, c'))
            (List.filter (fun c' => c_id c' =? sc_categoryId l)
                         (Store.categories d)))
     (List.filter (fun l => String.eqb (s_id x) (sc_screenshotId l))
                  (screenshotCategories d))).

Local Abbreviation shown rows :=
  (Multi.occurrences id
     (map (fun r : Screenshot * ScreenshotCategory * Category => fst (fst r))
          (List.filter
             (fun r : Screenshot * ScreenshotCategory * Category =>
                String.eqb (c_name (snd r)) c) rows))).

Lemma occurrences_app (l1 l2 : list Screenshot) :
  Multi.occurrences id (l1 ++ l2)
  = (Multi.occurrences id l1 + Multi.occurrences id l2)%nat.
Proof.
  unfold Multi.occurrences. now rewrite List.filter_app, length_app.
Qed.

Lemma occurrences_insert_desc (key : Screenshot -> Z) x (l : list Screenshot) :
  Multi.occurrences id (Multi.insert_desc key x l)
  = Multi.occurrences id (x :: l).
Proof.
  induction l as [|y l IH]; cbn [Multi.insert_desc]; [reflexivity|].
  destruct (key y <=? key x); [reflexivity|].
  change (Multi.occurrences id ([y] ++ Multi.insert_desc key x l)
          = Multi.occurrences id ([x] ++ [y] ++ l)).
  rewrite !occurrences_app, IH.
  change (x :: l) with ([x] ++ l)%list. rewrite occurrences_app. lia.
Qed.

Lemma occurrences_orderBy_desc (key : Screenshot -> Z) (l : list Screenshot) :
  Multi.occurrences id (Multi.orderBy_desc key l) = Multi.occurrences id l.
Proof.
  unfold Multi.orderBy_desc. induction l as [|x l IH]; [reflexivity|].
  cbn [fold_right]. rewrite occurrences_insert_desc.
  change (Multi.occurrences id ([x] ++ fold_right (Multi.insert_desc key) [] l)
          = Multi.occurrences id ([x] ++ l)).
  now rewrite !occurrences_app, IH.
Qed.

Lemma shown_app (r1 r2 : list (Screenshot * ScreenshotCategory * Category)) :
  shown (r1 ++ r2)%list = (shown r1 + shown r2)%nat.
Proof. now rewrite List.filter_app, map_app, occurrences_app. Qed.

Lemma shown_other (x : Screenshot) :
  s_id x <> id -> shown (rows_of x) = 0%nat.
Proof.
  intros Hne.
  induction (List.filter (fun l => String.eqb (s_id x) (sc_screenshotId l))
                         (screenshotCategories d)) as [|l ls IH];
    [reflexivity|].
  cbn [flat_map]. rewrite shown_app, IH, Nat.add_0_r.
  induction (List.filter (fun c' => c_id c' =? sc_categoryId l)
                         (Store.categories d)) as [|c' cs IHc];
    [reflexivity|].
  cbn [map List.filter snd]. destruct (String.eqb (c_name c') c); [|exact IHc].
  cbn [map fst]. unfold Multi.occurrences in *. cbn [List.filter].
  apply String.eqb_neq in Hne. rewrite Hne. exact IHc.
Qed.

Lemma shown_own (x : Screenshot) :
  s_id x = id ->
  shown (rows_of x)
  = List.length
      (List.filter (fun e : string * option Q => String.eqb (fst e) c)
                   (categories_of id d)).
Proof.
  intros Hid. unfold categories_of, links_of.
  rewrite (List.filter_ext
             (fun l => String.eqb (s_id x) (sc_screenshotId l))
             (fun l => String.eqb (sc_screenshotId l) id))
    by (intros l; rewrite Hid; apply String.eqb_sym).
  induction (List.filter (fun l => String.eqb (sc_screenshotId l) id)
                         (screenshotCategories d)) as [|l ls IH];
    [reflexivity|].
  cbn [flat_map]. rewrite shown_app, IH, List.filter_app, length_app.
  f_equal.
  induction (List.filter (fun c' => c_id c' =? sc_categoryId l)
                         (Store.categories d)) as [|c' cs IHc];
    [reflexivity|].
  cbn [map List.filter snd fst].
  destruct (String.eqb (c_name c') c); [|exact IHc].
  cbn [map fst List.length]. unfold Multi.occurrences in *.
  cbn [List.filter]. apply String.eqb_eq in Hid. rewrite Hid.
  cbn [List.length]. now rewrite IHc.
Qed.

Lemma shown_none (l : list Screenshot) :
  ~ In id (map s_id l) -> shown (flat_map (fun x => rows_of x) l) = 0%nat.
Proof.
  induction l as [|x l IH]; [reflexivity|]. cbn [map flat_map]. intros Hn.
  rewrite shown_app, IH, shown_other; [reflexivity| |]; intros H;
    apply Hn; [now left | now right].
Qed.

Lemma shown_once (l : list Screenshot) :
  NoDup (map s_id l) -> In id (map s_id l) ->
  shown (flat_map (fun x => rows_of x) l)
  = List.length
      (List.filter (fun e : string * option Q => String.eqb (fst e) c)
                   (categories_of id d)).
Proof.
  induction l as [|x l IH]; [intros _ []|]. cbn [map flat_map].
  intros Hnd Hin. apply NoDup_cons in Hnd as [Hx Hl]. rewrite shown_app.
  destruct (String.eqb (s_id x) id) eqn:E.
  - apply String.eqb_eq in E. rewrite (shown_own x E), shown_none; [lia|].
    intros H. apply Hx. rewrite E. now apply list_elem_of_In.
  - apply String.eqb_neq in E. rewrite (shown_other x E).
    destruct Hin as [H|H]; [contradiction|]. now rewrite IH.
Qed.

End CategoryListing.

Lemma list_rows_by_category (c : string) (d : DB Multi.Analysis) :
  c <> "" ->
  Multi.list_rows (Multi.page (Multi.by_category c) (-1) 0) d
  = Multi.orderBy_desc s_uploadedAt
      (map (fun r => fst (fst r))
           (List.filter (fun r => String.eqb (c_name (snd r)) c)
                        (Multi.join_categories d))).
Proof.
  intros Hc.
  unfold Multi.list_rows, Multi.page, Multi.by_category, Multi.conditions_of,
         Multi.and_all, Multi.limit_offset, Js.truthy.
  cbn [Multi.q_category Multi.q_important_only Multi.q_limit Multi.q_offset
       Multi.q_date_from Multi.q_date_to default from_option id forallb app].
  apply String.eqb_neq in Hc. rewrite Hc. cbn [negb].
  change (-1 <? 0) with true. change (Z.to_nat 0) with 0%nat.
  rewrite skipn_O. do 2 f_equal. apply List.filter_ext. intros r. apply andb_true_r.
Qed.

(** X24.  [GET /screenshots?category=c] has no DISTINCT: with unique ids, a
    stored screenshot appears in the unpaged listing for a category name once
    for every link it has to a category of that name, that is, as often as the
    name occurs among the categories its analysis view shows; a screenshot
    linked twice to one category is listed twice, and one without such a link
    is not listed. *)
Theorem category_listing_counts_links (c : string) (s : Screenshot)
        (d : DB Multi.Analysis) :
  c <> "" ->
  NoDup (map s_id (screenshots d)) ->
  In s (screenshots d) ->
  Multi.occurrences (s_id s)
    (Multi.list_rows (Multi.page (Multi.by_category c) (-1) 0) d)
  = List.length
      (List.filter (fun e : string * option Q => String.eqb (fst e) c)
                   (categories_of (s_id s) d)).
Proof.
  intros Hc Hnd Hin. rewrite (list_rows_by_category c d Hc).
  rewrite occurrences_orderBy_desc. unfold Multi.join_categories.
  apply shown_once; [exact Hnd | now apply in_map].
Qed.

Lemma category_listing_counts_links_witness :
  map s_id
      (Multi.list_rows (Multi.page (Multi.by_category "Dev") (-1) 0)
         (w_db (snd (Multi.upload Sample.same_label_twice
                                  (FormData (FormFile Sample.png))
                                  Sample.empty_world))))
  = ["s-0001"; "s-0001"]
  /\ Multi.occurrences "s-0001"
       (Multi.list_rows (Multi.page (Multi.by_category "Dev") (-1) 0)
          (w_db (snd (Multi.upload Sample.same_label_twice
                                   (FormData (FormFile Sample.png))
                                   Sample.empty_world))))
     = 2%nat.
Proof.
  split; [vm_compute; reflexivity|].
  pose proof (select_in_upload_db Sample.same_label_twice Sample.png
                                  empty_db eq_refl) as Hsel.
  apply find_some in Hsel as [Hin _].
  refine (eq_trans (category_listing_counts_links "Dev" _ _ _ _ Hin) _).
  - discriminate.
  - apply (bool_decide_unpack _). vm_compute. exact I.
  - vm_compute. reflexivity.
Defined.
